(** * publicadmin: the statistics job of [1_data_analysis.py]

    A shallow embedding of the five aggregation routines of
    [1_data_analysis.py] (demographics, environmental perception, symptoms
    by floor, condition/symptom correlations, sensor summary) and of the
    script's entry point, followed by the properties of the specification
    that concern them.

    The routines are written once, over an interface [Float] of the
    arithmetic Python and NumPy perform on 64-bit floats.  Two instances
    are given: [exact], where a float is [NaN] or a rational and every
    operation is exact, and [binary64], IEEE 754 double precision as the
    interpreter really computes.  General statements are proved for
    [exact], and for [binary64] as well where rounding leaves them true;
    [binary64] shows what rounding does to the others.

    The calls into pandas and SciPy are embedded by what they return on the
    data at hand: [value_counts], [groupby], [dropna], [map], [fillna],
    [get], [min], [max] and [mean] as pandas documents them, [pearsonr] as
    SciPy 1.3 and later treat short and constant samples.  The statistic of
    a regular sample stays a parameter, and so does the release of pandas,
    of which the repository pins none: the releases before 3.0 read an
    integer key of [get] as a position where the later ones read a
    label. *)

From Stdlib Require Import List String Ascii Bool Arith ZArith QArith Lia Lqa.
From Stdlib Require Import Floats Uint63 Permutation Sorted.
Import ListNotations.

Local Open Scope string_scope.
Local Open Scope list_scope.

(** ** Floats *)

Class Float (F : Type) := {
  nan : F;
  isnan : F -> bool;
  (** the value of a literal, or of an integer count *)
  lit : Q -> F;
  add : F -> F -> F;
  mul : F -> F -> F;
  div : F -> F -> F;
  (** [==] and [<]; both are [False] as soon as one side is [nan] *)
  eqb : F -> F -> bool;
  ltb : F -> F -> bool
}.

Definition of_nat {F} `{Float F} (n : nat) : F := lit (inject_Z (Z.of_nat n)).

(** *** Exact arithmetic *)

Inductive number : Type :=
| NaN
| Fin (q : Q).

Definition number_isnan (x : number) : bool :=
  match x with NaN => true | Fin _ => false end.

Definition number_lift (op : Q -> Q -> Q) (x y : number) : number :=
  match x, y with
  | Fin a, Fin b => Fin (op a b)
  | _, _ => NaN
  end.

(** NumPy gives [nan] or an infinity for a division by zero; no routine
    below divides by zero. *)
Definition number_div (x y : number) : number :=
  match x, y with
  | Fin a, Fin b => if Qeq_bool b 0 then NaN else Fin (a / b)
  | _, _ => NaN
  end.

Definition number_eqb (x y : number) : bool :=
  match x, y with
  | Fin a, Fin b => Qeq_bool a b
  | _, _ => false
  end.

Definition number_ltb (x y : number) : bool :=
  match x, y with
  | Fin a, Fin b => negb (Qle_bool b a)
  | _, _ => false
  end.

#[export] Instance exact : Float number := {|
  nan := NaN;
  isnan := number_isnan;
  lit := Fin;
  add := number_lift Qplus;
  mul := number_lift Qmult;
  div := number_div;
  eqb := number_eqb;
  ltb := number_ltb
|}.

(** *** IEEE 754 binary64 *)

Definition float_of_Z (z : Z) : float :=
  match z with
  | Z0 => PrimFloat.zero
  | Zpos _ => PrimFloat.of_uint63 (Uint63.of_Z z)
  | Zneg p => PrimFloat.opp (PrimFloat.of_uint63 (Uint63.of_Z (Zpos p)))
  end.

(** A decimal literal denotes the double nearest to it, which a correctly
    rounded division of its numerator by its denominator yields when both
    are below [2^53]. *)
Definition float_lit (q : Q) : float :=
  PrimFloat.div (float_of_Z (Qnum q)) (float_of_Z (Zpos (Qden q))).

#[export] Instance binary64 : Float float := {|
  nan := PrimFloat.nan;
  isnan := PrimFloat.is_nan;
  lit := float_lit;
  add := PrimFloat.add;
  mul := PrimFloat.mul;
  div := PrimFloat.div;
  eqb := PrimFloat.eqb;
  ltb := PrimFloat.ltb
|}.


(** ** Python values and effects *)

(** The exceptions the routines can raise.  [KeyError key] carries the
    argument of the exception: a column name, or the message pandas makes of
    one.  [KeyErrorNoneOf keys] is the [KeyError] of [df[keys]] when the
    table has none of the columns [keys]; its message holds the [repr] of
    an index of these names, which changes with the release of pandas and
    the width of the display. *)
Inductive exn : Type :=
| KeyError (key : string)
| KeyErrorNoneOf (keys : list string)
| IndexError
| ValueError
| TypeError.

(** The release of pandas the script runs on; the repository pins none.
    Before pandas 3.0 [Series.__getitem__], and [Series.get] through it,
    reads an integer key as a position when the index holds no number; from
    3.0 on every key is a label. *)
Inductive version : Type :=
| Before3
| From3.

(** A key of [Series.get] in the script: an [int] or a [str] literal. *)
Inductive key : Type :=
| Int (n : nat)
| Label (s : string).

Inductive outcome (A : Type) : Type :=
| Return (a : A)
| Raise (e : exn).
Arguments Return {A} a.
Arguments Raise {A} e.

Definition outcome_bind {A B} (m : outcome A) (k : A -> outcome B) : outcome B :=
  match m with
  | Return a => k a
  | Raise e => Raise e
  end.

Fixpoint outcome_map {A B} (f : A -> outcome B) (l : list A) : outcome (list B) :=
  match l with
  | [] => Return []
  | a :: t =>
      outcome_bind (f a) (fun b =>
      outcome_bind (outcome_map f t) (fun bs => Return (b :: bs)))
  end.

(** A stable sort: [sorted(l)] for the order [le]. *)
Fixpoint insert {A} (le : A -> A -> bool) (a : A) (l : list A) : list A :=
  match l with
  | [] => [a]
  | b :: t => if le a b then a :: l else b :: insert le a t
  end.

Definition sort {A} (le : A -> A -> bool) (l : list A) : list A :=
  fold_right (insert le) [] l.

Definition newline : string := String (ascii_of_nat 10) EmptyString.
Definition dquote : string := String (ascii_of_nat 34) EmptyString.

Section Program.

Context {F : Type} `{Float F}.

(** *** Series and data frames *)

(** A cell holds a float, [nan] standing for a missing value, or a
    string. *)
Inductive cell : Type :=
| Num (x : F)
| Str (s : string).

Definition Series : Type := list cell.

(** Columns in file order, every column with one cell per row. *)
Definition DataFrame : Type := list (string * Series).

Definition isna (c : cell) : bool :=
  match c with
  | Num x => isnan x
  | Str _ => false
  end.

Definition notna (c : cell) : bool := negb (isna c).

(** Python's [==] on two cells. *)
Definition cell_eqb (a b : cell) : bool :=
  match a, b with
  | Num x, Num y => eqb x y
  | Str s, Str t => String.eqb s t
  | _, _ => false
  end.

Definition is_str (c : cell) : bool :=
  match c with
  | Num _ => false
  | Str _ => true
  end.

(** The order in which pandas sorts the keys of a [groupby]: numbers by
    value, before strings in Python's order of strings. *)
Definition cell_leb (a b : cell) : bool :=
  match a, b with
  | Num x, Num y => negb (ltb y x)
  | Num _, Str _ => true
  | Str _, Num _ => false
  | Str s, Str t => String.leb s t
  end.

(** [df[col]] *)
Definition getitem (df : DataFrame) (col : string) : outcome Series :=
  match find (fun e => String.eqb col (fst e)) df with
  | Some e => Return (snd e)
  | None => Raise (KeyError col)
  end.

(** [df.groupby(by)[col]] once [df.groupby(by)] is made: the column
    [col]; where [df[col]] raises [KeyError], so does this, with a message
    of its own. *)
Definition groupby_getitem (df : DataFrame) (col : string) : outcome Series :=
  match getitem df col with
  | Return s => Return s
  | Raise _ => Raise (KeyError ("Column not found: " ++ col))
  end.

(** [df[[a, b]]]: the two columns, and [KeyError] when one is not there;
    the message names the column the table lacks, in the [repr] of a list,
    which puts a name without quotes or backslashes between single
    quotes. *)
Definition getitem_pair (df : DataFrame) (a b : string) : outcome (Series * Series) :=
  match getitem df a, getitem df b with
  | Return x, Return y => Return (x, y)
  | Raise _, Return _ => Raise (KeyError ("['" ++ a ++ "'] not in index"))
  | Return _, Raise _ => Raise (KeyError ("['" ++ b ++ "'] not in index"))
  | Raise _, Raise _ => Raise (KeyErrorNoneOf [a; b])
  end.

(** [df.iloc[:, -k]] *)
Definition iloc_from_end (df : DataFrame) (k : nat) : outcome Series :=
  if (1 <=? k)%nat && (k <=? List.length df)%nat
  then match nth_error df (List.length df - k) with
       | Some e => Return (snd e)
       | None => Raise IndexError
       end
  else Raise IndexError.

Definition dropna (s : Series) : Series := filter notna s.

(** The distinct values of a series, each kept where it first occurs. *)
Fixpoint unique (s : Series) : Series :=
  match s with
  | [] => []
  | c :: t => c :: filter (fun d => negb (cell_eqb c d)) (unique t)
  end.

Definition count (k : cell) (s : Series) : nat :=
  List.length (filter (cell_eqb k) s).

(** [s.value_counts(normalize=True) * 100]: the share of every distinct
    non-missing value among the non-missing values, in percent, the most
    frequent value first.  Values that occur equally often stand in the
    order of their first occurrence, as a stable sort of the counts leaves
    them. *)
Definition value_counts_pct (s : Series) : list (cell * F) :=
  let vals := dropna s in
  map (fun k => (k, mul (div (of_nat (count k vals)) (of_nat (List.length vals))) (lit 100)))
      (sort (fun a b => (count b vals <=? count a vals)%nat) (unique vals)).

(** The entry of [counts] whose label equals [label], [default] when there
    is none. *)
Definition lookup (counts : list (cell * F)) (label : cell) (default : F) : F :=
  match find (fun e => cell_eqb label (fst e)) counts with
  | Some e => snd e
  | None => default
  end.

(** The label an [int] or a [str] key stands for. *)
Definition key_cell (k : key) : cell :=
  match k with
  | Int n => Num (of_nat n)
  | Label s => Str s
  end.

(** [counts.get(key, default)]: [counts[key]], and [default] when that
    raises [KeyError] or [IndexError].  A key is looked up as a label;
    before pandas 3.0 an [int] is the position of an entry instead when the
    index holds a string, be it beside floats. *)
Definition get (pandas : version) (counts : list (cell * F)) (k : key) (default : F)
  : F :=
  match pandas, k with
  | Before3, Int n =>
      if existsb is_str (map fst counts) then nth n (map snd counts) default
      else lookup counts (key_cell k) default
  | _, _ => lookup counts (key_cell k) default
  end.

(** Reductions over the non-missing floats, as [Series.min], [Series.max]
    and [Series.mean] compute them with [skipna=True]. *)
Definition skipna (xs : list F) : list F := filter (fun x => negb (isnan x)) xs.

(** NumPy adds fewer than eight floats from left to right, as here; it adds
    a longer array in blocks, which moves the rounding of a binary64 sum and
    leaves an exact sum as it is. *)
Definition sum (xs : list F) : F := fold_left add xs (lit 0).

Definition series_min (xs : list F) : F :=
  match skipna xs with
  | [] => nan
  | x :: t => fold_left (fun m y => if ltb y m then y else m) t x
  end.

Definition series_max (xs : list F) : F :=
  match skipna xs with
  | [] => nan
  | x :: t => fold_left (fun m y => if ltb m y then y else m) t x
  end.

Definition series_mean (xs : list F) : F :=
  match skipna xs with
  | [] => nan
  | v => div (sum v) (of_nat (List.length v))
  end.

(** *** Printed output *)

Inductive out : Type :=
(** [print(s)] *)
| Text (s : string)
(** [print(pd.DataFrame({'Percentage': counts}))] *)
| Percentages (counts : list (cell * F))
(** [print(pd.DataFrame(results))]: stressor, often/always, sometimes,
    rarely/never *)
| Perception (results : list (string * F * F * F))
(** [print(pd.DataFrame(matrix))]: per symptom, the floors and their
    percentage *)
| Matrix (matrix : list (string * list (cell * F)))
(** one line of Table 4: [cond[:15]], [symp[:15]], [r_val] and [sig] *)
| Correlation (cond symp : string) (r_val : F) (sig : string)
(** [print(pd.DataFrame(sensor_summary, index=['Min', 'Max', 'Mean']))] *)
| Summary (sensor_summary : list (string * (F * F * F))).

(** A routine prints as it runs and ends normally or by an exception. *)
Definition io (A : Type) : Type := (list out * outcome A)%type.

Definition ret {A} (a : A) : io A := ([], Return a).

Definition bind {A B} (m : io A) (k : A -> io B) : io B :=
  match m with
  | (o, Return a) => let (o', r) := k a in (o ++ o', r)
  | (o, Raise e) => (o, Raise e)
  end.

Definition print (o : out) : io unit := ([o], Return tt).

Definition lift {A} (m : outcome A) : io A := ([], m).

End Program.

Arguments cell F : clear implicits.
Arguments Series F : clear implicits.
Arguments DataFrame F : clear implicits.
Arguments out F : clear implicits.
Arguments io F A : clear implicits.
Arguments Num {F} x.
Arguments Str {F} s.
Arguments Text {F} s.
Arguments Percentages {F} counts.
Arguments Perception {F} results.
Arguments Matrix {F} matrix.
Arguments Correlation {F} cond symp r_val sig.
Arguments Summary {F} sensor_summary.
Arguments ret {F A} a.
Arguments bind {F A B} m k.
Arguments print {F} o.
Arguments lift {F A} m.

Declare Scope io_scope.
Delimit Scope io_scope with io.
Notation "x <- m ;; k" := (bind m (fun x => k))
  (at level 61, m at next level, right associativity) : io_scope.
Notation "m ;; k" := (bind m (fun _ => k))
  (at level 61, right associativity) : io_scope.

Local Open Scope io_scope.

(** ** The analysis routines *)

Section Routines.

Context {F : Type} `{Float F}.

(** [scipy.stats.pearsonr] on a sample it accepts as regular: the
    coefficient and its two-sided p-value.  They take a square root and the
    incomplete beta function and are library code, not the repository's:
    the routines are stated for any such function. *)
Variable pearson_regular : list F -> list F -> F * F.

(** The release of pandas at hand. *)
Variable pandas : version.

(** *** Table 1 *)

Definition duration_mapping : list (string * string) :=
  [ ("1 - 2 hours", "< 2 Hours");
    ("2 - 4 hours", "2 - 4 Hours");
    ("> 4", "> 4 Hours") ].

Definition duration_col : string := "Working Hours/ Study Hours".

Definition status_counts (df : DataFrame F) : outcome (list (cell F * F)) :=
  outcome_bind (getitem df "Status") (fun s => Return (value_counts_pct s)).

Definition gender_counts (df : DataFrame F) : outcome (list (cell F * F)) :=
  outcome_bind (getitem df "Gender") (fun s => Return (value_counts_pct s)).

Definition duration_dist (df : DataFrame F) : outcome (list (cell F * F)) :=
  outcome_bind (getitem df duration_col) (fun s => Return (value_counts_pct s)).

Definition analyze_demographics (df : DataFrame F) : io F unit :=
  status_counts <- lift (status_counts df) ;;
  gender_counts <- lift (gender_counts df) ;;
  duration_dist <- lift (duration_dist df) ;;
  print (Text "--- Table 1: Socio-Demographics Analysis ---") ;;
  print (Percentages status_counts) ;;
  print (Percentages gender_counts) ;;
  print (Text newline).

(** *** Table 2 *)

Definition stressors : list (string * string) :=
  [ ("Stuffy Air",
     ("Environment [Stuffy " ++ dquote ++ "bad" ++ dquote ++ " air]")%string);
    ("High Temp", "Environment [Room temperature too high]");
    ("Noise", "Environment [Noise]") ].

(** One entry of [results], from the column of the stressor. *)
Definition perception_row (label : string) (s : Series F) : string * F * F * F :=
  let counts := value_counts_pct s in
  (label,
   add (get pandas counts (Int 1) (lit 0)) (get pandas counts (Label "Yes") (lit 0)),
   get pandas counts (Int 2) (lit 0),
   add (get pandas counts (Int 0) (lit 0)) (get pandas counts (Label "No") (lit 0))).

Definition analyze_perception (df : DataFrame F) : io F unit :=
  results <- lift (outcome_map
                     (fun '(label, col) =>
                        outcome_bind (getitem df col) (fun s =>
                        Return (perception_row label s)))
                     stressors) ;;
  print (Text "--- Table 2: Environmental Perception ---") ;;
  print (Perception results) ;;
  print (Text newline).

(** *** Table 3 *)

Definition symptoms_by_floor : list string :=
  [ "Symptoms [Fatigue]"; "Symptoms [Headache]";
    "Symptoms [Difficulties concentrating]" ].

Definition floor_col : string := "Floor".

(** [(x == 1).mean() * 100] *)
Definition presence_pct (x : Series F) : F :=
  mul (series_mean
         (map (fun c => if cell_eqb c (Num (lit 1)) then lit 1 else lit 0) x))
      (lit 100).

(** [df.groupby(floor_col)[symptom].apply(f)]: rows whose floor is missing
    belong to no group; a group holds the symptom cells of its rows,
    missing ones included.  The groups are listed by increasing floor. *)
Definition groupby_apply (floor symptom : Series F) (f : Series F -> F)
  : list (cell F * F) :=
  let rows := combine floor symptom in
  map (fun k => (k, f (map snd (filter (fun r => cell_eqb k (fst r)) rows))))
      (sort cell_leb (unique (dropna floor))).

Definition analyze_symptoms_matrix (df : DataFrame F) : io F unit :=
  matrix <- lift (outcome_map
                    (fun symptom =>
                       outcome_bind (getitem df floor_col) (fun floor =>
                       outcome_bind (groupby_getitem df symptom) (fun s =>
                       Return (symptom, groupby_apply floor s presence_pct))))
                    symptoms_by_floor) ;;
  print (Text "--- Table 3: Symptoms Matrix (%) by Floor ---") ;;
  print (Matrix matrix) ;;
  print (Text newline).

(** *** Table 4 *)

Definition conditions : list string :=
  [ "Condition [Do you have too much work to do?]";
    "Condition [Do you regard your work as interesting and stimulating?]";
    "Condition [Do you have any opportunity to influence your working conditions?]" ].

Definition symptoms : list string :=
  [ "Symptoms [Suffering from stress]"; "Symptoms [Fatigue]";
    "Symptoms [Difficulties concentrating]" ].

(** [df[[cond, symp]].dropna()]: the rows where neither cell is missing. *)
Definition subset (c s : Series F) : list (cell F * cell F) :=
  filter (fun r => notna (fst r) && notna (snd r)) (combine c s).

(** [.map({'Yes': 1, 'No': 0})] on one cell: the entry of the dictionary,
    [nan] for a cell that is not one of its keys. *)
Definition map_yes_no (c : cell F) : F :=
  match c with
  | Str s => if String.eqb s "Yes" then lit 1
             else if String.eqb s "No" then lit 0
             else nan
  | Num _ => nan
  end.

(** [pd.to_numeric(_, errors='coerce')] receives floats and returns them. *)
Definition to_numeric (x : F) : F := x.

(** [.fillna(0)] on one float. *)
Definition fillna (x : F) : F := if isnan x then lit 0 else x.

Definition convert (col : Series F) : list F :=
  map (fun c => fillna (to_numeric (map_yes_no c))) col.

(** [(x == x[0]).all()] *)
Definition constant (x : list F) : bool :=
  match x with
  | [] => true
  | x0 :: _ => forallb (fun v => eqb v x0) x
  end.

(** [pearsonr(x, y)] (SciPy 1.3 and later): fewer than two observations
    raise [ValueError]; a constant sequence gives [(nan, nan)] and a
    warning. *)
Definition pearsonr (x y : list F) : outcome (F * F) :=
  if negb (List.length x =? List.length y)%nat then Raise ValueError
  else if (List.length x <? 2)%nat then Raise ValueError
  else if constant x || constant y then Return (nan, nan)
  else Return (pearson_regular x y).

(** ["**" if p_val < 0.01 else "*" if p_val < 0.05 else ""] *)
Definition significance (p_val : F) : string :=
  if ltb p_val (lit (1 # 100)) then "**"
  else if ltb p_val (lit (5 # 100)) then "*"
  else "".

(** The body of the double loop, for the columns of one pair. *)
Definition correlate (cond symp : string) (c s : Series F) : io F unit :=
  let subset := subset c s in
  let c_val := convert (map fst subset) in
  let s_val := convert (map snd subset) in
  result <- lift (pearsonr c_val s_val) ;;
  let (r_val, p_val) := result : F * F in
  print (Correlation (substring 0 15 cond) (substring 0 15 symp)
                     r_val (significance p_val)).

Fixpoint for_each {A} (l : list A) (body : A -> io F unit) : io F unit :=
  match l with
  | [] => ret tt
  | a :: t => body a ;; for_each t body
  end.

Definition analyze_correlations (df : DataFrame F) : io F unit :=
  print (Text "--- Table 4: Correlation Coefficient (r) Matrix ---") ;;
  for_each conditions (fun cond =>
    for_each symptoms (fun symp =>
      columns <- lift (getitem_pair df cond symp) ;;
      correlate cond symp (fst columns) (snd columns))) ;;
  print (Text newline).

(** *** Table 5 *)

(** The floats of a numeric column.  pandas refuses the mean of a column
    of strings. *)
Definition floats (s : Series F) : outcome (list F) :=
  outcome_map (fun c => match c with
                        | Num x => Return x
                        | Str _ => Raise TypeError
                        end) s.

(** [[df.iloc[:, -k].min(), df.iloc[:, -k].max(), df.iloc[:, -k].mean()]] *)
Definition min_max_mean (df : DataFrame F) (k : nat) : outcome (F * F * F) :=
  outcome_bind (iloc_from_end df k) (fun s =>
  outcome_bind (floats s) (fun xs =>
  Return (series_min xs, series_max xs, series_mean xs))).

Definition analyze_sensors (df : DataFrame F) : io F unit :=
  co2 <- lift (min_max_mean df 4) ;;
  pm25 <- lift (min_max_mean df 6) ;;
  tvoc <- lift (min_max_mean df 2) ;;
  let sensor_summary :=
    [ ("CO2 (ppm)", co2); ("PM2.5 (ug/m3)", pm25); ("TVOC (ppb)", tvoc) ] in
  print (Text "--- Table 5: Sensor Analysis (Min, Max, Mean) ---") ;;
  print (Summary sensor_summary) ;;
  print (Text newline).

(** *** The entry point *)

Definition main (survey_data : DataFrame F) : io F unit :=
  print (Text "RESEARCH ANALYSIS: PUBLIC ADMIN JOURNAL") ;;
  print (Text "================================================================") ;;
  let clean_df := survey_data in
  analyze_demographics clean_df ;;
  analyze_perception clean_df ;;
  analyze_symptoms_matrix clean_df ;;
  analyze_correlations clean_df ;;
  analyze_sensors clean_df ;;
  print (Text "Note: Technical performance metrics (Table 6-8) are derived from the ") ;;
  print (Text "TinyML model deployment logs and hardware profiling on the MCU.").

End Routines.

Arguments pearsonr {F _} pearson_regular x y.
Arguments correlate {F _} pearson_regular cond symp c s.
Arguments analyze_correlations {F _} pearson_regular df.
Arguments perception_row {F _} pandas label s.
Arguments analyze_perception {F _} pandas df.
Arguments main {F _} pearson_regular pandas survey_data.

(** ** Vocabulary of the statements *)

(** Closed examples reach [pearsonr] only with samples it rejects or finds
    constant, so that the library statistic is never called; where one has
    to be named they name this one.  The lemmas they instantiate hold for
    every statistic. *)
Definition unreached {F} `{Float F} : list F -> list F -> F * F :=
  fun _ _ => (nan, nan).

(** The two lines the job prints first, and the five routines in the order
    the script calls them. *)
Definition banner {F} : list (out F) :=
  [ Text "RESEARCH ANALYSIS: PUBLIC ADMIN JOURNAL";
    Text "================================================================" ].

Definition routines {F} `{Float F} (stat : list F -> list F -> F * F)
           (pandas : version) : list (DataFrame F -> io F unit) :=
  [ analyze_demographics; analyze_perception pandas; analyze_symptoms_matrix;
    analyze_correlations stat; analyze_sensors ].

(** Equality of exact floats, up to the representation of a rational. *)
Definition number_eq (x y : number) : Prop :=
  match x, y with
  | NaN, NaN => True
  | Fin a, Fin b => a == b
  | _, _ => False
  end.

Infix "=~" := number_eq (at level 70, no associativity).

(** [p < q] and [q <= p] for a float [p] and a rational [q]: false for
    [nan]. *)
Definition below (p : number) (q : Q) : Prop :=
  match p with
  | NaN => False
  | Fin a => a < q
  end.

Definition at_least (p : number) (q : Q) : Prop :=
  match p with
  | NaN => False
  | Fin a => q <= a
  end.

(** The cell is the string "Yes". *)
Definition is_yes {F} (c : cell F) : bool :=
  match c with
  | Str s => String.eqb s "Yes"
  | Num _ => false
  end.



(** [100 * k / n] *)
Definition share (k n : nat) : Q :=
  100 * inject_Z (Z.of_nat k) / inject_Z (Z.of_nat n).

(** All the floats of a sequence are equal: it has zero variance. *)
Definition all_equal (x : list number) : Prop :=
  forall a b, In a x -> In b x -> a =~ b.

(** Two surveys with a column missing: one with the columns of Tables 1
    and 2 only, one with every column the script names but "Status". *)
Definition survey_without_floor : DataFrame float :=
  [ ("Status", [Str "Staff"; Str "Student"]);
    ("Gender", [Str "F"; Str "M"]);
    ("Working Hours/ Study Hours", [Str "> 4"; Str "> 4"]);
    (snd (nth 0 stressors ("", "")), [Num 1%float; Num 2%float]);
    ("Environment [Room temperature too high]", [Num 0%float; Num 0%float]);
    ("Environment [Noise]", [Str "Yes"; Str "No"]) ].

Definition survey_without_status : DataFrame float :=
  map (fun col => (col, [Num 1%float; Num 0%float; Num 1%float]))
      ([ "Gender"; duration_col ] ++ map snd stressors ++ [ floor_col ]
       ++ symptoms_by_floor ++ conditions ++ symptoms).

(** The sum of a list of rationals. *)
Definition Qsum (qs : list Q) : Q := fold_right Qplus 0 qs.

(** The values of a column of exact floats that are not missing. *)
Definition finite_values (xs : list number) : list Q :=
  flat_map (fun x => match x with NaN => [] | Fin q => [q] end) xs.

(** A sensor log of six columns whose PM2.5 readings are three times the
    double nearest to 0.1. *)
Definition steady_pm25 : DataFrame float :=
  [ ("PM2.5", [ Num 0x1.999999999999ap-4%float; Num 0x1.999999999999ap-4%float;
               Num 0x1.999999999999ap-4%float ]);
    ("Temperature", [ Num 24%float; Num 25%float; Num 26%float ]);
    ("CO2", [ Num 400%float; Num 420%float; Num 1500%float ]);
    ("Humidity", [ Num 60%float; Num 61%float; Num 62%float ]);
    ("TVOC", [ Num 3%float; Num PrimFloat.nan; Num PrimFloat.nan ]);
    ("Label", [ Str "ok"; Str "ok"; Str "alert" ]) ].

(** Scenario E: the CO2 readings 400, 420 and 1500, the second reading of
    the other two sensors missing. *)
Definition scenario_E : DataFrame number :=
  [ ("PM2.5", [ Num (Fin 12); Num NaN; Num (Fin 35) ]);
    ("Temperature", [ Num (Fin 24); Num (Fin 25); Num (Fin 26) ]);
    ("CO2", [ Num (Fin 400); Num (Fin 420); Num (Fin 1500) ]);
    ("Humidity", [ Num (Fin 60); Num (Fin 61); Num (Fin 62) ]);
    ("TVOC", [ Num (Fin 3); Num NaN; Num NaN ]);
    ("Label", [ Str "ok"; Str "ok"; Str "alert" ]) ].

(** The table has a column of that name. *)
Definition has_column {F} (df : DataFrame F) (col : string) : bool :=
  existsb (String.eqb col) (map fst df).

(** The first of the columns [cols] that the table lacks. *)
Definition first_missing {F} (df : DataFrame F) (cols : list string) : option string :=
  find (fun col => negb (has_column df col)) cols.

(** The columns Tables 1, 2 and 3 look up, in the order of the lookups. *)
Definition demographics_columns : list string := [ "Status"; "Gender"; duration_col ].

Definition perception_columns : list string := map snd stressors.

Definition matrix_columns : list string := floor_col :: symptoms_by_floor.

(** The two lines the job prints last. *)
Definition footer {F} : list (out F) :=
  [ Text "Note: Technical performance metrics (Table 6-8) are derived from the ";
    Text "TinyML model deployment logs and hardware profiling on the MCU." ].

(** How strong a marker is. *)
Definition strength (sig : string) : nat :=
  if String.eqb sig "**" then 2 else if String.eqb sig "*" then 1 else 0.

(** A survey with every column the five routines read, each once; its last
    six columns are those of [steady_pm25]. *)
Definition complete_survey : DataFrame float :=
  ("Status", [Str "Staff"; Str "Student"; Str "Staff"])
  :: map (fun col => (col, [Num 1%float; Num 0%float; Num 1%float]))
         (nodup string_dec
            ([ "Gender"; duration_col ] ++ perception_columns ++ matrix_columns
             ++ conditions ++ symptoms))
  ++ steady_pm25.

(** Every cell gives the same answer to "is it the string Yes?". *)
Definition uniform {F} (col : Series F) : bool :=
  match col with
  | [] => true
  | c0 :: _ => forallb (fun c => Bool.eqb (is_yes c) (is_yes c0)) col
  end.

(** The sequence of zeros and ones that stands for a column in Table 4. *)
Definition indicator {F} `{Float F} (col : Series F) : list F :=
  map (fun c => if is_yes c then lit 1 else lit 0) col.

(** The column holds floats only, missing ones included. *)
Definition numeric {F} (s : Series F) : bool :=
  forallb (fun c => match c with Num _ => true | Str _ => false end) s.

(** The offsets from the last column at which Table 5 reads the CO2, the
    PM2.5 and the TVOC readings. *)
Definition sensor_offsets : list nat := [4; 6; 2]%nat.

(** The index of [value_counts]: the distinct values that are not missing,
    the most frequent first. *)
Definition categories {F} `{Float F} (s : Series F) : Series F :=
  sort (fun a b => (count b (dropna s) <=? count a (dropna s))%nat) (unique (dropna s)).

(** Every key of [get] is looked up as a label in the distribution of the
    column: pandas 3.0 or later, or a column that holds no string. *)
Definition keys_are_labels {F} (pandas : version) (s : Series F) : bool :=
  match pandas with
  | From3 => true
  | Before3 => forallb (fun c => negb (is_str c)) s
  end.

(** The argument of the [KeyError] of Table 3 for a column the table lacks:
    [groupby] raises for the floor column, with its name; the selection on
    the groups raises for a symptom column, with a message. *)
Definition matrix_key (col : string) : string :=
  if String.eqb col floor_col then col else ("Column not found: " ++ col)%string.

(** How often each of the distinct values of a series occurs in it. *)
Definition class_sizes {F} `{Float F} (l : Series F) : list nat :=
  map (fun k => count k l) (unique l).

(** Case analysis on every comparison of exponents and mantissas in sight. *)
Ltac compare_cases :=
  repeat match goal with
    | |- context [Z.compare ?a ?b] =>
        destruct (Z.compare_spec a b); subst; cbn [CompOpp]
    | H : context [Z.compare ?a ?b] |- _ =>
        destruct (Z.compare_spec a b); subst; cbn [CompOpp] in H
    | |- context [Pos.compare_cont Eq ?a ?b] =>
        change (Pos.compare_cont Eq a b) with (Pos.compare a b);
        destruct (Pos.compare_spec a b); subst; cbn [CompOpp]
    | H : context [Pos.compare_cont Eq ?a ?b] |- _ =>
        change (Pos.compare_cont Eq a b) with (Pos.compare a b) in H;
        destruct (Pos.compare_spec a b); subst; cbn [CompOpp] in H
    end.

(** ** Table 4: what reaches [pearsonr] *)

Section Conversion.

Context {F : Type} `{Float F}.

Hypothesis isnan_nan : isnan nan = true.
Hypothesis isnan_0 : isnan (lit 0) = false.
Hypothesis isnan_1 : isnan (lit 1) = false.

Lemma fillna_map_yes_no (c : cell F) :
  fillna (to_numeric (map_yes_no c)) = if is_yes c then lit 1 else lit 0.
Proof.
  unfold fillna, to_numeric.
  destruct c as [x | s]; cbn [map_yes_no is_yes].
  - now rewrite isnan_nan.
  - destruct (String.eqb s "Yes").
    + now rewrite isnan_1.
    + destruct (String.eqb s "No"); [now rewrite isnan_0 | now rewrite isnan_nan].
Qed.

Lemma convert_yes_indicator (col : Series F) :
  convert col = map (fun c => if is_yes c then lit 1 else lit 0) col.
Proof. apply map_ext, fillna_map_yes_no. Qed.

Lemma convert_zero_or_one (col : Series F) :
  Forall (fun x => x = lit 0 \/ x = lit 1) (convert col).
Proof.
  rewrite convert_yes_indicator. apply Forall_forall. intros x Hx.
  apply in_map_iff in Hx as [c [<- _]]. destruct (is_yes c); auto.
Qed.

End Conversion.

(** C10: once the rows with a missing cell are dropped, each of the two
    sequences handed to [pearsonr] is the indicator of the string "Yes":
    every element is 0 or 1, and a cell that is not "Yes" -- "No", any other
    string, a number such as 0, 1 or 2 -- gives 0.  This holds in exact and
    in binary64 arithmetic. *)
Theorem correlation_inputs_are_yes_indicators :
  (forall c s : Series number,
      let subset := subset c s in
      let c_val := convert (map fst subset) in
      let s_val := convert (map snd subset) in
      Forall (fun x => x = Fin 0 \/ x = Fin 1) c_val /\
      Forall (fun x => x = Fin 0 \/ x = Fin 1) s_val /\
      c_val = map (fun r => if is_yes (fst r) then Fin 1 else Fin 0) subset /\
      s_val = map (fun r => if is_yes (snd r) then Fin 1 else Fin 0) subset) /\
  (forall c s : Series float,
      let subset := subset c s in
      let c_val := convert (map fst subset) in
      let s_val := convert (map snd subset) in
      Forall (fun x => x = 0%float \/ x = 1%float) c_val /\
      Forall (fun x => x = 0%float \/ x = 1%float) s_val /\
      c_val = map (fun r => if is_yes (fst r) then 1%float else 0%float) subset /\
      s_val = map (fun r => if is_yes (snd r) then 1%float else 0%float) subset) /\
  convert [Num (Fin 0); Num (Fin 1); Num (Fin 2); Str "No"; Str "yes"; Str "1"]
  = [Fin 0; Fin 0; Fin 0; Fin 0; Fin 0; Fin 0] /\
  convert [Num 0%float; Num 1%float; Num 2%float; Str "No"; Str "yes"; Str "1"]
  = [0%float; 0%float; 0%float; 0%float; 0%float; 0%float].
Proof.
  split; [ | split; [ | split; reflexivity ] ].
  - intros c s sub c_val s_val. subst c_val s_val.
    split; [ | split; [ | split ] ].
    + exact (convert_zero_or_one (F := number) eq_refl eq_refl eq_refl _).
    + exact (convert_zero_or_one (F := number) eq_refl eq_refl eq_refl _).
    + rewrite (convert_yes_indicator (F := number)) by reflexivity.
      rewrite map_map. reflexivity.
    + rewrite (convert_yes_indicator (F := number)) by reflexivity.
      rewrite map_map. reflexivity.
  - intros c s sub c_val s_val. subst c_val s_val.
    split; [ | split; [ | split ] ].
    + exact (convert_zero_or_one (F := float) eq_refl eq_refl eq_refl _).
    + exact (convert_zero_or_one (F := float) eq_refl eq_refl eq_refl _).
    + rewrite (convert_yes_indicator (F := float)) by reflexivity.
      rewrite map_map. reflexivity.
    + rewrite (convert_yes_indicator (F := float)) by reflexivity.
      rewrite map_map. reflexivity.
Qed.

(** C1, on the code: in scenario D the symptom values 1, 0, 1, 0 are
    numbers, which the dictionary of [map] does not hold; they all become 0,
    the symptom sequence is constant, and the line printed carries [nan] and
    no marker, whatever statistic the library computes for regular samples. *)
Theorem scenario_D_prints_nan :
  forall (stat : list number -> list number -> number * number)
         (stat64 : list float -> list float -> float * float),
    convert [Num (Fin 1); Num (Fin 0); Num (Fin 1); Num (Fin 0)]
    = [Fin 0; Fin 0; Fin 0; Fin 0] /\
    correlate stat
      "Condition [Do you have too much work to do?]" "Symptoms [Fatigue]"
      [Str "Yes"; Str "No"; Str "Yes"; Str "No"]
      [Num (Fin 1); Num (Fin 0); Num (Fin 1); Num (Fin 0)]
    = ([Correlation "Condition [Do y" "Symptoms [Fatig" NaN ""], Return tt) /\
    correlate stat64
      "Condition [Do you have too much work to do?]" "Symptoms [Fatigue]"
      [Str "Yes"; Str "No"; Str "Yes"; Str "No"]
      [Num 1%float; Num 0%float; Num 1%float; Num 0%float]
    = ([Correlation "Condition [Do y" "Symptoms [Fatig" PrimFloat.nan ""],
       Return tt).
Proof. intros stat stat64. repeat split. Qed.

(** ** Table 4: degenerate samples *)

Lemma pearsonr_short {F} `{Float F} stat (x y : list F) :
  (List.length x < 2)%nat -> pearsonr stat x y = Raise ValueError.
Proof.
  intros Hn. unfold pearsonr.
  destruct (negb (List.length x =? List.length y)%nat); [reflexivity | ].
  apply Nat.ltb_lt in Hn. now rewrite Hn.
Qed.

Lemma pearsonr_constant {F} `{Float F} stat (x y : list F) :
  List.length x = List.length y -> (2 <= List.length x)%nat ->
  constant x || constant y = true ->
  pearsonr stat x y = Return (nan, nan).
Proof.
  intros Hxy Hn Hc. unfold pearsonr.
  rewrite Hxy, Nat.eqb_refl. cbn [negb]. rewrite <- Hxy.
  apply Nat.ltb_ge in Hn. now rewrite Hn, Hc.
Qed.

Lemma convert_length {F} `{Float F} (col : Series F) :
  List.length (convert col) = List.length col.
Proof. apply length_map. Qed.

Lemma all_equal_constant (x : list number) :
  Forall (fun v => v = Fin 0 \/ v = Fin 1) x -> all_equal x -> constant x = true.
Proof.
  intros Hfin Heq. destruct x as [ | x0 t]; [reflexivity | ].
  unfold constant. apply forallb_forall. intros v Hv.
  specialize (Heq v x0 Hv (or_introl eq_refl)).
  rewrite Forall_forall in Hfin.
  destruct (Hfin v Hv) as [-> | ->], (Hfin x0 (or_introl eq_refl)) as [-> | ->];
    cbn in Heq |- *; try reflexivity; cbv in Heq; discriminate Heq.
Qed.

(** C2, as the code has it: a pair left with fewer than two rows makes
    [pearsonr] raise [ValueError], which ends the routine; a pair with two
    rows or more and a sequence of zero variance prints [nan] as its
    coefficient, with no marker. *)
Theorem degenerate_sample_raises_or_prints_nan :
  forall (stat : list number -> list number -> number * number)
         (cond symp : string) (c s : Series number),
    let rows := subset c s in
    let c_val := convert (map fst rows) in
    let s_val := convert (map snd rows) in
    (List.length rows < 2)%nat \/ all_equal c_val \/ all_equal s_val ->
    correlate stat cond symp c s
    = if (List.length rows <? 2)%nat
      then ([], Raise ValueError)
      else ([Correlation (substring 0 15 cond) (substring 0 15 symp) NaN ""],
            Return tt).
Proof.
  intros stat cond symp c s rows c_val s_val Hdeg.
  assert (Hc : List.length c_val = List.length rows)
    by (unfold c_val; now rewrite convert_length, length_map).
  assert (Hs : List.length s_val = List.length rows)
    by (unfold s_val; now rewrite convert_length, length_map).
  unfold correlate. fold rows. fold c_val. fold s_val.
  destruct (List.length rows <? 2)%nat eqn:Hn.
  - apply Nat.ltb_lt in Hn.
    rewrite pearsonr_short by lia. reflexivity.
  - apply Nat.ltb_ge in Hn.
    destruct Hdeg as [Hlt | Hconst]; [lia | ].
    rewrite pearsonr_constant; [reflexivity | lia | lia | ].
    apply orb_true_iff.
    destruct Hconst as [Hconst | Hconst]; [left | right];
      (apply all_equal_constant;
       [exact (convert_zero_or_one (F := number) eq_refl eq_refl eq_refl _)
       | exact Hconst]).
Qed.

(** A pair with one complete row, and a pair whose symptom is never "Yes". *)
Lemma degenerate_sample_witness :
  correlate unreached "Condition" "Symptoms"
    [Str "Yes"; Num NaN] [Str "No"; Str "Yes"]
  = ([], Raise ValueError) /\
  correlate unreached "Condition" "Symptoms"
    [Str "Yes"; Str "No"; Str "Yes"] [Str "No"; Str "No"; Num (Fin 1)]
  = ([Correlation "Condition" "Symptoms" NaN ""], Return tt).
Proof.
  split.
  - apply (degenerate_sample_raises_or_prints_nan unreached "Condition" "Symptoms"
             [Str "Yes"; Num NaN] [Str "No"; Str "Yes"]).
    left. vm_compute. lia.
  - apply (degenerate_sample_raises_or_prints_nan unreached "Condition" "Symptoms"
             [Str "Yes"; Str "No"; Str "Yes"] [Str "No"; Str "No"; Num (Fin 1)]).
    right. right. intros a b Ha Hb. cbn in Ha, Hb.
    destruct Ha as [<- | [<- | [<- | []]]], Hb as [<- | [<- | [<- | []]]];
      reflexivity.
Defined.

(** C2 as stated fails: with a single complete row nothing is reported for
    the pair; [pearsonr] raises [ValueError]. *)
Lemma single_row_raises_ValueError :
  correlate unreached
    "Condition [Do you have too much work to do?]" "Symptoms [Fatigue]"
    [Str "Yes"; Num NaN; Str "No"] [Str "No"; Str "Yes"; Num NaN]
  = ([], Raise ValueError) /\
  analyze_correlations unreached
    (map (fun col => (col, [Str "Yes"; Num NaN])) (conditions ++ symptoms))
  = ([Text "--- Table 4: Correlation Coefficient (r) Matrix ---"],
     Raise ValueError).
Proof. split; reflexivity. Qed.

(** ** Table 4: the significance marker *)

Lemma SFcompare_antisym (x y : spec_float) :
  SFcompare y x = option_map CompOpp (SFcompare x y).
Proof.
  destruct x as [sx | sx | | sx mx ex], y as [sy | sy | | sy my ey];
    cbn [SFcompare option_map];
    try destruct sx; try destruct sy; try reflexivity;
    rewrite (Z.compare_antisym ex ey); destruct (ex ?= ey)%Z; cbn [CompOpp];
    try reflexivity;
    pose proof (Pos.compare_cont_antisym mx my Eq) as Hm; cbn [CompOpp] in Hm;
    rewrite <- Hm; reflexivity.
Qed.

Lemma SFcompare_nan_right (x y : spec_float) :
  SFcompare x y = None -> x = S754_nan \/ y = S754_nan.
Proof.
  destruct x as [sx | sx | | sx mx ex], y as [sy | sy | | sy my ey];
    cbn [SFcompare]; intros Hc; try discriminate Hc; auto.
Qed.

(** On floats, [not (p < a)] and [p < b] give [a <= p], unless [a] is [nan]. *)
Lemma float_ltb_false_leb (p a b : float) :
  PrimFloat.is_nan a = false ->
  PrimFloat.ltb p a = false -> PrimFloat.ltb p b = true ->
  PrimFloat.leb a p = true.
Proof.
  unfold PrimFloat.is_nan.
  rewrite FloatAxioms.eqb_spec, !FloatAxioms.ltb_spec, FloatAxioms.leb_spec.
  unfold SFeqb, SFltb, SFleb. rewrite (SFcompare_antisym (Prim2SF p) (Prim2SF a)).
  intros Ha Hpa Hpb.
  destruct (SFcompare (Prim2SF p) (Prim2SF a)) as [[ | | ] | ] eqn:Hc;
    cbn [option_map CompOpp]; try reflexivity; try discriminate Hpa.
  apply SFcompare_nan_right in Hc as [Hc | Hc]; rewrite Hc in *.
  - discriminate Hpb.
  - discriminate Ha.
Qed.

Lemma float_leb_ltb_false (p a : float) :
  PrimFloat.leb a p = true -> PrimFloat.ltb p a = false.
Proof.
  rewrite FloatAxioms.ltb_spec, FloatAxioms.leb_spec. unfold SFltb, SFleb.
  rewrite (SFcompare_antisym (Prim2SF p) (Prim2SF a)).
  destruct (SFcompare (Prim2SF p) (Prim2SF a)) as [[ | | ] | ];
    cbn [option_map CompOpp]; intros Hle; try reflexivity; discriminate Hle.
Qed.

(** C6: the marker is "**" exactly when [p < 0.01], "*" exactly when
    [0.01 <= p < 0.05], and empty exactly when neither holds, which covers a
    [nan] p-value; [p = 0.01] gives "*" and [p = 0.05] gives no marker.  In
    exact arithmetic, then in binary64 with the doubles that the literals
    0.01 and 0.05 denote. *)
Theorem significance_thresholds :
  (forall p : number,
      (significance p = "**" <-> below p (1 # 100)) /\
      (significance p = "*" <-> at_least p (1 # 100) /\ below p (5 # 100)) /\
      (significance p = ""
       <-> ~ below p (1 # 100) /\ ~ (at_least p (1 # 100) /\ below p (5 # 100)))) /\
  significance (Fin (1 # 100)) = "*" /\
  significance (Fin (5 # 100)) = "" /\
  (forall p : float,
      (significance p = "**" <-> PrimFloat.ltb p (float_lit (1 # 100)) = true) /\
      (significance p = "*"
       <-> PrimFloat.leb (float_lit (1 # 100)) p = true /\
           PrimFloat.ltb p (float_lit (5 # 100)) = true) /\
      (significance p = ""
       <-> PrimFloat.ltb p (float_lit (1 # 100)) <> true /\
           ~ (PrimFloat.leb (float_lit (1 # 100)) p = true /\
              PrimFloat.ltb p (float_lit (5 # 100)) = true))) /\
  significance (float_lit (1 # 100)) = "*" /\
  significance (float_lit (5 # 100)) = "".
Proof.
  split; [ | split; [reflexivity | split; [reflexivity | split; [ | split; reflexivity ] ] ] ].
  - intros [ | a]; unfold significance; cbn [ltb exact number_ltb lit below at_least].
    + repeat split; try discriminate; try tauto.
    + destruct (Qle_bool (1 # 100) a) eqn:H1; cbn [negb].
      * apply Qle_bool_iff in H1.
        destruct (Qle_bool (5 # 100) a) eqn:H5; cbn [negb].
        -- apply Qle_bool_iff in H5.
           repeat split; unfold not; intros; try discriminate; try reflexivity;
             try lra; try (exfalso; lra); tauto.
        -- assert (H5' : ~ 5 # 100 <= a)
             by (intros Hle; apply Qle_bool_iff in Hle; congruence).
           repeat split; unfold not; intros; try discriminate; try reflexivity;
             try lra; try (exfalso; lra); tauto.
      * assert (H1' : ~ 1 # 100 <= a)
          by (intros Hle; apply Qle_bool_iff in Hle; congruence).
        repeat split; unfold not; intros; try discriminate; try reflexivity;
             try lra; try (exfalso; lra); tauto.
  - intros p. unfold significance. cbn [ltb binary64 lit].
    destruct (PrimFloat.ltb p (float_lit (1 # 100))) eqn:H1.
    + repeat split; try discriminate; try tauto.
      intros [Hle _]. apply float_leb_ltb_false in Hle. congruence.
    + destruct (PrimFloat.ltb p (float_lit (5 # 100))) eqn:H5.
      * assert (Hle : PrimFloat.leb (float_lit (1 # 100)) p = true)
          by (apply (float_ltb_false_leb p _ (float_lit (5 # 100)));
              [reflexivity | exact H1 | exact H5]).
        repeat split; try discriminate; try tauto.
      * repeat split; unfold not; intros; try discriminate; try tauto;
          intuition discriminate.
Qed.

(** ** Table 1: the duration of exposure *)

(** C3, on the code: [duration_mapping] is never applied and
    [duration_dist] never printed.  The distribution of the duration column
    is keyed by the raw option strings, and for any content of that column
    the routine prints the header, the status and gender tables and a blank
    line. *)
Theorem duration_neither_remapped_nor_printed :
  duration_dist
    [ ("Status", [Str "Staff"; Str "Student"]); ("Gender", [Str "F"; Str "M"]);
      (duration_col, [Str "1 - 2 hours"; Str "> 4"]) ]
  = Return [ (Str "1 - 2 hours", 50%float); (Str "> 4", 50%float) ] /\
  forall duration : Series float,
    analyze_demographics
      [ ("Status", [Str "Staff"; Str "Student"]); ("Gender", [Str "F"; Str "M"]);
        (duration_col, duration) ]
    = ([ Text "--- Table 1: Socio-Demographics Analysis ---";
         Percentages [ (Str "Staff", 50%float); (Str "Student", 50%float) ];
         Percentages [ (Str "F", 50%float); (Str "M", 50%float) ];
         Text newline ],
       Return tt).
Proof. split; [reflexivity | intros duration; reflexivity]. Qed.

(** ** The entry point: an exception ends the job *)

Lemma for_each_raises {F A} (pre post : list A) (a : A) (body : A -> io F unit) e :
  (forall x, In x pre -> snd (body x) = Return tt) ->
  snd (body a) = Raise e ->
  for_each (pre ++ a :: post) body
  = (flat_map (fun x => fst (body x)) pre ++ fst (body a), Raise e).
Proof.
  intros Hpre Ha. induction pre as [ | x pre IH]; cbn [app for_each flat_map].
  - destruct (body a) as [o r]. cbn in Ha |- *. now subst r.
  - rewrite IH by (intros y Hy; apply Hpre; now right).
    specialize (Hpre x (or_introl eq_refl)).
    destruct (body x) as [o r]. cbn in Hpre |- *. subst r.
    now rewrite app_assoc.
Qed.

(** The job as a loop over its routines, between the banner and the
    closing note. *)
Lemma main_runs_routines {F} `{Float F} stat pandas (df : DataFrame F) :
  main stat pandas df
  = bind (banner, Return tt) (fun _ =>
    bind (for_each (routines stat pandas) (fun r => r df)) (fun _ =>
    bind (print (Text "Note: Technical performance metrics (Table 6-8) are derived from the "))
         (fun _ =>
    print (Text "TinyML model deployment logs and hardware profiling on the MCU.")))).
Proof.
  unfold main, routines, banner, print, ret. cbn [for_each].
  destruct (analyze_demographics df) as [o1 [[] | e1]]; [ | reflexivity].
  destruct (analyze_perception pandas df) as [o2 [[] | e2]]; [ | reflexivity].
  destruct (analyze_symptoms_matrix df) as [o3 [[] | e3]]; [ | reflexivity].
  destruct (analyze_correlations stat df) as [o4 [[] | e4]]; [ | reflexivity].
  destruct (analyze_sensors df) as [o5 [[] | e5]]; [ | reflexivity].
  cbn. rewrite app_nil_r, <- !app_assoc. reflexivity.
Qed.

(** C7, as the code has it: the routines run in sequence and nothing
    catches an exception.  When one of them raises -- [KeyError] for a
    missing column -- the job ends with that exception: it has printed the
    banner, the tables of the routines before it and what the failing
    routine printed before raising; no later routine runs and the closing
    note is not printed. *)
Theorem exception_ends_the_job :
  forall (F : Type) (Fl : Float F) (stat : list F -> list F -> F * F)
         (pandas : version) (df : DataFrame F)
         (pre post : list (DataFrame F -> io F unit))
         (r : DataFrame F -> io F unit) (e : exn),
    routines stat pandas = pre ++ r :: post ->
    (forall r', In r' pre -> snd (r' df) = Return tt) ->
    snd (r df) = Raise e ->
    main stat pandas df
    = (banner ++ flat_map (fun r' => fst (r' df)) pre ++ fst (r df), Raise e).
Proof.
  intros F Fl stat pandas df pre post r e Hsplit Hpre Hr.
  rewrite main_runs_routines, Hsplit.
  rewrite (for_each_raises pre post r (fun r => r df) e Hpre Hr).
  reflexivity.
Qed.

(** A survey without the floor column: Tables 1 and 2 are printed, Table 3
    raises [KeyError], Tables 4 and 5 never run.  The noise column holds
    "Yes" and "No": its row of Table 2 is that of pandas 3.0 and later in
    the first run and that of the earlier releases in the second. *)
Lemma exception_ends_the_job_witness :
  main unreached From3 survey_without_floor
  = ([ Text "RESEARCH ANALYSIS: PUBLIC ADMIN JOURNAL";
       Text "================================================================";
       Text "--- Table 1: Socio-Demographics Analysis ---";
       Percentages [ (Str "Staff", 50%float); (Str "Student", 50%float) ];
       Percentages [ (Str "F", 50%float); (Str "M", 50%float) ];
       Text newline;
       Text "--- Table 2: Environmental Perception ---";
       Perception [ ("Stuffy Air", 50%float, 50%float, 0%float);
                    ("High Temp", 0%float, 0%float, 100%float);
                    ("Noise", 50%float, 0%float, 50%float) ];
       Text newline ],
     Raise (KeyError "Floor")) /\
  main unreached Before3 survey_without_floor
  = ([ Text "RESEARCH ANALYSIS: PUBLIC ADMIN JOURNAL";
       Text "================================================================";
       Text "--- Table 1: Socio-Demographics Analysis ---";
       Percentages [ (Str "Staff", 50%float); (Str "Student", 50%float) ];
       Percentages [ (Str "F", 50%float); (Str "M", 50%float) ];
       Text newline;
       Text "--- Table 2: Environmental Perception ---";
       Perception [ ("Stuffy Air", 50%float, 50%float, 0%float);
                    ("High Temp", 0%float, 0%float, 100%float);
                    ("Noise", 100%float, 0%float, 100%float) ];
       Text newline ],
     Raise (KeyError "Floor")).
Proof.
  split.
  - refine (exception_ends_the_job float binary64 unreached From3 survey_without_floor
              [analyze_demographics; analyze_perception From3]
              [analyze_correlations unreached; analyze_sensors]
              analyze_symptoms_matrix (KeyError "Floor") eq_refl _ eq_refl).
    intros r' [<- | [<- | []]]; reflexivity.
  - refine (exception_ends_the_job float binary64 unreached Before3 survey_without_floor
              [analyze_demographics; analyze_perception Before3]
              [analyze_correlations unreached; analyze_sensors]
              analyze_symptoms_matrix (KeyError "Floor") eq_refl _ eq_refl).
    intros r' [<- | [<- | []]]; reflexivity.
Defined.

(** C7 as stated fails: without the status column the job prints its banner
    and ends with [KeyError]; none of the five tables is printed, although
    every column the other four routines read is there. *)
Lemma missing_status_column_aborts_every_table :
  (forall pandas,
      main unreached pandas survey_without_status
      = ([ Text "RESEARCH ANALYSIS: PUBLIC ADMIN JOURNAL";
           Text "================================================================" ],
         Raise (KeyError "Status"))) /\
  (forall pandas,
      exists o, analyze_perception pandas survey_without_status = (o, Return tt)) /\
  (exists o, analyze_symptoms_matrix survey_without_status = (o, Return tt)) /\
  (exists o, analyze_correlations unreached survey_without_status = (o, Return tt)) /\
  (exists o, analyze_sensors survey_without_status = (o, Return tt)).
Proof.
  split; [intros []; reflexivity | ].
  split; [intros []; eexists; reflexivity | ].
  repeat split; eexists; reflexivity.
Qed.

(** ** Sorting *)

Lemma insert_Permutation {A} (le : A -> A -> bool) (a : A) (l : list A) :
  Permutation (insert le a l) (a :: l).
Proof.
  induction l as [ | b l IH]; cbn [insert]; [apply Permutation_refl | ].
  destruct (le a b); [apply Permutation_refl | ].
  apply Permutation_trans with (b :: a :: l); [now constructor | apply perm_swap].
Qed.

Lemma sort_Permutation {A} (le : A -> A -> bool) (l : list A) :
  Permutation (sort le l) l.
Proof.
  induction l as [ | a l IH]; [constructor | ].
  change (sort le (a :: l)) with (insert le a (sort le l)).
  apply Permutation_trans with (a :: sort le l);
    [apply insert_Permutation | now constructor].
Qed.

Lemma sort_In {A} (le : A -> A -> bool) (l : list A) (a : A) :
  In a (sort le l) <-> In a l.
Proof.
  split; apply Permutation_in;
    [apply sort_Permutation | apply Permutation_sym, sort_Permutation].
Qed.

Lemma insert_Sorted {A} (le : A -> A -> bool) (a : A) (l : list A) :
  (forall x y, le x y = false -> le y x = true) ->
  Sorted (fun x y => le x y = true) l ->
  Sorted (fun x y => le x y = true) (insert le a l).
Proof.
  intros Htotal Hl. induction Hl as [ | b l Hl IH Hb]; cbn [insert].
  - repeat constructor.
  - destruct (le a b) eqn:Hab.
    + constructor; [now constructor | now constructor].
    + constructor; [exact IH | ].
      destruct l as [ | c l]; cbn [insert].
      * constructor. now apply Htotal.
      * destruct (le a c); constructor; [now apply Htotal | now inversion Hb].
Qed.

(** A sorted list is in order when any two elements compare one way or
    the other. *)
Lemma sort_Sorted {A} (le : A -> A -> bool) (l : list A) :
  (forall x y, le x y = false -> le y x = true) ->
  Sorted (fun x y => le x y = true) (sort le l).
Proof.
  intros Htotal. induction l as [ | a l IH]; [constructor | ].
  change (sort le (a :: l)) with (insert le a (sort le l)).
  now apply insert_Sorted.
Qed.

(** ** Counting the values of a series *)

Section Counting.

Context {F : Type} `{Float F}.

(** [==] is an equivalence on the cells that are not missing. *)
Hypothesis cell_eqb_sym : forall a b : cell F, cell_eqb a b = cell_eqb b a.
Hypothesis cell_eqb_trans :
  forall a b c : cell F, cell_eqb a b = true -> cell_eqb b c = true -> cell_eqb a c = true.
Hypothesis cell_eqb_refl : forall a : cell F, notna a = true -> cell_eqb a a = true.

Lemma cell_eqb_congr (a b c : cell F) :
  cell_eqb a b = true -> cell_eqb a c = cell_eqb b c.
Proof.
  intros Hab.
  destruct (cell_eqb b c) eqn:Hbc.
  - now apply cell_eqb_trans with b.
  - destruct (cell_eqb a c) eqn:Hac; [ | reflexivity].
    rewrite <- Hbc. symmetry. apply cell_eqb_trans with a; [ | exact Hac].
    now rewrite cell_eqb_sym.
Qed.




Lemma filter_length_le {A} (f : A -> bool) (l : list A) :
  (List.length (filter f l) <= List.length l)%nat.
Proof.
  induction l as [ | a l IH]; [apply Nat.le_refl | ].
  cbn [filter]. destruct (f a); cbn [List.length]; lia.
Qed.


Lemma count_congr (a b : cell F) (s : Series F) :
  cell_eqb a b = true -> count a s = count b s.
Proof.
  intros Hab. unfold count. f_equal. apply filter_ext.
  intros d. now apply cell_eqb_congr.
Qed.

Lemma unique_In (k : cell F) (s : Series F) : In k (unique s) -> In k s.
Proof.
  induction s as [ | c t IH]; [trivial | ].
  cbn [unique]. intros [-> | Hk]; [now left | ].
  right. apply IH. now apply filter_In in Hk as [Hk _].
Qed.

Lemma unique_complete (x : cell F) (s : Series F) :
  In x s -> notna x = true ->
  exists k, In k (unique s) /\ cell_eqb k x = true.
Proof.
  intros Hx Hna. induction s as [ | c t IH]; [destruct Hx | ].
  cbn [unique]. destruct Hx as [-> | Hx].
  - exists x. split; [now left | now apply cell_eqb_refl].
  - destruct (IH Hx) as [k [Hk Hkx]].
    destruct (cell_eqb c k) eqn:Hck.
    + exists c. split; [now left | now apply cell_eqb_trans with k].
    + exists k. split; [ | exact Hkx].
      right. apply filter_In. split; [exact Hk | now rewrite Hck].
Qed.

Lemma count_pos (x : cell F) (s : Series F) :
  (0 < count x s)%nat -> exists d, In d s /\ cell_eqb x d = true.
Proof.
  unfold count. intros Hpos.
  destruct (filter (cell_eqb x) s) as [ | d u] eqn:Hf; [inversion Hpos | ].
  exists d. apply filter_In. rewrite Hf. now left.
Qed.

(** A lookup in a table indexed by the distinct values of [s], in any
    order, finds the entry of a value equal to the key, if [s] holds one. *)
Lemma lookup_unique (f : cell F -> F) (key : cell F) (default : F)
      (s keys : Series F) :
  Permutation keys (unique s) ->
  forallb notna s = true ->
  (count key s = 0%nat /\
   lookup (map (fun k => (k, f k)) keys) key default = default) \/
  (exists k, In k s /\ cell_eqb key k = true /\
             lookup (map (fun k => (k, f k)) keys) key default = f k).
Proof.
  intros Hkeys Hna. unfold lookup.
  destruct (find (fun e => cell_eqb key (fst e)) (map (fun k => (k, f k)) keys))
    as [e | ] eqn:Hfind.
  - right. apply find_some in Hfind as [Hin Hkey].
    apply in_map_iff in Hin as [k [<- Hk]]. cbn [fst snd] in *.
    exists k. split; [ | now split].
    apply unique_In. eapply Permutation_in; eassumption.
  - left. split; [ | reflexivity].
    destruct (count key s) as [ | n] eqn:Hcount; [reflexivity | exfalso].
    destruct (count_pos key s) as [d [Hd Hkd]]; [lia | ].
    destruct (unique_complete d s Hd) as [k [Hk Hkd']].
    { now apply (proj1 (forallb_forall _ _) Hna). }
    assert (Hnone : cell_eqb key k = false).
    { apply (find_none _ _ Hfind (k, f k)). apply in_map_iff. exists k.
      split; [reflexivity | ].
      eapply Permutation_in; [apply Permutation_sym; exact Hkeys | exact Hk]. }
    assert (Hkk : cell_eqb key k = true)
      by (apply cell_eqb_trans with d; [exact Hkd | now rewrite cell_eqb_sym]).
    congruence.
Qed.

End Counting.

(** ** Exact arithmetic *)

Lemma number_eq_Fin (x : number) (a b : Q) : x =~ Fin a -> a == b -> x =~ Fin b.
Proof. destruct x as [ | q]; cbn; [trivial | ]. intros -> Hab. exact Hab. Qed.

Lemma Qeq_bool_sym (a b : Q) : Qeq_bool a b = Qeq_bool b a.
Proof.
  destruct (Qeq_bool a b) eqn:Hab, (Qeq_bool b a) eqn:Hba; try reflexivity.
  - apply Qeq_bool_iff in Hab. symmetry in Hab. apply Qeq_bool_iff in Hab. congruence.
  - apply Qeq_bool_iff in Hba. symmetry in Hba. apply Qeq_bool_iff in Hba. congruence.
Qed.

Lemma exact_cell_eqb_sym (a b : cell number) : cell_eqb a b = cell_eqb b a.
Proof.
  destruct a as [[ | x] | s], b as [[ | y] | t]; cbn; try reflexivity.
  - apply Qeq_bool_sym.
  - apply String.eqb_sym.
Qed.

Lemma exact_cell_eqb_trans (a b c : cell number) :
  cell_eqb a b = true -> cell_eqb b c = true -> cell_eqb a c = true.
Proof.
  destruct a as [[ | x] | s], b as [[ | y] | t], c as [[ | z] | u]; cbn;
    try discriminate.
  - rewrite !Qeq_bool_iff. intros -> ->. reflexivity.
  - rewrite !String.eqb_eq. congruence.
Qed.

Lemma exact_cell_eqb_refl (a : cell number) : notna a = true -> cell_eqb a a = true.
Proof.
  destruct a as [[ | x] | s]; cbn; try discriminate; intros _.
  - apply Qeq_bool_refl.
  - apply String.eqb_refl.
Qed.

Lemma dropna_notna {F} `{Float F} (s : Series F) : forallb notna (dropna s) = true.
Proof.
  apply forallb_forall. intros c Hc. now apply filter_In in Hc as [_ Hc].
Qed.

Lemma fold_left_Fin (qs : list Q) (a : Q) :
  fold_left (number_lift Qplus) (map Fin qs) (Fin a) = Fin (fold_left Qplus qs a).
Proof.
  revert a. induction qs as [ | q qs IH]; intros a; [reflexivity | ].
  cbn [map fold_left number_lift]. apply IH.
Qed.

Lemma fold_left_Qplus (qs : list Q) (a : Q) : fold_left Qplus qs a == a + Qsum qs.
Proof.
  revert a. induction qs as [ | q qs IH]; intros a.
  - cbn. ring.
  - change (Qsum (q :: qs)) with (q + Qsum qs). cbn [fold_left].
    rewrite IH. ring.
Qed.


Lemma inject_nat_nonzero (n : nat) : n <> 0%nat -> ~ inject_Z (Z.of_nat n) == 0.
Proof.
  intros Hn Heq. apply Hn. unfold Qeq in Heq. cbn in Heq. lia.
Qed.

(** One percentage of a distribution, and of a boolean mean. *)
Lemma pct_exact (k n : nat) :
  n <> 0%nat ->
  mul (div (of_nat k) (of_nat n)) (lit 100)
  = Fin (inject_Z (Z.of_nat k) / inject_Z (Z.of_nat n) * 100).
Proof.
  intros Hn. unfold of_nat. cbn [mul div lit exact number_div number_lift].
  destruct (Qeq_bool (inject_Z (Z.of_nat n)) 0) eqn:Hz; [ | reflexivity].
  apply Qeq_bool_iff in Hz. now apply inject_nat_nonzero in Hz.
Qed.



Lemma share_add (a b n : nat) : share a n + share b n == share (a + b) n.
Proof. unfold share. rewrite Nat2Z.inj_add, inject_Z_plus. unfold Qdiv. ring. Qed.

Lemma categories_Permutation {F} `{Float F} (s : Series F) :
  Permutation (categories s) (unique (dropna s)).
Proof. apply sort_Permutation. Qed.

Lemma value_counts_pct_index {F} `{Float F} (s : Series F) :
  map fst (value_counts_pct s) = categories s.
Proof.
  unfold value_counts_pct. fold (categories s). rewrite map_map. apply map_id.
Qed.


Lemma value_counts_pct_exact (s : Series number) :
  dropna s <> [] ->
  value_counts_pct s
  = map (fun k => (k, Fin (inject_Z (Z.of_nat (count k (dropna s)))
                           / inject_Z (Z.of_nat (List.length (dropna s))) * 100)))
        (categories s).
Proof.
  intros Hne. unfold value_counts_pct. fold (categories s). apply map_ext. intros k.
  rewrite pct_exact; [reflexivity | ].
  destruct (dropna s); [congruence | discriminate].
Qed.


(** A lookup by label in a distribution gives the share of the values equal
    to the label among the values that are not missing. *)
Lemma lookup_value_counts_pct (s : Series number) (label : cell number) :
  dropna s <> [] ->
  lookup (value_counts_pct s) label (Fin 0)
  =~ Fin (share (count label (dropna s)) (List.length (dropna s))).
Proof.
  intros Hne. rewrite value_counts_pct_exact by exact Hne.
  destruct (lookup_unique exact_cell_eqb_sym exact_cell_eqb_trans exact_cell_eqb_refl
              (fun k => Fin (inject_Z (Z.of_nat (count k (dropna s)))
                             / inject_Z (Z.of_nat (List.length (dropna s))) * 100))
              label (Fin 0) (dropna s) (categories s)
              (categories_Permutation s) (dropna_notna s))
    as [[Hzero ->] | [k [_ [Hk ->]]]].
  - rewrite Hzero. unfold share. cbn. unfold Qdiv. ring.
  - rewrite (count_congr exact_cell_eqb_sym exact_cell_eqb_trans label k _ Hk).
    unfold share. cbn. unfold Qdiv. ring.
Qed.

(** Where the keys are labels, [get] is a lookup by label. *)
Lemma get_lookup {F} `{Float F} (pandas : version) (s : Series F) (k : key)
      (default : F) :
  keys_are_labels pandas s = true ->
  get pandas (value_counts_pct s) k default
  = lookup (value_counts_pct s) (key_cell k) default.
Proof.
  destruct pandas, k as [n | l]; try reflexivity.
  cbn [keys_are_labels get]. intros Hs. rewrite forallb_forall in Hs.
  rewrite value_counts_pct_index.
  assert (Hnone : existsb is_str (categories s) = false).
  { apply not_true_is_false. intros Hex.
    apply existsb_exists in Hex as [c [Hc Hstr]].
    apply (Permutation_in _ (categories_Permutation s)) in Hc.
    apply unique_In, filter_In in Hc as [Hin _].
    specialize (Hs c Hin). rewrite Hstr in Hs. discriminate Hs. }
  now rewrite Hnone.
Qed.

Lemma add_Fin (x y : number) (a b : Q) :
  x =~ Fin a -> y =~ Fin b -> add x y =~ Fin (a + b).
Proof.
  destruct x as [ | p], y as [ | q]; cbn; try tauto.
  intros -> ->. reflexivity.
Qed.

(** ** Table 2 *)

Lemma perception_row_exact (pandas : version) (label : string) (s : Series number) :
  dropna s <> [] ->
  keys_are_labels pandas s = true ->
  exists often sometimes rarely,
    perception_row pandas label s = (label, often, sometimes, rarely) /\
    often =~ Fin (share (count (Num (Fin 1)) (dropna s) + count (Str "Yes") (dropna s))
                        (List.length (dropna s))) /\
    sometimes =~ Fin (share (count (Num (Fin 2)) (dropna s)) (List.length (dropna s))) /\
    rarely =~ Fin (share (count (Num (Fin 0)) (dropna s) + count (Str "No") (dropna s))
                         (List.length (dropna s))).
Proof.
  intros Hne Hlabels. unfold perception_row.
  do 3 eexists. split; [reflexivity | ].
  rewrite !(get_lookup pandas s _ _ Hlabels).
  cbn [lit exact key_cell].
  pose proof (lookup_value_counts_pct s (Num (Fin 1)) Hne) as H1.
  pose proof (lookup_value_counts_pct s (Str "Yes") Hne) as Hy.
  pose proof (lookup_value_counts_pct s (Num (Fin 2)) Hne) as H2.
  pose proof (lookup_value_counts_pct s (Num (Fin 0)) Hne) as H0.
  pose proof (lookup_value_counts_pct s (Str "No") Hne) as Hn.
  split; [ | split ].
  - eapply number_eq_Fin; [exact (add_Fin _ _ _ _ H1 Hy) | apply share_add].
  - exact H2.
  - eapply number_eq_Fin; [exact (add_Fin _ _ _ _ H0 Hn) | apply share_add].
Qed.

(** C8, on the code.  Where [get] looks its keys up as labels -- on pandas
    3.0 and later, and for a column without strings on every pandas --
    "often/always" is the combined share of the responses equal to 1 or to
    "Yes" among the responses that are not missing, "sometimes" the share of
    those equal to 2, "rarely/never" the combined share of those equal to 0
    or to "No"; a column without a response gives 0, 0 and 0; the column 1,
    1, 2, 0 gives 50, 25 and 25, in exact and in binary64 arithmetic.
    Before pandas 3.0 the keys 1, 2 and 0 are positions in the distribution
    of a column of strings: the column "Yes", "Yes", "Yes", "No", whose
    shares are 75, 0 and 25, gives 100, 0 and 100. *)
Theorem perception_row_shares :
  (forall (pandas : version) (label : string) (s : Series number),
      let vals := dropna s in
      let n := List.length vals in
      vals <> [] ->
      keys_are_labels pandas s = true ->
      exists often sometimes rarely,
        perception_row pandas label s = (label, often, sometimes, rarely) /\
        often =~ Fin (share (count (Num (Fin 1)) vals + count (Str "Yes") vals) n) /\
        sometimes =~ Fin (share (count (Num (Fin 2)) vals) n) /\
        rarely =~ Fin (share (count (Num (Fin 0)) vals + count (Str "No") vals) n)) /\
  (forall (pandas : version) (label : string) (s : Series number),
      dropna s = [] -> perception_row pandas label s = (label, Fin 0, Fin 0, Fin 0)) /\
  (forall pandas : version,
      exists often sometimes rarely,
        perception_row pandas "Stuffy Air"
          [Num (Fin 1); Num (Fin 1); Num (Fin 2); Num (Fin 0)]
        = ("Stuffy Air", often, sometimes, rarely) /\
        often =~ Fin 50 /\ sometimes =~ Fin 25 /\ rarely =~ Fin 25) /\
  (forall pandas : version,
      perception_row pandas "Stuffy Air"
        [Num 1%float; Num 1%float; Num 2%float; Num 0%float]
      = ("Stuffy Air", 50%float, 25%float, 25%float)) /\
  perception_row From3 "Noise" [Str "Yes"; Str "Yes"; Str "Yes"; Str "No"]
  = ("Noise", 75%float, 0%float, 25%float) /\
  perception_row Before3 "Noise" [Str "Yes"; Str "Yes"; Str "Yes"; Str "No"]
  = ("Noise", 100%float, 0%float, 100%float) /\
  (exists often sometimes rarely,
      perception_row Before3 "Noise" [Str "Yes"; Str "Yes"; Str "Yes"; Str "No"]
      = ("Noise", often, sometimes, rarely) /\
      often =~ Fin 100 /\ sometimes =~ Fin 0 /\ rarely =~ Fin 100).
Proof.
  split; [ | split; [ | split; [ | split; [ | split; [ | split ] ] ] ] ].
  - intros pandas label s vals n Hne Hlabels.
    exact (perception_row_exact pandas label s Hne Hlabels).
  - intros pandas label s Hnil. unfold perception_row, value_counts_pct.
    rewrite Hnil. now destruct pandas.
  - intros []; (do 3 eexists; split; [reflexivity | ]; repeat split).
  - intros []; reflexivity.
  - reflexivity.
  - reflexivity.
  - do 3 eexists. split; [reflexivity | ]. repeat split.
Qed.

(** The column 1, "Yes", 2, missing, "No", 0, 1, 1 on pandas 3.0 or later:
    three of the seven responses are "often/always" ones besides the one
    "Yes"; and the column 1, 2, missing, 0, 1, 1 on an earlier pandas. *)
Lemma perception_row_shares_witness :
  (exists often sometimes rarely,
      perception_row From3 "Noise"
        [ Num (Fin 1); Str "Yes"; Num (Fin 2); Num NaN; Str "No"; Num (Fin 0);
          Num (Fin 1); Num (Fin 1) ]
      = ("Noise", often, sometimes, rarely) /\
      often =~ Fin (share (3 + 1) 7) /\
      sometimes =~ Fin (share 1 7) /\
      rarely =~ Fin (share (1 + 1) 7)) /\
  (exists often sometimes rarely,
      perception_row Before3 "Noise"
        [ Num (Fin 1); Num (Fin 2); Num NaN; Num (Fin 0); Num (Fin 1); Num (Fin 1) ]
      = ("Noise", often, sometimes, rarely) /\
      often =~ Fin (share (3 + 0) 5) /\
      sometimes =~ Fin (share 1 5) /\
      rarely =~ Fin (share (1 + 0) 5)).
Proof.
  split.
  - refine (proj1 perception_row_shares From3 "Noise"
              [ Num (Fin 1); Str "Yes"; Num (Fin 2); Num NaN; Str "No"; Num (Fin 0);
                Num (Fin 1); Num (Fin 1) ] _ eq_refl).
    discriminate.
  - refine (proj1 perception_row_shares Before3 "Noise"
              [ Num (Fin 1); Num (Fin 2); Num NaN; Num (Fin 0); Num (Fin 1);
                Num (Fin 1) ] _ eq_refl).
    discriminate.
Defined.

(** ** Percentages that add up *)







(** ** Means of exact floats *)

Lemma skipna_Fin (qs : list Q) : skipna (map Fin qs) = map Fin qs.
Proof.
  unfold skipna. induction qs as [ | q qs IH]; [reflexivity | ].
  cbn [map filter]. change (negb (isnan (Fin q))) with true. cbn iota.
  f_equal. exact IH.
Qed.

Lemma series_mean_Fin (qs : list Q) :
  qs <> [] ->
  series_mean (map Fin qs)
  = Fin (fold_left Qplus qs 0 / inject_Z (Z.of_nat (List.length qs))).
Proof.
  intros Hne. unfold series_mean. rewrite skipna_Fin.
  destruct qs as [ | q qs]; [congruence | ].
  change (div (sum (map Fin (q :: qs))) (of_nat (List.length (map Fin (q :: qs))))
          = Fin (fold_left Qplus (q :: qs) 0
                 / inject_Z (Z.of_nat (List.length (q :: qs))))).
  unfold sum. cbn [add lit exact]. rewrite fold_left_Fin, length_map.
  unfold of_nat. cbn [div lit exact number_div].
  destruct (Qeq_bool (inject_Z (Z.of_nat (List.length (q :: qs)))) 0) eqn:Hz;
    [ | reflexivity].
  apply Qeq_bool_iff in Hz. apply inject_nat_nonzero in Hz; [destruct Hz | discriminate].
Qed.

Lemma Qsum_indicator {A} (f : A -> bool) (l : list A) :
  Qsum (map (fun a => if f a then 1 else 0) l)
  == inject_Z (Z.of_nat (List.length (filter f l))).
Proof.
  induction l as [ | a l IH]; [reflexivity | ].
  cbn [map filter]. change (Qsum (?x :: ?t)) with (x + Qsum t). rewrite IH.
  destruct (f a); cbn [List.length].
  - rewrite Nat2Z.inj_succ, <- Z.add_1_l, inject_Z_plus. reflexivity.
  - ring.
Qed.

(** ** Table 3 *)

(** [(x == 1).mean() * 100] is the share of the cells equal to 1 among all
    the cells of [x], missing ones included. *)
Lemma presence_pct_exact (x : Series number) :
  x <> [] ->
  presence_pct x
  =~ Fin (share (List.length (filter (fun c => cell_eqb c (Num (Fin 1))) x))
                (List.length x)).
Proof.
  intros Hne. unfold presence_pct. cbn [lit exact].
  rewrite (map_ext (fun c => if cell_eqb c (Num (Fin 1)) then Fin 1 else Fin 0)
             (fun c => Fin (if cell_eqb c (Num (Fin 1)) then 1 else 0)))
    by (intros c; now destruct (cell_eqb c (Num (Fin 1)))).
  rewrite <- (map_map (fun c : cell number => if cell_eqb c (Num (Fin 1)) then 1 else 0) Fin).
  rewrite series_mean_Fin by (destruct x; [congruence | discriminate]).
  rewrite length_map. cbn [mul exact number_lift]. unfold number_eq, share.
  rewrite fold_left_Qplus, Qsum_indicator. unfold Qdiv. ring.
Qed.

Lemma In_combine_left {A B} (a : A) (l : list A) (m : list B) :
  List.length l = List.length m -> In a l -> exists b, In (a, b) (combine l m).
Proof.
  revert m. induction l as [ | x l IH]; intros [ | y m] Hlen Ha;
    try destruct Ha; try discriminate Hlen.
  - subst x. exists y. now left.
  - injection Hlen as Hlen. destruct (IH m Hlen H) as [b Hb].
    exists b. now right.
Qed.

Lemma filter_map_length {A B} (f : B -> bool) (g : A -> B) (l : list A) :
  List.length (filter f (map g l)) = List.length (filter (fun a => f (g a)) l).
Proof.
  induction l as [ | a l IH]; [reflexivity | ].
  cbn [map filter]. destruct (f (g a)); cbn [List.length]; now rewrite IH.
Qed.

Lemma groupby_cell_exact (floor symptom : Series number) (k : cell number) (v : number) :
  List.length floor = List.length symptom ->
  In (k, v) (groupby_apply floor symptom presence_pct) ->
  let group := filter (fun r => cell_eqb k (fst r)) (combine floor symptom) in
  notna k = true /\ In k floor /\ group <> [] /\
  v =~ Fin (share
              (List.length (filter (fun r => cell_eqb (snd r) (Num (Fin 1))) group))
              (List.length group)).
Proof.
  intros Hlen Hin group.
  unfold groupby_apply in Hin. apply in_map_iff in Hin as [k' [Heq Hk]].
  injection Heq as -> <-. fold group.
  apply sort_In, unique_In in Hk. apply filter_In in Hk as [Hk Hna].
  assert (Hgroup : group <> []).
  { destruct (In_combine_left k floor symptom Hlen Hk) as [y Hy].
    assert (Hy' : In (k, y) group).
    { apply filter_In. split; [exact Hy | ]. cbn [fst].
      now apply exact_cell_eqb_refl. }
    intros Hnil. rewrite Hnil in Hy'. destruct Hy'. }
  repeat split; try assumption.
  eapply number_eq_Fin.
  - apply presence_pct_exact. destruct group; [congruence | discriminate].
  - rewrite filter_map_length, length_map. reflexivity.
Qed.

(** C4, as the code has it: the cell of a floor and a symptom is the share,
    in percent, of the rows of the floor whose symptom equals 1 among all
    the rows of the floor.  A row whose floor is missing belongs to no group;
    a row whose symptom is missing stays in its group and counts in the
    denominator.  Every floor that occurs has its cell.  The symptom column
    1, 0, 1, 1 over the floors F1, F1, F2, F2 gives 50 for F1 and 100 for
    F2. *)
Theorem symptom_cell_is_share_of_floor_rows :
  (forall (floor symptom : Series number) (k : cell number) (v : number),
      List.length floor = List.length symptom ->
      In (k, v) (groupby_apply floor symptom presence_pct) ->
      let group := filter (fun r => cell_eqb k (fst r)) (combine floor symptom) in
      notna k = true /\ In k floor /\ group <> [] /\
      v =~ Fin (share
                  (List.length (filter (fun r => cell_eqb (snd r) (Num (Fin 1))) group))
                  (List.length group))) /\
  (forall (floor symptom : Series number) (x : cell number),
      In x floor -> notna x = true ->
      exists k v,
        In (k, v) (groupby_apply floor symptom presence_pct) /\ cell_eqb k x = true) /\
  (exists f1 f2,
      groupby_apply [Str "F1"; Str "F1"; Str "F2"; Str "F2"]
        [Num (Fin 1); Num (Fin 0); Num (Fin 1); Num (Fin 1)] presence_pct
      = [(Str "F1", f1); (Str "F2", f2)] /\ f1 =~ Fin 50 /\ f2 =~ Fin 100) /\
  groupby_apply [Str "F1"; Str "F1"; Str "F2"; Str "F2"]
    [Num 1%float; Num 0%float; Num 1%float; Num 1%float] presence_pct
  = [(Str "F1", 50%float); (Str "F2", 100%float)].
Proof.
  split; [ | split; [ | split; [ | reflexivity ] ] ].
  - intros floor symptom k v Hlen Hin. exact (groupby_cell_exact _ _ _ _ Hlen Hin).
  - intros floor symptom x Hx Hna.
    assert (Hx' : In x (dropna floor)) by (apply filter_In; now split).
    destruct (unique_complete exact_cell_eqb_trans exact_cell_eqb_refl x _ Hx' Hna)
      as [k [Hk Hkx]].
    exists k. eexists. split; [ | exact Hkx].
    unfold groupby_apply. apply in_map_iff. exists k.
    split; [reflexivity | now apply sort_In].
  - do 2 eexists. split; [reflexivity | ]. split; reflexivity.
Qed.

(** Three floors, a row without a floor and a row without a symptom: the
    cell of floor 2 is the share of one row among its three. *)
Lemma symptom_cell_witness :
  notna (Num (Fin 2)) = true /\
  In (Num (Fin 2)) [Num (Fin 1); Num (Fin 2); Num NaN; Num (Fin 2); Num (Fin 2)] /\
  [ (Num (Fin 2), Num (Fin 1)); (Num (Fin 2), Num NaN); (Num (Fin 2), Str "No") ]
  <> [] /\
  Fin (100 # 3) =~ Fin (share 1 3).
Proof.
  refine (proj1 symptom_cell_is_share_of_floor_rows
            [Num (Fin 1); Num (Fin 2); Num NaN; Num (Fin 2); Num (Fin 2)]
            [Num (Fin 1); Num (Fin 1); Num (Fin 1); Num NaN; Str "No"]
            (Num (Fin 2)) (Fin (100 # 3)) eq_refl _).
  right. left. reflexivity.
Defined.

(** C4 as stated fails.  In scenario C both rows of floor F2 have the
    symptom: its cell is 100, not 50.  And a row with a missing symptom is
    not left out of the denominator: one row with the symptom and one with a
    missing symptom give 50, not 100. *)
Lemma scenario_C_gives_100_for_F2 :
  groupby_apply [Str "F1"; Str "F1"; Str "F2"; Str "F2"]
    [Num 1%float; Num 0%float; Num 1%float; Num 1%float] presence_pct
  = [(Str "F1", 50%float); (Str "F2", 100%float)] /\
  groupby_apply [Str "F1"; Str "F1"]
    [Num 1%float; Num PrimFloat.nan] presence_pct
  = [(Str "F1", 50%float)].
Proof. split; reflexivity. Qed.

(** ** Table 5 *)

Lemma skipna_finite_values (xs : list number) :
  skipna xs = map Fin (finite_values xs).
Proof.
  unfold skipna. induction xs as [ | [ | q] xs IH]; [reflexivity | exact IH | ].
  cbn [filter finite_values flat_map app map].
  change (negb (isnan (Fin q))) with true. cbn iota.
  f_equal. exact IH.
Qed.

Lemma fold_min_exact (qs : list Q) (a0 : Q) :
  exists a,
    fold_left (fun m y : number => if ltb y m then y else m) (map Fin qs) (Fin a0)
    = Fin a /\
    a <= a0 /\ Forall (fun q => a <= q) qs /\ (a = a0 \/ In a qs).
Proof.
  revert a0. induction qs as [ | q qs IH]; intros a0.
  - exists a0. repeat split; [apply Qle_refl | constructor | now left].
  - cbn [map fold_left ltb exact number_ltb].
    destruct (Qle_bool a0 q) eqn:Hle; cbn [negb].
    + apply Qle_bool_iff in Hle.
      destruct (IH a0) as [a [Hfold [Ha [Hall Hin]]]].
      exists a. repeat split; try assumption.
      * constructor; [lra | exact Hall].
      * destruct Hin as [-> | Hin]; [now left | right; now right].
    + assert (Hlt : q < a0).
      { apply Qnot_le_lt. intros Hc. apply Qle_bool_iff in Hc. congruence. }
      destruct (IH q) as [a [Hfold [Ha [Hall Hin]]]].
      exists a. repeat split; try assumption.
      * lra.
      * constructor; [exact Ha | exact Hall].
      * right. destruct Hin as [-> | Hin]; [now left | now right].
Qed.

Lemma fold_max_exact (qs : list Q) (a0 : Q) :
  exists a,
    fold_left (fun m y : number => if ltb m y then y else m) (map Fin qs) (Fin a0)
    = Fin a /\
    a0 <= a /\ Forall (fun q => q <= a) qs /\ (a = a0 \/ In a qs).
Proof.
  revert a0. induction qs as [ | q qs IH]; intros a0.
  - exists a0. repeat split; [apply Qle_refl | constructor | now left].
  - cbn [map fold_left ltb exact number_ltb].
    destruct (Qle_bool q a0) eqn:Hle; cbn [negb].
    + apply Qle_bool_iff in Hle.
      destruct (IH a0) as [a [Hfold [Ha [Hall Hin]]]].
      exists a. repeat split; try assumption.
      * constructor; [lra | exact Hall].
      * destruct Hin as [-> | Hin]; [now left | right; now right].
    + assert (Hlt : a0 < q).
      { apply Qnot_le_lt. intros Hc. apply Qle_bool_iff in Hc. congruence. }
      destruct (IH q) as [a [Hfold [Ha [Hall Hin]]]].
      exists a. repeat split; try assumption.
      * lra.
      * constructor; [exact Ha | exact Hall].
      * right. destruct Hin as [-> | Hin]; [now left | now right].
Qed.

Lemma Qsum_bounds (a b : Q) (l : list Q) :
  Forall (fun q => a <= q <= b) l ->
  inject_Z (Z.of_nat (List.length l)) * a <= Qsum l
  <= inject_Z (Z.of_nat (List.length l)) * b.
Proof.
  induction 1 as [ | q l Hq _ IH].
  - change (0 * a <= 0 <= 0 * b). rewrite !Qmult_0_l. split; apply Qle_refl.
  - change (Qsum (q :: l)) with (q + Qsum l).
    cbn [List.length]. rewrite Nat2Z.inj_succ, <- Z.add_1_l, inject_Z_plus.
    change (inject_Z 1) with 1.
    set (n := inject_Z (Z.of_nat (List.length l))) in *.
    setoid_replace ((1 + n) * a) with (a + n * a) by ring.
    setoid_replace ((1 + n) * b) with (b + n * b) by ring.
    set (na := n * a) in *. set (nb := n * b) in *. lra.
Qed.

Lemma series_mean_exact (xs : list number) :
  finite_values xs <> [] ->
  series_mean xs
  = Fin (fold_left Qplus (finite_values xs) 0
         / inject_Z (Z.of_nat (List.length (finite_values xs)))).
Proof.
  intros Hne. rewrite <- (series_mean_Fin _ Hne).
  unfold series_mean. now rewrite skipna_Fin, skipna_finite_values.
Qed.

Lemma series_min_exact (xs : list number) :
  finite_values xs <> [] ->
  exists mn, series_min xs = Fin mn /\ In mn (finite_values xs) /\
             Forall (fun q => mn <= q) (finite_values xs).
Proof.
  intros Hne. unfold series_min. rewrite skipna_finite_values.
  destruct (finite_values xs) as [ | q qs]; [congruence | ]. cbn [map].
  destruct (fold_min_exact qs q) as [a [Hfold [Ha [Hall Hin]]]].
  exists a. split; [exact Hfold | split].
  - destruct Hin as [-> | Hin]; [now left | now right].
  - constructor; assumption.
Qed.

Lemma series_max_exact (xs : list number) :
  finite_values xs <> [] ->
  exists mx, series_max xs = Fin mx /\ In mx (finite_values xs) /\
             Forall (fun q => q <= mx) (finite_values xs).
Proof.
  intros Hne. unfold series_max. rewrite skipna_finite_values.
  destruct (finite_values xs) as [ | q qs]; [congruence | ]. cbn [map].
  destruct (fold_max_exact qs q) as [a [Hfold [Ha [Hall Hin]]]].
  exists a. split; [exact Hfold | split].
  - destruct Hin as [-> | Hin]; [now left | now right].
  - constructor; assumption.
Qed.

(** ** Minimum and maximum over an ordered float type *)

Section Extremes.

Context {F : Type} `{Float F}.

(** [<] is a strict order, total on the floats that are not [nan]. *)
Hypothesis ltb_irrefl : forall a : F, ltb a a = false.
Hypothesis ltb_trans :
  forall a b c : F, ltb a b = true -> ltb b c = true -> ltb a c = true.
Hypothesis ltb_neg_trans :
  forall a b c : F,
    isnan b = false -> ltb a c = true -> ltb a b = true \/ ltb b c = true.

Lemma fold_min_spec (l : list F) (a0 : F) :
  isnan a0 = false ->
  Forall (fun y => isnan y = false) l ->
  let a := fold_left (fun m y => if ltb y m then y else m) l a0 in
  (a = a0 \/ In a l) /\ ltb a0 a = false /\ Forall (fun y => ltb y a = false) l.
Proof.
  revert a0. induction l as [ | y t IH]; intros a0 Ha0 Hl; cbn [fold_left].
  - split; [now left | split; [apply ltb_irrefl | constructor]].
  - inversion Hl as [ | ? ? Hy Ht]; subst.
    destruct (ltb y a0) eqn:Hya.
    + destruct (IH y Hy Ht) as [Hin [Hlow Hall]].
      set (a := fold_left _ t y) in *.
      split; [ | split].
      * right. destruct Hin as [-> | Hin]; [now left | now right].
      * destruct (ltb a0 a) eqn:Hc; [ | reflexivity].
        now rewrite (ltb_trans _ _ _ Hya Hc) in Hlow.
      * now constructor.
    + destruct (IH a0 Ha0 Ht) as [Hin [Hlow Hall]].
      set (a := fold_left _ t a0) in *.
      split; [ | split].
      * destruct Hin as [-> | Hin]; [now left | right; now right].
      * exact Hlow.
      * constructor; [ | exact Hall].
        destruct (ltb y a) eqn:Hc; [ | reflexivity].
        destruct (ltb_neg_trans _ a0 _ Ha0 Hc); congruence.
Qed.

Lemma fold_max_spec (l : list F) (a0 : F) :
  isnan a0 = false ->
  Forall (fun y => isnan y = false) l ->
  let a := fold_left (fun m y => if ltb m y then y else m) l a0 in
  (a = a0 \/ In a l) /\ ltb a a0 = false /\ Forall (fun y => ltb a y = false) l.
Proof.
  revert a0. induction l as [ | y t IH]; intros a0 Ha0 Hl; cbn [fold_left].
  - split; [now left | split; [apply ltb_irrefl | constructor]].
  - inversion Hl as [ | ? ? Hy Ht]; subst.
    destruct (ltb a0 y) eqn:Hay.
    + destruct (IH y Hy Ht) as [Hin [Hhigh Hall]].
      set (a := fold_left _ t y) in *.
      split; [ | split].
      * right. destruct Hin as [-> | Hin]; [now left | now right].
      * destruct (ltb a a0) eqn:Hc; [ | reflexivity].
        now rewrite (ltb_trans _ _ _ Hc Hay) in Hhigh.
      * now constructor.
    + destruct (IH a0 Ha0 Ht) as [Hin [Hhigh Hall]].
      set (a := fold_left _ t a0) in *.
      split; [ | split].
      * destruct Hin as [-> | Hin]; [now left | right; now right].
      * exact Hhigh.
      * constructor; [ | exact Hall].
        destruct (ltb a y) eqn:Hc; [ | reflexivity].
        destruct (ltb_neg_trans _ a0 _ Ha0 Hc); congruence.
Qed.

Lemma skipna_notnan (xs : list F) : Forall (fun y => isnan y = false) (skipna xs).
Proof.
  apply Forall_forall. intros y Hy. apply filter_In in Hy as [_ Hy].
  now apply negb_true_iff in Hy.
Qed.

(** The minimum is a value that no value is below; the maximum, one that
    is below no value. *)
Lemma series_min_spec (xs : list F) :
  skipna xs <> [] ->
  In (series_min xs) (skipna xs) /\
  Forall (fun y => ltb y (series_min xs) = false) (skipna xs).
Proof.
  intros Hne. unfold series_min. pose proof (skipna_notnan xs) as Hnn.
  destruct (skipna xs) as [ | x t]; [congruence | ].
  inversion Hnn as [ | ? ? Hx Ht]; subst.
  destruct (fold_min_spec t x Hx Ht) as [Hin [Hlow Hall]].
  split; [destruct Hin as [-> | Hin]; [now left | now right] | now constructor].
Qed.

Lemma series_max_spec (xs : list F) :
  skipna xs <> [] ->
  In (series_max xs) (skipna xs) /\
  Forall (fun y => ltb (series_max xs) y = false) (skipna xs).
Proof.
  intros Hne. unfold series_max. pose proof (skipna_notnan xs) as Hnn.
  destruct (skipna xs) as [ | x t]; [congruence | ].
  inversion Hnn as [ | ? ? Hx Ht]; subst.
  destruct (fold_max_spec t x Hx Ht) as [Hin [Hhigh Hall]].
  split; [destruct Hin as [-> | Hin]; [now left | now right] | now constructor].
Qed.

End Extremes.

(** ** The order and the division of binary64 *)

Lemma SFltb_irrefl (x : spec_float) : SFltb x x = false.
Proof.
  unfold SFltb. destruct x as [s | s | | s m e]; cbn [SFcompare];
    try destruct s; try reflexivity;
    rewrite Z.compare_refl, Pos.compare_cont_refl; reflexivity.
Qed.

Lemma SFltb_trans (x y z : spec_float) :
  SFltb x y = true -> SFltb y z = true -> SFltb x z = true.
Proof.
  unfold SFltb.
  destruct x as [sx | sx | | sx mx ex], y as [sy | sy | | sy my ey],
    z as [sz | sz | | sz mz ez]; cbn [SFcompare];
    try destruct sx; try destruct sy; try destruct sz;
    try discriminate; try reflexivity;
    intros Hxy Hyz; compare_cases; try discriminate; try reflexivity; lia.
Qed.

Lemma SFltb_neg_trans (x y z : spec_float) :
  y <> S754_nan ->
  SFltb x z = true -> SFltb x y = true \/ SFltb y z = true.
Proof.
  unfold SFltb.
  destruct x as [sx | sx | | sx mx ex], y as [sy | sy | | sy my ey],
    z as [sz | sz | | sz mz ez]; cbn [SFcompare];
    try destruct sx; try destruct sy; try destruct sz;
    try discriminate; try congruence; auto;
    intros _ Hxz; compare_cases; try discriminate; auto; lia.
Qed.

Lemma Prim2SF_not_nan (x : float) :
  PrimFloat.is_nan x = false -> Prim2SF x <> S754_nan.
Proof.
  unfold PrimFloat.is_nan. rewrite FloatAxioms.eqb_spec. intros Hx Hnan.
  rewrite Hnan in Hx. discriminate Hx.
Qed.

Lemma float_ltb_irrefl (a : float) : PrimFloat.ltb a a = false.
Proof. rewrite FloatAxioms.ltb_spec. apply SFltb_irrefl. Qed.

Lemma float_ltb_trans (a b c : float) :
  PrimFloat.ltb a b = true -> PrimFloat.ltb b c = true -> PrimFloat.ltb a c = true.
Proof. rewrite !FloatAxioms.ltb_spec. apply SFltb_trans. Qed.

Lemma float_ltb_neg_trans (a b c : float) :
  PrimFloat.is_nan b = false ->
  PrimFloat.ltb a c = true -> PrimFloat.ltb a b = true \/ PrimFloat.ltb b c = true.
Proof.
  intros Hb. rewrite !FloatAxioms.ltb_spec. apply SFltb_neg_trans.
  now apply Prim2SF_not_nan.
Qed.

(** Between floats that are not [nan], [not (a < b)] is [b <= a]. *)
Lemma float_not_ltb_leb (a b : float) :
  PrimFloat.is_nan a = false -> PrimFloat.is_nan b = false ->
  PrimFloat.ltb a b = false -> PrimFloat.leb b a = true.
Proof.
  intros Ha Hb. rewrite FloatAxioms.ltb_spec, FloatAxioms.leb_spec.
  unfold SFltb, SFleb. rewrite (SFcompare_antisym (Prim2SF a) (Prim2SF b)).
  destruct (SFcompare (Prim2SF a) (Prim2SF b)) as [[ | | ] | ] eqn:Hc;
    cbn [option_map CompOpp]; intros Hlt; try reflexivity; try discriminate Hlt.
  apply SFcompare_nan_right in Hc as [Hc | Hc];
    [now apply Prim2SF_not_nan in Ha | now apply Prim2SF_not_nan in Hb].
Qed.

Local Open Scope Z_scope.

Lemma shr_fexp_canonical (mz : Z) (ez : Z) (l : location) :
  fexp prec emax (Zdigits2 mz + ez) = ez ->
  shr_fexp prec emax mz ez l = (shr_record_of_loc mz l, ez).
Proof.
  intros Hc. unfold shr_fexp. rewrite Hc, Z.sub_diag. reflexivity.
Qed.

(** Rounding a mantissa and an exponent that are those of a double gives
    back that double. *)
Lemma binary_round_aux_canonical (s : bool) (m : positive) (e : Z) :
  bounded prec emax m e = true ->
  binary_round_aux prec emax s (Zpos m) e loc_Exact = S754_finite s m e.
Proof.
  unfold bounded, canonical_mantissa. intros Hb.
  apply andb_true_iff in Hb as [Hc He]. apply Z.eqb_eq in Hc.
  unfold binary_round_aux.
  rewrite (shr_fexp_canonical (Zpos m) e loc_Exact Hc).
  cbn [shr_record_of_loc shr_m loc_of_shr_record round_nearest_even].
  rewrite (shr_fexp_canonical (Zpos m) e loc_Exact Hc).
  cbn [shr_record_of_loc shr_m]. now rewrite He.
Qed.

Lemma div_eucl_shiftl (m : positive) (k n : Z) :
  0 <= k -> 0 <= n ->
  Z.div_eucl (Z.shiftl (Zpos m) (k + n)) (2 ^ n) = (Zpos m * 2 ^ k, 0).
Proof.
  intros Hk Hn.
  rewrite Z.shiftl_mul_pow2 by lia. rewrite Z.pow_add_r by lia.
  rewrite Z.mul_assoc.
  assert (Hpos : 0 < 2 ^ n) by (apply Z.pow_pos_nonneg; lia).
  pose proof (Z.div_mul (Zpos m * 2 ^ k) (2 ^ n) ltac:(lia)) as Hq.
  pose proof (Z.mod_mul (Zpos m * 2 ^ k) (2 ^ n) ltac:(lia)) as Hr.
  unfold Z.div, Z.modulo in Hq, Hr.
  destruct (Z.div_eucl (Zpos m * 2 ^ k * 2 ^ n) (2 ^ n)) as [q r].
  now subst.
Qed.

(** A finite double divided by 1 is itself: the quotient needs no
    rounding. *)
Lemma SF64div_one (s : bool) (m : positive) (e : Z) :
  bounded prec emax m e = true ->
  SF64div (S754_finite s m e) (Prim2SF one) = S754_finite s m e.
Proof.
  intros Hb.
  change (Prim2SF one) with (S754_finite false 4503599627370496 (-52)).
  unfold SF64div, SFdiv, SFdiv_core_binary.
  pose proof Hb as Hb'. unfold bounded, canonical_mantissa in Hb'.
  apply andb_true_iff in Hb' as [Hc He]. apply Z.eqb_eq in Hc. apply Z.leb_le in He.
  change (Zdigits2 (Zpos 4503599627370496)) with 53.
  change (Zdigits2 (Zpos m)) with (Zpos (digits2_pos m)).
  set (d := Zpos (digits2_pos m)) in *.
  set (e' := Z.min (fexp prec emax (d + e - (53 + -52))) (e - -52)).
  assert (Hd : 0 < d) by (unfold d; lia).
  assert (Hcase : (e' = e - 1 /\ d = 53) \/ e' = e).
  { unfold e'. unfold fexp, SpecFloat.emin, prec, emax in *. lia. }
  replace (xorb s false) with s by (now destruct s).
  destruct Hcase as [[He' Hd53] | He']; rewrite He'.
  - replace (e - -52 - (e - 1)) with (1 + 52) by lia.
    change (1 + 52) with 53 at 1. cbv iota.
    change 4503599627370496 with (2 ^ 52).
    rewrite (div_eucl_shiftl m 1 52) by lia.
    change (new_location (2 ^ 52) 0) with loc_Exact.
    change (Zpos m * 2 ^ 1) with (Zpos m * 2).
    replace (Zpos m * 2) with (Zpos m~0) by lia.
    unfold binary_round_aux.
    unfold shr_fexp at 1.
    change (Zdigits2 (Zpos m~0)) with (Zpos (Pos.succ (digits2_pos m))).
    rewrite Pos2Z.inj_succ. fold d.
    replace (fexp prec emax (Z.succ d + (e - 1)) - (e - 1)) with 1
      by (unfold fexp, SpecFloat.emin, prec, emax in *; lia).
    cbn [shr shr_record_of_loc iter_pos shr_1 orb shr_m loc_of_shr_record
         round_nearest_even].
    replace (e - 1 + 1) with e by lia.
    rewrite (shr_fexp_canonical (Zpos m) e loc_Exact Hc).
    cbn [shr_record_of_loc shr_m].
    apply Z.leb_le in He. now rewrite He.
  - replace (e - -52 - e) with (0 + 52) by lia.
    change (0 + 52) with 52 at 1. cbv iota.
    change 4503599627370496 with (2 ^ 52).
    rewrite (div_eucl_shiftl m 0 52) by lia.
    change (new_location (2 ^ 52) 0) with loc_Exact.
    change (2 ^ 0) with 1. rewrite Z.mul_1_r.
    now apply binary_round_aux_canonical.
Qed.

Local Close Scope Z_scope.

(** The mean of a single reading: [(0 + x) / 1] equals [x]. *)
Lemma float_mean_single (x : float) :
  PrimFloat.is_nan x = false ->
  PrimFloat.eqb (PrimFloat.div (PrimFloat.add PrimFloat.zero x) PrimFloat.one) x = true.
Proof.
  intros Hx. pose proof (Prim2SF_not_nan x Hx) as Hnn.
  pose proof (Prim2SF_valid x) as Hv.
  rewrite FloatAxioms.eqb_spec, FloatAxioms.div_spec, FloatAxioms.add_spec.
  change (Prim2SF PrimFloat.zero) with (S754_zero false).
  destruct (Prim2SF x) as [s | s | | s m e].
  - destruct s; reflexivity.
  - destruct s; reflexivity.
  - congruence.
  - change (SF64add (S754_zero false) (S754_finite s m e)) with (S754_finite s m e).
    rewrite (SF64div_one s m e Hv).
    unfold SFeqb. cbn [SFcompare].
    destruct s; rewrite Z.compare_refl, Pos.compare_cont_refl; reflexivity.
Qed.

(** C9, as the code has it.  With at least one value that is not missing,
    the minimum and the maximum are values of the column and every value
    lies between them, in exact and in binary64 arithmetic.  The mean is the
    sum of the values over their number: in exact arithmetic it lies between
    the minimum and the maximum; in binary64 it equals them when the column
    has a single value, the one case where neither the sum nor the quotient
    is rounded. *)
Theorem sensor_summary_bounds :
  (forall (df : DataFrame number) (k : nat) (s : Series number) (xs : list number),
      iloc_from_end df k = Return s ->
      floats s = Return xs ->
      finite_values xs <> [] ->
      exists mn mx mean,
        min_max_mean df k = Return (Fin mn, Fin mx, Fin mean) /\
        In mn (finite_values xs) /\ In mx (finite_values xs) /\
        Forall (fun q => mn <= q <= mx) (finite_values xs) /\
        mean * inject_Z (Z.of_nat (List.length (finite_values xs)))
        == Qsum (finite_values xs) /\
        mn <= mean <= mx /\
        (List.length (finite_values xs) = 1%nat -> mn == mean /\ mean == mx)) /\
  (forall (df : DataFrame float) (k : nat) (s : Series float) (xs : list float),
      iloc_from_end df k = Return s ->
      floats s = Return xs ->
      skipna xs <> [] ->
      exists mn mx mean,
        min_max_mean df k = Return (mn, mx, mean) /\
        In mn (skipna xs) /\ In mx (skipna xs) /\
        Forall (fun y => PrimFloat.leb mn y = true /\ PrimFloat.leb y mx = true)
               (skipna xs) /\
        PrimFloat.leb mn mx = true /\
        (forall x, skipna xs = [x] ->
                   mn = x /\ mx = x /\ PrimFloat.eqb mean x = true)).
Proof.
  split.
  - intros df k s xs Hcol Hfloats Hne.
    unfold min_max_mean. rewrite Hcol. cbn [outcome_bind]. rewrite Hfloats.
    cbn [outcome_bind].
    destruct (series_min_exact xs Hne) as [mn [-> [Hmn Hlow]]].
    destruct (series_max_exact xs Hne) as [mx [-> [Hmx Hhigh]]].
    rewrite (series_mean_exact xs Hne).
    set (vals := finite_values xs) in *.
    set (n := inject_Z (Z.of_nat (List.length vals))).
    assert (Hn : 0 < n).
    { unfold n. destruct vals as [ | q qs]; [congruence | ].
      cbn [List.length]. rewrite Nat2Z.inj_succ. unfold Qlt. cbn. lia. }
    assert (Hbounds : Forall (fun q => mn <= q <= mx) vals).
    { rewrite Forall_forall in *. intros q Hq.
      split; [now apply Hlow | now apply Hhigh]. }
    assert (Hmean : fold_left Qplus vals 0 / n * n == Qsum vals).
    { rewrite fold_left_Qplus. field. lra. }
    assert (Hin : mn <= fold_left Qplus vals 0 / n <= mx).
    { pose proof (Qsum_bounds mn mx vals Hbounds) as [Hlo Hhi]. fold n in Hlo, Hhi.
      rewrite fold_left_Qplus.
      setoid_replace (0 + Qsum vals) with (Qsum vals) by ring.
      split.
      - apply Qle_shift_div_l; [exact Hn | ]. now rewrite Qmult_comm.
      - apply Qle_shift_div_r; [exact Hn | ]. now rewrite Qmult_comm. }
    exists mn, mx, (fold_left Qplus vals 0 / n).
    split; [reflexivity | ]. split; [exact Hmn | ]. split; [exact Hmx | ].
    split; [exact Hbounds | ]. split; [exact Hmean | ]. split; [exact Hin | ].
    intros Hone. destruct vals as [ | q [ | q' qs]]; try discriminate Hone.
    destruct Hmn as [<- | []], Hmx as [<- | []].
    unfold n. cbn [fold_left List.length].
    change (inject_Z (Z.of_nat 1)) with 1. split; field.
  - intros df k s xs Hcol Hfloats Hne.
    unfold min_max_mean. rewrite Hcol. cbn [outcome_bind]. rewrite Hfloats.
    cbn [outcome_bind].
    destruct (@series_min_spec float binary64 float_ltb_irrefl float_ltb_trans
                float_ltb_neg_trans xs Hne) as [Hmn Hlow].
    destruct (@series_max_spec float binary64 float_ltb_irrefl float_ltb_trans
                float_ltb_neg_trans xs Hne) as [Hmx Hhigh].
    pose proof (@skipna_notnan float binary64 xs) as Hnn.
    rewrite Forall_forall in Hlow, Hhigh, Hnn.
    assert (Hall : forall y, In y (skipna xs) ->
                             PrimFloat.leb (series_min xs) y = true /\
                             PrimFloat.leb y (series_max xs) = true).
    { intros y Hy. split.
      - apply float_not_ltb_leb;
          [exact (Hnn y Hy) | exact (Hnn _ Hmn) | exact (Hlow y Hy)].
      - apply float_not_ltb_leb;
          [exact (Hnn _ Hmx) | exact (Hnn y Hy) | exact (Hhigh y Hy)]. }
    do 3 eexists. split; [reflexivity | ].
    split; [exact Hmn | ]. split; [exact Hmx | ].
    split; [apply Forall_forall; exact Hall | ].
    split; [exact (proj1 (Hall _ Hmx)) | ].
    intros x Hx. unfold series_min, series_max, series_mean. rewrite Hx.
    cbn [fold_left]. split; [reflexivity | split; [reflexivity | ] ].
    apply float_mean_single. apply (Hnn x). rewrite Hx. now left.
Qed.

(** Scenario E in exact arithmetic: minimum 400, maximum 1500, mean 2320/3;
    and the binary64 log [steady_pm25], whose CO2 column holds the same
    readings. *)
Lemma sensor_summary_witness :
  (exists mn mx mean,
      min_max_mean scenario_E 4 = Return (Fin mn, Fin mx, Fin mean) /\
      In mn [400; 420; 1500] /\ In mx [400; 420; 1500] /\
      Forall (fun q => mn <= q <= mx) [400; 420; 1500] /\
      mean * 3 == 400 + (420 + (1500 + 0)) /\
      mn <= mean <= mx /\
      (3%nat = 1%nat -> mn == mean /\ mean == mx)) /\
  (exists mn mx mean,
      min_max_mean steady_pm25 4 = Return (mn, mx, mean) /\
      In mn [400%float; 420%float; 1500%float] /\
      In mx [400%float; 420%float; 1500%float] /\
      Forall (fun y => PrimFloat.leb mn y = true /\ PrimFloat.leb y mx = true)
             [400%float; 420%float; 1500%float] /\
      PrimFloat.leb mn mx = true /\
      (forall x, [400%float; 420%float; 1500%float] = [x] ->
                 mn = x /\ mx = x /\ PrimFloat.eqb mean x = true)).
Proof.
  split.
  - refine (proj1 sensor_summary_bounds scenario_E 4%nat
              [ Num (Fin 400); Num (Fin 420); Num (Fin 1500) ]
              [ Fin 400; Fin 420; Fin 1500 ] eq_refl eq_refl _).
    discriminate.
  - refine (proj2 sensor_summary_bounds steady_pm25 4%nat
              [ Num 400%float; Num 420%float; Num 1500%float ]
              [ 400%float; 420%float; 1500%float ] eq_refl eq_refl _).
    discriminate.
Defined.

(** C9 as stated fails in the arithmetic of the interpreter.  Three PM2.5
    readings equal to the double nearest 0.1 add up to 0.30000000000000004,
    and a third of that rounds to 0.10000000000000002: the mean exceeds the
    maximum. *)
Lemma rounded_mean_exceeds_maximum :
  min_max_mean steady_pm25 6
  = Return (0x1.999999999999ap-4%float, 0x1.999999999999ap-4%float,
            0x1.999999999999bp-4%float) /\
  PrimFloat.ltb 0x1.999999999999ap-4%float 0x1.999999999999bp-4%float = true /\
  PrimFloat.leb 0x1.999999999999bp-4%float 0x1.999999999999ap-4%float = false.
Proof. repeat split. Qed.

(** ** Further properties of the routines *)

Lemma share_bounds (a b : nat) :
  (a <= b)%nat -> (0 < b)%nat -> 0 <= share a b <= 100.
Proof.
  intros Hab Hb. unfold share.
  assert (Ha : 0 <= inject_Z (Z.of_nat a))
    by (change 0 with (inject_Z 0); rewrite <- Zle_Qle; lia).
  assert (Hb' : 0 < inject_Z (Z.of_nat b))
    by (change 0 with (inject_Z 0); rewrite <- Zlt_Qlt; lia).
  assert (Hle : inject_Z (Z.of_nat a) <= inject_Z (Z.of_nat b))
    by (rewrite <- Zle_Qle; lia).
  split.
  - apply Qle_shift_div_l; [exact Hb' | lra].
  - apply Qle_shift_div_r; [exact Hb' | lra].
Qed.

(** X1: in exact arithmetic every cell of the symptoms matrix is a
    percentage between 0 and 100, and it is 0 when no row of the floor has
    the symptom. *)
Theorem symptom_cell_between_0_and_100 :
  forall (floor symptom : Series number) (k : cell number) (v : number),
    List.length floor = List.length symptom ->
    In (k, v) (groupby_apply floor symptom presence_pct) ->
    exists q,
      v = Fin q /\ 0 <= q <= 100 /\
      ((forall f c, In (f, c) (combine floor symptom) ->
                    cell_eqb k f = true -> cell_eqb c (Num (Fin 1)) = false) ->
       q == 0).
Proof.
  intros floor symptom k v Hlen Hin.
  destruct (groupby_cell_exact floor symptom k v Hlen Hin) as [_ [_ [Hne Hv]]].
  set (group := filter (fun r => cell_eqb k (fst r)) (combine floor symptom)) in *.
  set (present := filter (fun r => cell_eqb (snd r) (Num (Fin 1))) group) in *.
  destruct v as [ | q]; [destruct Hv | ]. cbn in Hv.
  exists q. split; [reflexivity | ].
  assert (Hle : (List.length present <= List.length group)%nat)
    by apply filter_length_le.
  assert (Hpos : (0 < List.length group)%nat)
    by (destruct group; [congruence | cbn; lia]).
  split.
  - rewrite Hv. now apply share_bounds.
  - intros Habsent. rewrite Hv.
    assert (Hnil : present = []).
    { destruct present as [ | [f c] t] eqn:Hp; [reflexivity | exfalso].
      assert (Hfc : In (f, c) present) by (rewrite Hp; now left).
      apply filter_In in Hfc as [Hfc Hone]. apply filter_In in Hfc as [Hfc Hk].
      cbn [fst snd] in *. now rewrite (Habsent f c Hfc Hk) in Hone. }
    rewrite Hnil. unfold share. cbn [List.length]. unfold Qdiv. ring.
Qed.

(** Floor 1 with two rows, none with the symptom. *)
Lemma symptom_cell_between_0_and_100_witness :
  exists q, Fin (0 # 2) = Fin q /\ 0 <= q <= 100 /\ q == 0.
Proof.
  destruct (symptom_cell_between_0_and_100
              [Num (Fin 1); Num (Fin 2); Num (Fin 1)]
              [Num (Fin 0); Num (Fin 1); Str "No"]
              (Num (Fin 1)) (Fin (0 # 2)) eq_refl (or_introl eq_refl))
    as [q [Hq [Hb Hz]]].
  exists q. split; [exact Hq | split; [exact Hb | ] ].
  apply Hz. intros f c [Hfc | [Hfc | [Hfc | []]]] Hk;
    injection Hfc as <- <-; try reflexivity; discriminate Hk.
Defined.

(** Scenario A.  The status column A, B, A gives 200/3 for A and 100/3
    for B in exact arithmetic, and in binary64 the doubles
    66.66666666666666 and 33.33333333333333, which print as 66.67 and
    33.33. *)
Theorem scenario_A_status_distribution :
  status_counts [("Status", [Str "A"; Str "B"; Str "A"])]
  = Return [ (Str "A", Fin (200 # 3)); (Str "B", Fin (100 # 3)) ] /\
  status_counts [("Status", [Str "A"; Str "B"; Str "A"])]
  = Return [ (Str "A", 0x1.0aaaaaaaaaaaap+6%float);
             (Str "B", 0x1.0aaaaaaaaaaaap+5%float) ] /\
  PrimFloat.ltb (float_lit (66665 # 1000)) 0x1.0aaaaaaaaaaaap+6%float = true /\
  PrimFloat.ltb 0x1.0aaaaaaaaaaaap+6%float (float_lit (66675 # 1000)) = true /\
  PrimFloat.ltb (float_lit (33325 # 1000)) 0x1.0aaaaaaaaaaaap+5%float = true /\
  PrimFloat.ltb 0x1.0aaaaaaaaaaaap+5%float (float_lit (33335 # 1000)) = true.
Proof. repeat split. Qed.

(** Scenario E in binary64.  The CO2 column 400, 420, 1500 has minimum
    400, maximum 1500 and mean 773.3333333333334, which prints as 773.33. *)
Theorem scenario_E_sensor_summary :
  min_max_mean steady_pm25 4
  = Return (400%float, 1500%float, 0x1.82aaaaaaaaaabp+9%float) /\
  PrimFloat.ltb (float_lit (773325 # 1000)) 0x1.82aaaaaaaaaabp+9%float = true /\
  PrimFloat.ltb 0x1.82aaaaaaaaaabp+9%float (float_lit (773335 # 1000)) = true.
Proof. repeat split. Qed.


(** X3: the sensor columns are found by counting from the last column: a
    table with fewer than six columns has no column at offset -6, and the
    routine raises before it prints. *)
Theorem sensors_need_six_columns :
  forall (F : Type) (Fl : Float F) (df : DataFrame F),
    (List.length df < 6)%nat ->
    exists e, analyze_sensors df = ([], Raise e).
Proof.
  intros F Fl df Hlen. unfold analyze_sensors.
  destruct (min_max_mean df 4) as [co2 | e]; [ | now exists e].
  assert (H6 : min_max_mean df 6 = Raise IndexError).
  { unfold min_max_mean, iloc_from_end.
    apply Nat.leb_gt in Hlen. rewrite Hlen, andb_false_r. reflexivity. }
  rewrite H6. now exists IndexError.
Qed.

(** The five columns of a log without its label column. *)
Lemma sensors_need_six_columns_witness :
  exists e, analyze_sensors (firstn 5 steady_pm25) = ([], Raise e).
Proof.
  apply (sensors_need_six_columns float binary64 (firstn 5 steady_pm25)).
  cbn. lia.
Defined.

(** ** Columns that are missing *)

Lemma getitem_has_column {F} (df : DataFrame F) (col : string) :
  if has_column df col
  then exists s, getitem df col = Return s
  else getitem df col = Raise (KeyError col).
Proof.
  unfold has_column, getitem. induction df as [ | [name s] df IH]; [reflexivity | ].
  cbn [map fst existsb find snd]. destruct (String.eqb col name); cbn [orb].
  - now exists s.
  - exact IH.
Qed.

Lemma first_missing_cons {F} (df : DataFrame F) (col : string) (cols : list string) :
  first_missing df (col :: cols)
  = if has_column df col then first_missing df cols else Some col.
Proof. unfold first_missing. cbn [find]. now destruct (has_column df col). Qed.

Lemma demographics_columns_checked {F} `{Float F} (df : DataFrame F) :
  match first_missing df demographics_columns with
  | Some col => analyze_demographics df = ([], Raise (KeyError col))
  | None => snd (analyze_demographics df) = Return tt
  end.
Proof.
  unfold demographics_columns, analyze_demographics,
    status_counts, gender_counts, duration_dist.
  rewrite !first_missing_cons.
  pose proof (getitem_has_column df "Status") as H1.
  pose proof (getitem_has_column df "Gender") as H2.
  pose proof (getitem_has_column df duration_col) as H3.
  destruct (has_column df "Status"); [destruct H1 as [s1 ->] | now rewrite H1].
  destruct (has_column df "Gender"); [destruct H2 as [s2 ->] | now rewrite H2].
  destruct (has_column df duration_col); [destruct H3 as [s3 ->] | now rewrite H3].
  reflexivity.
Qed.

Lemma perception_columns_checked {F} `{Float F} pandas (df : DataFrame F) :
  match first_missing df perception_columns with
  | Some col => analyze_perception pandas df = ([], Raise (KeyError col))
  | None => snd (analyze_perception pandas df) = Return tt
  end.
Proof.
  unfold perception_columns, analyze_perception, stressors.
  cbn [map snd outcome_map].
  rewrite !first_missing_cons.
  set (stuffy := (_ ++ _)%string).
  pose proof (getitem_has_column df stuffy) as H1.
  pose proof (getitem_has_column df "Environment [Room temperature too high]") as H2.
  pose proof (getitem_has_column df "Environment [Noise]") as H3.
  destruct (has_column df stuffy); [destruct H1 as [s1 ->] | now rewrite H1].
  destruct (has_column df "Environment [Room temperature too high]");
    [destruct H2 as [s2 ->] | now rewrite H2].
  destruct (has_column df "Environment [Noise]");
    [destruct H3 as [s3 ->] | now rewrite H3].
  reflexivity.
Qed.

Lemma matrix_columns_checked {F} `{Float F} (df : DataFrame F) :
  match first_missing df matrix_columns with
  | Some col => analyze_symptoms_matrix df = ([], Raise (KeyError (matrix_key col)))
  | None => snd (analyze_symptoms_matrix df) = Return tt
  end.
Proof.
  unfold matrix_columns, analyze_symptoms_matrix, symptoms_by_floor, groupby_getitem.
  cbn [outcome_map]. rewrite !first_missing_cons.
  pose proof (getitem_has_column df floor_col) as H0.
  pose proof (getitem_has_column df "Symptoms [Fatigue]") as H1.
  pose proof (getitem_has_column df "Symptoms [Headache]") as H2.
  pose proof (getitem_has_column df "Symptoms [Difficulties concentrating]") as H3.
  destruct (has_column df floor_col); [destruct H0 as [s0 ->] | now rewrite H0].
  destruct (has_column df "Symptoms [Fatigue]");
    [destruct H1 as [s1 ->] | now rewrite H1].
  destruct (has_column df "Symptoms [Headache]");
    [destruct H2 as [s2 ->] | now rewrite H2].
  destruct (has_column df "Symptoms [Difficulties concentrating]");
    [destruct H3 as [s3 ->] | now rewrite H3].
  reflexivity.
Qed.

(** X4: Tables 1, 2 and 3 fail on a missing column and on nothing else.
    Each goes through its columns in a fixed order -- Table 1 through
    status, gender and the duration column, of which it prints nothing --
    and at the first that the survey lacks it raises [KeyError], having
    printed nothing; with all its columns it ends normally.  The exception
    carries the name of the column, but for a symptom column of Table 3,
    where it carries the message "Column not found: " and the name. *)
Theorem missing_column_is_reported :
  forall (F : Type) (Fl : Float F) (pandas : version) (df : DataFrame F),
    match first_missing df demographics_columns with
    | Some col => analyze_demographics df = ([], Raise (KeyError col))
    | None => snd (analyze_demographics df) = Return tt
    end /\
    match first_missing df perception_columns with
    | Some col => analyze_perception pandas df = ([], Raise (KeyError col))
    | None => snd (analyze_perception pandas df) = Return tt
    end /\
    match first_missing df matrix_columns with
    | Some col =>
        analyze_symptoms_matrix df = ([], Raise (KeyError (matrix_key col))) /\
        (col = "Floor" /\ matrix_key col = "Floor" \/
         In col symptoms_by_floor /\
         matrix_key col = ("Column not found: " ++ col)%string)
    | None => snd (analyze_symptoms_matrix df) = Return tt
    end.
Proof.
  intros F Fl pandas df. split; [ | split].
  - apply demographics_columns_checked.
  - apply perception_columns_checked.
  - pose proof (matrix_columns_checked df) as Hm.
    destruct (first_missing df matrix_columns) as [col | ] eqn:Hf; [ | exact Hm].
    split; [exact Hm | ].
    apply find_some in Hf as [Hin _]. destruct Hin as [<- | Hin].
    + left. split; reflexivity.
    + right. split; [exact Hin | ].
      destruct Hin as [<- | [<- | [<- | []]]]; reflexivity.
Qed.

(** ** The shape of Tables 1 and 3 *)

Lemma exact_cell_leb_total (a b : cell number) :
  cell_leb a b = false -> cell_leb b a = true.
Proof.
  destruct a as [[ | x] | s], b as [[ | y] | t]; cbn; try discriminate; try reflexivity.
  - intros Hxy. apply negb_false_iff, negb_true_iff in Hxy.
    apply negb_true_iff, negb_false_iff. apply Qle_bool_iff.
    assert (Hlt : ~ x <= y) by (intros Hle; apply Qle_bool_iff in Hle; congruence).
    lra.
  - intros Hst. destruct (String.leb_total s t) as [Hle | Hle]; congruence.
Qed.

Lemma float_cell_leb_total (a b : cell float) :
  cell_leb a b = false -> cell_leb b a = true.
Proof.
  destruct a as [x | s], b as [y | t]; cbn [cell_leb ltb binary64];
    try discriminate; try reflexivity.
  - intros Hyx. apply negb_false_iff in Hyx. apply negb_true_iff.
    destruct (PrimFloat.ltb x y) eqn:Hxy; [ | reflexivity].
    pose proof (float_ltb_trans x y x Hxy Hyx) as Hxx.
    rewrite float_ltb_irrefl in Hxx. discriminate Hxx.
  - intros Hst. destruct (String.leb_total s t) as [Hle | Hle]; congruence.
Qed.

(** X5: when Table 3 is printed it is a full rectangle: one series per
    symptom, in the order of the list of symptoms, and every series has the
    same floors in the same order: the distinct floors of the survey, none
    of them missing, sorted as [groupby] sorts its keys.  In exact and in
    binary64 arithmetic they stand by increasing value, numbers before
    strings. *)
Theorem symptoms_matrix_is_rectangular :
  (forall (F : Type) (Fl : Float F) (df : DataFrame F) (o : list (out F)),
      analyze_symptoms_matrix df = (o, Return tt) ->
      exists floor matrix labels,
        getitem df floor_col = Return floor /\
        o = [ Text "--- Table 3: Symptoms Matrix (%) by Floor ---";
              Matrix matrix; Text newline ] /\
        map fst matrix = symptoms_by_floor /\
        Forall (fun col => map fst (snd col) = labels) matrix /\
        labels = sort cell_leb (unique (dropna floor)) /\
        Permutation labels (unique (dropna floor)) /\
        Forall (fun k => notna k = true) labels) /\
  (forall floor : Series number,
      Sorted (fun a b => cell_leb a b = true) (sort cell_leb (unique (dropna floor)))) /\
  (forall floor : Series float,
      Sorted (fun a b => cell_leb a b = true) (sort cell_leb (unique (dropna floor)))).
Proof.
  split; [ | split].
  - intros F Fl df o.
    unfold analyze_symptoms_matrix, symptoms_by_floor, groupby_getitem.
    cbn [outcome_map].
    destruct (getitem df floor_col) as [floor | e]; [ | discriminate].
    destruct (getitem df "Symptoms [Fatigue]") as [s1 | e]; [ | discriminate].
    destruct (getitem df "Symptoms [Headache]") as [s2 | e]; [ | discriminate].
    destruct (getitem df "Symptoms [Difficulties concentrating]") as [s3 | e];
      [ | discriminate].
    cbn. intros Ho. injection Ho as <-.
    exists floor. eexists. exists (sort cell_leb (unique (dropna floor))).
    split; [reflexivity | ]. split; [reflexivity | ].
    split; [reflexivity | ]. split; [ | split; [reflexivity | split ] ].
    + repeat constructor; unfold groupby_apply; cbn [snd];
        rewrite map_map; cbn [fst]; apply map_id.
    + apply sort_Permutation.
    + apply Forall_forall. intros k Hk. apply sort_In, unique_In in Hk.
      now apply filter_In in Hk as [_ Hk].
  - intros floor. apply sort_Sorted, exact_cell_leb_total.
  - intros floor. apply sort_Sorted, float_cell_leb_total.
Qed.

(** The complete survey: its floor column holds 1, 0 and 1, and the rows of
    Table 3 are those of the floors 0 and 1. *)
Lemma symptoms_matrix_is_rectangular_witness :
  exists floor matrix labels,
    getitem complete_survey floor_col = Return floor /\
    fst (analyze_symptoms_matrix complete_survey)
    = [ Text "--- Table 3: Symptoms Matrix (%) by Floor ---";
        Matrix matrix; Text newline ] /\
    map fst matrix = symptoms_by_floor /\
    Forall (fun col => map fst (snd col) = labels) matrix /\
    labels = [Num 0%float; Num 1%float] /\
    Permutation labels (unique (dropna floor)) /\
    Forall (fun k => notna k = true) labels.
Proof.
  destruct (proj1 symptoms_matrix_is_rectangular float binary64 complete_survey _ eq_refl)
    as [floor [matrix [labels [Hfloor [Ho [Hm [Hcols [Hlabels [Hperm Hna]]]]]]]]].
  exists floor, matrix, labels. repeat split; try assumption.
  rewrite Hlabels. vm_compute in Hfloor. injection Hfloor as <-. reflexivity.
Defined.

Lemma ForallOrdPairs_filter {A} (R : A -> A -> Prop) (f : A -> bool) (l : list A) :
  ForallOrdPairs R l -> ForallOrdPairs R (filter f l).
Proof.
  induction 1 as [ | a l Ha _ IH]; cbn [filter]; [constructor | ].
  destruct (f a); [ | exact IH].
  constructor; [ | exact IH].
  apply Forall_forall. intros b Hb. apply filter_In in Hb as [Hb _].
  now apply (proj1 (Forall_forall _ _) Ha).
Qed.

Lemma unique_distinct {F} `{Float F} (s : Series F) :
  ForallOrdPairs (fun a b => cell_eqb a b = false) (unique s).
Proof.
  induction s as [ | c t IH]; cbn [unique]; constructor.
  - apply Forall_forall. intros d Hd. apply filter_In in Hd as [_ Hd].
    now apply negb_true_iff in Hd.
  - now apply ForallOrdPairs_filter.
Qed.

Lemma ForallOrdPairs_map {A B} (R : B -> B -> Prop) (g : A -> B) (l : list A) :
  ForallOrdPairs (fun a b => R (g a) (g b)) l -> ForallOrdPairs R (map g l).
Proof.
  induction 1 as [ | a l Ha _ IH]; cbn [map]; constructor; [ | exact IH].
  apply Forall_forall. intros b Hb. apply in_map_iff in Hb as [a' [<- Ha']].
  now apply (proj1 (Forall_forall _ _) Ha).
Qed.

Lemma ForallOrdPairs_Permutation {A} (R : A -> A -> Prop) (l l' : list A) :
  (forall a b, R a b -> R b a) ->
  Permutation l l' -> ForallOrdPairs R l -> ForallOrdPairs R l'.
Proof.
  intros Hsym. induction 1 as [ | a l l' Hp IH | a b l | l l' l'' _ IH1 _ IH2].
  - trivial.
  - intros Hl. inversion Hl as [ | ? ? Ha Hl']; subst.
    constructor; [now apply (Permutation_Forall Hp) | now apply IH].
  - intros Hl. inversion Hl as [ | ? ? Hb Hl']; subst.
    inversion Hl' as [ | ? ? Ha Hl'']; subst.
    inversion Hb as [ | ? ? Hba Hb']; subst.
    constructor; [constructor; [now apply Hsym | exact Ha] | ].
    constructor; assumption.
  - intros Hl. now apply IH2, IH1.
Qed.

Lemma categories_distinct (s : Series number) :
  ForallOrdPairs (fun a b => cell_eqb a b = false) (categories s).
Proof.
  apply (ForallOrdPairs_Permutation _ (unique (dropna s))).
  - intros a b. now rewrite exact_cell_eqb_sym.
  - apply Permutation_sym, categories_Permutation.
  - apply unique_distinct.
Qed.

Lemma count_In (x k : cell number) (s : Series number) :
  In k s -> cell_eqb x k = true -> (0 < count x s)%nat.
Proof.
  intros Hk Hxk. unfold count.
  assert (Hin : In k (filter (cell_eqb x) s)) by (apply filter_In; now split).
  destruct (filter (cell_eqb x) s); [destruct Hin | cbn; lia].
Qed.

(** X6: a distribution of Table 1 lists every category once.  In exact
    arithmetic: each entry is a value of the column that is not missing,
    with the share of the rows that hold it among the rows that hold a
    value, above 0 and at most 100; every such value has its entry; and no
    two entries have equal categories. *)
Theorem distribution_lists_every_category_once :
  forall (df : DataFrame number) (col : string) (s : Series number)
         (counts : list (cell number * number)),
    (col = "Status" /\ status_counts df = Return counts \/
     col = "Gender" /\ gender_counts df = Return counts) ->
    getitem df col = Return s ->
    (forall k p, In (k, p) counts ->
                 notna k = true /\ In k s /\
                 exists q, p = Fin q /\ 0 < q <= 100 /\
                           q == share (count k (dropna s)) (List.length (dropna s))) /\
    (forall x, In x s -> notna x = true ->
               exists k p, In (k, p) counts /\ cell_eqb k x = true) /\
    ForallOrdPairs (fun a b => cell_eqb (fst a) (fst b) = false) counts.
Proof.
  intros df col s counts Hcounts Hs.
  assert (Hvc : counts = value_counts_pct s).
  { unfold status_counts, gender_counts in Hcounts.
    destruct Hcounts as [[-> Hc] | [-> Hc]]; rewrite Hs in Hc; cbn in Hc; congruence. }
  subst counts. clear Hcounts Hs. split; [ | split].
  - intros k p Hin.
    assert (Hne : dropna s <> []).
    { unfold value_counts_pct in Hin. destruct (dropna s); [destruct Hin | discriminate]. }
    rewrite (value_counts_pct_exact s Hne) in Hin.
    apply in_map_iff in Hin as [k' [Heq Hk]]. injection Heq as -> <-.
    apply (Permutation_in _ (categories_Permutation s)), unique_In in Hk.
    pose proof Hk as Hk'.
    apply filter_In in Hk as [Hk Hna].
    split; [exact Hna | split; [exact Hk | ] ].
    eexists. split; [reflexivity | ].
    pose proof (count_In k k (dropna s) Hk' (exact_cell_eqb_refl k Hna)) as Hpos.
    assert (Hle : (count k (dropna s) <= List.length (dropna s))%nat)
      by apply filter_length_le.
    pose proof (share_bounds _ _ Hle ltac:(lia)) as [_ Hhi].
    assert (Hshare : inject_Z (Z.of_nat (count k (dropna s)))
                     / inject_Z (Z.of_nat (List.length (dropna s))) * 100
                     == share (count k (dropna s)) (List.length (dropna s)))
      by (unfold share, Qdiv; ring).
    split; [ | exact Hshare]. rewrite Hshare. split; [ | exact Hhi].
    unfold share. apply Qlt_shift_div_l.
    + change 0 with (inject_Z 0). rewrite <- Zlt_Qlt. lia.
    + rewrite Qmult_0_l.
      assert (0 < inject_Z (Z.of_nat (count k (dropna s))))
        by (change 0 with (inject_Z 0); rewrite <- Zlt_Qlt; lia).
      lra.
  - intros x Hx Hna.
    assert (Hx' : In x (dropna s)) by (apply filter_In; now split).
    destruct (unique_complete exact_cell_eqb_trans exact_cell_eqb_refl x _ Hx' Hna)
      as [k [Hk Hkx]].
    exists k. eexists. split; [ | exact Hkx].
    unfold value_counts_pct. apply in_map_iff. exists k.
    split; [reflexivity | now apply sort_In].
  - unfold value_counts_pct. apply ForallOrdPairs_map. cbn [fst].
    apply categories_distinct.
Qed.

(** Scenario A: the status column A, B, A. *)
Lemma distribution_witness :
  (forall (k : cell number) (p : number),
      In (k, p) [ (Str "A", Fin (200 # 3)); (Str "B", Fin (100 # 3)) ] ->
               notna k = true /\ In k [Str "A"; Str "B"; Str "A"] /\
               exists q, p = Fin q /\ 0 < q <= 100 /\
                         q == share (count k [Str "A"; Str "B"; Str "A"]) 3) /\
  (forall x : cell number, In x [Str "A"; Str "B"; Str "A"] -> notna x = true ->
             exists k p,
               In (k, p) [ (Str "A", Fin (200 # 3)); (Str "B", Fin (100 # 3)) ] /\
               cell_eqb k x = true) /\
  ForallOrdPairs (fun a b => cell_eqb (fst a) (fst b) = false)
    [ (@Str number "A", Fin (200 # 3)); (Str "B", Fin (100 # 3)) ].
Proof.
  exact (distribution_lists_every_category_once
           [("Status", [Str "A"; Str "B"; Str "A"])] "Status"
           [Str "A"; Str "B"; Str "A"] _ (or_introl (conj eq_refl eq_refl)) eq_refl).
Defined.

(** ** The order of the rows *)

Lemma filter_Permutation {A} (f : A -> bool) (l l' : list A) :
  Permutation l l' -> Permutation (filter f l) (filter f l').
Proof.
  induction 1 as [ | a l l' _ IH | a b l | l l' l'' _ IH1 _ IH2]; cbn [filter].
  - constructor.
  - destruct (f a); [now constructor | exact IH].
  - destruct (f a), (f b); try apply Permutation_refl. apply perm_swap.
  - now apply Permutation_trans with (filter f l').
Qed.

Lemma count_Permutation {F} `{Float F} (k : cell F) (s s' : Series F) :
  Permutation s s' -> count k s = count k s'.
Proof.
  intros Hp. unfold count. apply Permutation_length. now apply filter_Permutation.
Qed.

Lemma count_occ_filter_split {A} (f : A -> nat) (p : A -> bool) (l : list A) (m : nat) :
  count_occ Nat.eq_dec (map f l) m
  = (count_occ Nat.eq_dec (map f (filter p l)) m
     + count_occ Nat.eq_dec (map f (filter (fun a => negb (p a)) l)) m)%nat.
Proof.
  induction l as [ | a l IH]; [reflexivity | ].
  cbn [map filter]. destruct (p a); cbn [negb map count_occ];
    destruct (Nat.eq_dec (f a) m); lia.
Qed.

Lemma sorted_Permutation_eq (l l' : list nat) :
  StronglySorted ge l -> StronglySorted ge l' -> Permutation l l' -> l = l'.
Proof.
  revert l'. induction l as [ | a l IH]; intros l' Hl Hl' Hp.
  - apply Permutation_nil in Hp. now subst.
  - destruct l' as [ | b l'].
    + apply Permutation_sym, Permutation_nil in Hp. discriminate Hp.
    + apply StronglySorted_inv in Hl as [Hl Ha].
      apply StronglySorted_inv in Hl' as [Hl' Hb].
      assert (Hab : a = b).
      { assert (Hb_in : In b (a :: l))
          by (apply (Permutation_in _ (Permutation_sym Hp)); now left).
        assert (Ha_in : In a (b :: l'))
          by (apply (Permutation_in _ Hp); now left).
        rewrite Forall_forall in Ha, Hb.
        destruct Hb_in as [-> | Hb_in]; [reflexivity | ].
        destruct Ha_in as [-> | Ha_in]; [reflexivity | ].
        specialize (Ha b Hb_in). specialize (Hb a Ha_in). lia. }
      subst b. f_equal. apply IH; try assumption.
      now apply Permutation_cons_inv in Hp.
Qed.

Section RowOrder.

Context {F : Type} `{Float F}.

Hypothesis cell_eqb_sym : forall a b : cell F, cell_eqb a b = cell_eqb b a.
Hypothesis cell_eqb_trans :
  forall a b c : cell F, cell_eqb a b = true -> cell_eqb b c = true -> cell_eqb a c = true.
Hypothesis cell_eqb_refl : forall a : cell F, notna a = true -> cell_eqb a a = true.

(** What a lookup by label in a distribution returns, from the number of
    values equal to the label and the number of values. *)
Lemma lookup_value_counts_pct_count (s : Series F) (label : cell F) (default : F) :
  lookup (value_counts_pct s) label default
  = if (count label (dropna s) =? 0)%nat then default
    else mul (div (of_nat (count label (dropna s))) (of_nat (List.length (dropna s))))
             (lit 100).
Proof.
  unfold value_counts_pct. fold (categories s).
  destruct (lookup_unique cell_eqb_sym cell_eqb_trans cell_eqb_refl
              (fun k => mul (div (of_nat (count k (dropna s)))
                                 (of_nat (List.length (dropna s)))) (lit 100))
              label default (dropna s) (categories s)
              (categories_Permutation s) (dropna_notna s))
    as [[Hzero ->] | [k [Hk [Hkey ->]]]].
  - now rewrite Hzero.
  - rewrite <- (count_congr cell_eqb_sym cell_eqb_trans label k _ Hkey).
    assert (Hpos : In k (filter (cell_eqb label) (dropna s)))
      by (apply filter_In; now split).
    unfold count at 1.
    destruct (filter (cell_eqb label) (dropna s)) as [ | d t] eqn:Hf; [destruct Hpos | ].
    cbn [List.length Nat.eqb]. unfold count. now rewrite Hf.
Qed.

(** The distinct values equal to [a]: none when [a] does not occur, one
    otherwise. *)
Lemma class_of (a : cell F) (l : Series F) (m : nat) :
  forallb notna l = true ->
  count_occ Nat.eq_dec (map (fun k => count k l) (filter (cell_eqb a) (unique l))) m
  = if (0 <? count a l)%nat && (m =? count a l)%nat then 1%nat else 0%nat.
Proof.
  intros Hna.
  pose proof (ForallOrdPairs_filter _ (cell_eqb a) _ (unique_distinct l)) as Hdistinct.
  destruct (filter (cell_eqb a) (unique l)) as [ | k rest] eqn:Hf.
  - assert (Hzero : count a l = 0%nat).
    { destruct (count a l) as [ | n] eqn:Hcount; [reflexivity | exfalso].
      destruct (count_pos a l) as [d [Hd Had]]; [lia | ].
      destruct (unique_complete cell_eqb_trans cell_eqb_refl d l Hd) as [k [Hk Hkd]].
      { now apply (proj1 (forallb_forall _ _) Hna). }
      assert (Hin : In k (filter (cell_eqb a) (unique l))).
      { apply filter_In. split; [exact Hk | ].
        apply cell_eqb_trans with d; [exact Had | now rewrite cell_eqb_sym]. }
      rewrite Hf in Hin. destruct Hin. }
    rewrite Hzero. reflexivity.
  - assert (Hk : In k (unique l) /\ cell_eqb a k = true)
      by (apply filter_In; rewrite Hf; now left).
    destruct Hk as [Hk Hak].
    assert (Hrest : rest = []).
    { destruct rest as [ | k' rest']; [reflexivity | exfalso].
      assert (Hk' : In k' (unique l) /\ cell_eqb a k' = true)
        by (apply filter_In; rewrite Hf; right; now left).
      destruct Hk' as [_ Hak'].
      inversion Hdistinct as [ | ? ? Hhd _]; subst.
      inversion Hhd as [ | ? ? Hkk' _]; subst.
      assert (Htrue : cell_eqb k k' = true)
        by (apply cell_eqb_trans with a; [now rewrite cell_eqb_sym | exact Hak']).
      congruence. }
    subst rest. cbn [map count_occ].
    rewrite <- (count_congr cell_eqb_sym cell_eqb_trans a k l Hak).
    assert (Hpos : (0 < count a l)%nat).
    { unfold count.
      assert (Hin : In k (filter (cell_eqb a) l))
        by (apply filter_In; split; [now apply unique_In | exact Hak]).
      destruct (filter (cell_eqb a) l); [destruct Hin | cbn; lia]. }
    apply Nat.ltb_lt in Hpos. rewrite Hpos. cbn [andb].
    destruct (Nat.eq_dec (count a l) m) as [<- | Hne].
    + now rewrite Nat.eqb_refl.
    + destruct (Nat.eqb_spec m (count a l)); [congruence | reflexivity].
Qed.

(** One more occurrence of [a] moves its class, if it has one, to the next
    size, and starts a class of size 1 otherwise. *)
Lemma class_sizes_cons (a : cell F) (l : Series F) (m : nat) :
  forallb notna (a :: l) = true ->
  (count_occ Nat.eq_dec (class_sizes (a :: l)) m
   + (if (0 <? count a l)%nat && (m =? count a l)%nat then 1 else 0))%nat
  = (count_occ Nat.eq_dec (class_sizes l) m
     + (if (m =? S (count a l))%nat then 1 else 0))%nat.
Proof.
  cbn [forallb]. intros Hna. apply andb_true_iff in Hna as [Ha Hna].
  unfold class_sizes. cbn [unique map].
  assert (Hhead : count a (a :: l) = S (count a l)).
  { unfold count. cbn [filter]. now rewrite (cell_eqb_refl a Ha). }
  assert (Htail : map (fun k => count k (a :: l))
                      (filter (fun d => negb (cell_eqb a d)) (unique l))
                  = map (fun k => count k l)
                      (filter (fun d => negb (cell_eqb a d)) (unique l))).
  { apply map_ext_in. intros k Hk. apply filter_In in Hk as [_ Hk].
    apply negb_true_iff in Hk. unfold count. cbn [filter].
    now rewrite cell_eqb_sym, Hk. }
  rewrite Hhead, Htail.
  rewrite (count_occ_filter_split (fun k => count k l) (cell_eqb a) (unique l) m).
  rewrite (class_of a l m Hna).
  cbn [count_occ].
  destruct (Nat.eq_dec (S (count a l)) m) as [<- | Hne].
  - rewrite Nat.eqb_refl. lia.
  - destruct (Nat.eqb_spec m (S (count a l))); [congruence | lia].
Qed.

Lemma class_sizes_Permutation (l l' : Series F) :
  Permutation l l' -> forallb notna l = true ->
  Permutation (class_sizes l) (class_sizes l').
Proof.
  intros Hp Hna. apply (Permutation_count_occ Nat.eq_dec).
  induction Hp as [ | a l l' Hp IH | a b l | l l' l'' Hp1 IH1 Hp2 IH2]; intros m.
  - reflexivity.
  - pose proof (class_sizes_cons a l m Hna) as H1.
    assert (Hna' : forallb notna (a :: l') = true).
    { apply forallb_forall. intros d Hd. apply (proj1 (forallb_forall _ _) Hna).
      apply (Permutation_in _ (Permutation_sym (perm_skip a Hp)) Hd). }
    pose proof (class_sizes_cons a l' m Hna') as H2.
    rewrite <- (count_Permutation a l l' Hp) in H2.
    cbn [forallb] in Hna. apply andb_true_iff in Hna as [_ Hna].
    specialize (IH Hna m). lia.
  - (* b :: a :: l against a :: b :: l *)
    assert (Hna' : forallb notna (a :: b :: l) = true).
    { cbn [forallb] in Hna |- *.
      apply andb_true_iff in Hna as [Hb Hna]. apply andb_true_iff in Hna as [Ha Hna].
      now rewrite Ha, Hb, Hna. }
    pose proof Hna as Hbal. pose proof Hna' as Habl.
    cbn [forallb] in Hbal, Habl.
    apply andb_true_iff in Hbal as [Hb Hal]. apply andb_true_iff in Habl as [Ha Hbl].
    pose proof (class_sizes_cons b (a :: l) m Hna) as H1.
    pose proof (class_sizes_cons a l m Hal) as H2.
    pose proof (class_sizes_cons a (b :: l) m Hna') as H3.
    pose proof (class_sizes_cons b l m Hbl) as H4.
    assert (Hba : count b (a :: l)
                  = (count b l + if cell_eqb b a then 1 else 0)%nat).
    { unfold count. cbn [filter]. destruct (cell_eqb b a); cbn [List.length]; lia. }
    assert (Hab : count a (b :: l)
                  = (count a l + if cell_eqb a b then 1 else 0)%nat).
    { unfold count. cbn [filter]. destruct (cell_eqb a b); cbn [List.length]; lia. }
    rewrite Hba in H1. rewrite Hab in H3. rewrite (cell_eqb_sym b a) in H1.
    destruct (cell_eqb a b) eqn:Heq.
    + rewrite <- (count_congr cell_eqb_sym cell_eqb_trans a b l Heq) in H1, H4.
      revert H1 H2 H3 H4.
      generalize (count_occ Nat.eq_dec (class_sizes (b :: a :: l)) m).
      generalize (count_occ Nat.eq_dec (class_sizes (a :: b :: l)) m).
      generalize (count_occ Nat.eq_dec (class_sizes (a :: l)) m).
      generalize (count_occ Nat.eq_dec (class_sizes (b :: l)) m).
      generalize (count_occ Nat.eq_dec (class_sizes l) m).
      generalize (count a l). intros c n0 n1 n2 n3 n4.
      rewrite ?Nat.add_0_r.
      destruct (Nat.ltb_spec 0 c), (Nat.ltb_spec 0 (c + 1)),
        (Nat.eqb_spec m c), (Nat.eqb_spec m (c + 1)), (Nat.eqb_spec m (S c)),
        (Nat.eqb_spec m (S (c + 1))); cbn [andb]; lia.
    + revert H1 H2 H3 H4.
      generalize (count_occ Nat.eq_dec (class_sizes (b :: a :: l)) m).
      generalize (count_occ Nat.eq_dec (class_sizes (a :: b :: l)) m).
      generalize (count_occ Nat.eq_dec (class_sizes (a :: l)) m).
      generalize (count_occ Nat.eq_dec (class_sizes (b :: l)) m).
      generalize (count_occ Nat.eq_dec (class_sizes l) m).
      generalize (count a l) (count b l). intros ca cb n0 n1 n2 n3 n4.
      rewrite ?Nat.add_0_r.
      destruct (Nat.ltb_spec 0 ca), (Nat.ltb_spec 0 cb),
        (Nat.eqb_spec m ca), (Nat.eqb_spec m cb), (Nat.eqb_spec m (S ca)),
        (Nat.eqb_spec m (S cb)); cbn [andb]; lia.
  - assert (Hna' : forallb notna l' = true).
    { apply forallb_forall. intros d Hd. apply (proj1 (forallb_forall _ _) Hna).
      apply (Permutation_in _ (Permutation_sym Hp1) Hd). }
    rewrite (IH1 Hna m). apply (IH2 Hna' m).
Qed.


(** The counts of a distribution, in its order: from the largest down. *)
Lemma categories_counts_sorted (s : Series F) :
  StronglySorted ge (map (fun k => count k (dropna s)) (categories s)).
Proof.
  assert (Hsorted : Sorted (fun a b => (count b (dropna s) <= count a (dropna s))%nat)
                           (categories s)).
  { unfold categories.
    pose proof (sort_Sorted (fun a b => (count b (dropna s) <=? count a (dropna s))%nat)
                  (unique (dropna s))) as Hs.
    eapply Sorted_ind with (P := fun l => Sorted _ l);
      [constructor | | apply Hs].
    - intros a l _ IH Hhd. constructor; [exact IH | ].
      destruct Hhd as [ | b l' Hab]; constructor. now apply Nat.leb_le.
    - intros x y Hxy. apply Nat.leb_gt in Hxy. apply Nat.leb_le. lia. }
  apply Sorted_StronglySorted in Hsorted; [ | intros x y z Hxy Hyz; lia].
  induction Hsorted as [ | a l _ IH Ha]; cbn [map]; constructor; [exact IH | ].
  apply Forall_forall. intros n Hn. apply in_map_iff in Hn as [k [<- Hk]].
  rewrite Forall_forall in Ha. specialize (Ha k Hk). unfold ge. exact Ha.
Qed.

Lemma categories_counts_Permutation (s s' : Series F) :
  Permutation s s' ->
  map (fun k => count k (dropna s)) (categories s)
  = map (fun k => count k (dropna s')) (categories s').
Proof.
  intros Hp.
  assert (Hd : Permutation (dropna s) (dropna s')) by now apply filter_Permutation.
  apply sorted_Permutation_eq; try apply categories_counts_sorted.
  apply Permutation_trans with (class_sizes (dropna s));
    [apply Permutation_map, categories_Permutation | ].
  apply Permutation_trans with (class_sizes (dropna s'));
    [apply class_sizes_Permutation; [exact Hd | apply dropna_notna] | ].
  apply Permutation_sym, Permutation_map, categories_Permutation.
Qed.

(** The percentages of a distribution, in its order. *)
Lemma percentages_Permutation (s s' : Series F) :
  Permutation s s' ->
  map snd (value_counts_pct s) = map snd (value_counts_pct s').
Proof.
  intros Hp.
  assert (Hd : Permutation (dropna s) (dropna s')) by now apply filter_Permutation.
  unfold value_counts_pct. fold (categories s). fold (categories s').
  rewrite !map_map. cbn [snd].
  rewrite <- (map_map (fun k => count k (dropna s))
                (fun c => mul (div (of_nat c) (of_nat (List.length (dropna s)))) (lit 100))).
  rewrite <- (map_map (fun k => count k (dropna s'))
                (fun c => mul (div (of_nat c) (of_nat (List.length (dropna s')))) (lit 100))).
  now rewrite (categories_counts_Permutation s s' Hp), (Permutation_length Hd).
Qed.

(** The index of a distribution holds a string when the column does. *)
Lemma index_holds_string (s : Series F) :
  existsb is_str (map fst (value_counts_pct s)) = existsb is_str (dropna s).
Proof.
  rewrite value_counts_pct_index. apply eq_true_iff_eq.
  rewrite !existsb_exists. split.
  - intros [k [Hk Hstr]]. exists k. split; [ | exact Hstr].
    apply unique_In. apply (Permutation_in _ (categories_Permutation s) Hk).
  - intros [x [Hx Hstr]].
    assert (Hna : notna x = true) by (now apply filter_In in Hx as [_ Hx]).
    destruct (unique_complete cell_eqb_trans cell_eqb_refl x _ Hx Hna) as [k [Hk Hkx]].
    exists k. split.
    + apply (Permutation_in _ (Permutation_sym (categories_Permutation s)) Hk).
    + destruct k as [y | t], x as [z | u]; try discriminate; reflexivity.
Qed.

Lemma existsb_Permutation {A} (p : A -> bool) (l l' : list A) :
  Permutation l l' -> existsb p l = existsb p l'.
Proof.
  intros Hp. apply eq_true_iff_eq. rewrite !existsb_exists.
  split; intros [x [Hx Hpx]]; exists x; (split; [ | exact Hpx]).
  - apply (Permutation_in _ Hp Hx).
  - apply (Permutation_in _ (Permutation_sym Hp) Hx).
Qed.

Lemma row_order_is_immaterial (s s' : Series F) :
  Permutation s s' ->
  (forall label default,
      lookup (value_counts_pct s) label default
      = lookup (value_counts_pct s') label default) /\
  (forall pandas k default,
      get pandas (value_counts_pct s) k default
      = get pandas (value_counts_pct s') k default) /\
  (forall pandas label, perception_row pandas label s = perception_row pandas label s').
Proof.
  intros Hp.
  assert (Hd : Permutation (dropna s) (dropna s')) by now apply filter_Permutation.
  assert (Hlookup : forall label default,
             lookup (value_counts_pct s) label default
             = lookup (value_counts_pct s') label default).
  { intros label default. rewrite !lookup_value_counts_pct_count.
    now rewrite (count_Permutation label _ _ Hd), (Permutation_length Hd). }
  assert (Hget : forall pandas k default,
             get pandas (value_counts_pct s) k default
             = get pandas (value_counts_pct s') k default).
  { intros pandas k default. unfold get.
    rewrite !index_holds_string, (existsb_Permutation is_str _ _ Hd).
    rewrite (percentages_Permutation s s' Hp), !Hlookup. reflexivity. }
  split; [exact Hlookup | split; [exact Hget | ] ].
  intros pandas label. unfold perception_row. now rewrite !Hget.
Qed.

End RowOrder.

Lemma SFeqb_sym (x y : spec_float) : SFeqb x y = SFeqb y x.
Proof.
  unfold SFeqb. rewrite (SFcompare_antisym x y).
  now destruct (SFcompare x y) as [[ | | ] | ].
Qed.

Lemma SFeqb_trans (x y z : spec_float) :
  SFeqb x y = true -> SFeqb y z = true -> SFeqb x z = true.
Proof.
  unfold SFeqb.
  destruct x as [sx | sx | | sx mx ex], y as [sy | sy | | sy my ey],
    z as [sz | sz | | sz mz ez]; cbn [SFcompare];
    try destruct sx; try destruct sy; try destruct sz;
    try discriminate; try reflexivity;
    intros Hxy Hyz; compare_cases; try discriminate; try reflexivity; lia.
Qed.

Lemma float_cell_eqb_sym (a b : cell float) : cell_eqb a b = cell_eqb b a.
Proof.
  destruct a as [x | s], b as [y | t]; cbn [cell_eqb eqb binary64]; try reflexivity.
  - rewrite !FloatAxioms.eqb_spec. apply SFeqb_sym.
  - apply String.eqb_sym.
Qed.

Lemma float_cell_eqb_trans (a b c : cell float) :
  cell_eqb a b = true -> cell_eqb b c = true -> cell_eqb a c = true.
Proof.
  destruct a as [x | s], b as [y | t], c as [z | u]; cbn [cell_eqb eqb binary64];
    try discriminate.
  - rewrite !FloatAxioms.eqb_spec. apply SFeqb_trans.
  - rewrite !String.eqb_eq. congruence.
Qed.

Lemma float_cell_eqb_refl (a : cell float) : notna a = true -> cell_eqb a a = true.
Proof.
  destruct a as [x | s]; cbn [cell_eqb eqb binary64 notna isna isnan].
  - unfold notna, isna, isnan, binary64, PrimFloat.is_nan.
    now destruct (PrimFloat.eqb x x).
  - intros _. apply String.eqb_refl.
Qed.

(** X7: Tables 1 and 2 do not depend on the order of the rows.  When the
    rows of a column are permuted, every percentage that a lookup by label
    or [get] finds in its distribution is the same float, and so is the
    Table 2 row of a stressor; in exact and in binary64 arithmetic, since a
    percentage is computed from two counts; and on every pandas, since the
    percentage at a position of a distribution, counted from the most
    frequent value, does not depend on the order of the rows either. *)
Theorem percentages_ignore_row_order :
  (forall s s' : Series number,
      Permutation s s' ->
      (forall label default,
          lookup (value_counts_pct s) label default
          = lookup (value_counts_pct s') label default) /\
      (forall pandas k default,
          get pandas (value_counts_pct s) k default
          = get pandas (value_counts_pct s') k default) /\
      (forall pandas label,
          perception_row pandas label s = perception_row pandas label s')) /\
  (forall s s' : Series float,
      Permutation s s' ->
      (forall label default,
          lookup (value_counts_pct s) label default
          = lookup (value_counts_pct s') label default) /\
      (forall pandas k default,
          get pandas (value_counts_pct s) k default
          = get pandas (value_counts_pct s') k default) /\
      (forall pandas label,
          perception_row pandas label s = perception_row pandas label s')).
Proof.
  split; intros s s' Hp.
  - exact (row_order_is_immaterial exact_cell_eqb_sym exact_cell_eqb_trans
             exact_cell_eqb_refl s s' Hp).
  - exact (row_order_is_immaterial float_cell_eqb_sym float_cell_eqb_trans
             float_cell_eqb_refl s s' Hp).
Qed.

(** Two rows exchanged in a column of mixed codes. *)
Lemma percentages_ignore_row_order_witness :
  (forall label default,
      lookup (value_counts_pct [Num 1%float; Str "Yes"; Num 2%float; Num PrimFloat.nan])
             label default
      = lookup
          (value_counts_pct [Str "Yes"; Num 1%float; Num 2%float; Num PrimFloat.nan])
          label default) /\
  (forall pandas k default,
      get pandas (value_counts_pct [Num 1%float; Str "Yes"; Num 2%float; Num PrimFloat.nan])
          k default
      = get pandas
          (value_counts_pct [Str "Yes"; Num 1%float; Num 2%float; Num PrimFloat.nan])
          k default) /\
  (forall pandas label,
      perception_row pandas label
        [Num 1%float; Str "Yes"; Num 2%float; Num PrimFloat.nan]
      = perception_row pandas label
          [Str "Yes"; Num 1%float; Num 2%float; Num PrimFloat.nan]).
Proof.
  apply (proj2 percentages_ignore_row_order). apply perm_swap.
Defined.

(** ** Table 4, line by line *)

Section Indicators.

Context {F : Type} `{Float F}.

Hypothesis isnan_nan : isnan nan = true.
Hypothesis isnan_0 : isnan (lit 0) = false.
Hypothesis isnan_1 : isnan (lit 1) = false.
Hypothesis eqb_0_0 : eqb (lit 0) (lit 0) = true.
Hypothesis eqb_1_1 : eqb (lit 1) (lit 1) = true.
Hypothesis eqb_0_1 : eqb (lit 0) (lit 1) = false.
Hypothesis eqb_1_0 : eqb (lit 1) (lit 0) = false.
Hypothesis significance_nan : significance nan = "".

Lemma constant_indicator (col : Series F) : constant (indicator col) = uniform col.
Proof.
  assert (Haux : forall (c0 : cell F) (l : Series F),
             forallb (fun v => eqb v (if is_yes c0 then lit 1 else lit 0)) (indicator l)
             = forallb (fun c => Bool.eqb (is_yes c) (is_yes c0)) l).
  { intros c0 l. induction l as [ | c l IH]; [reflexivity | ].
    cbn [indicator map forallb]. fold (indicator l). rewrite IH. f_equal.
    destruct (is_yes c), (is_yes c0); cbn [Bool.eqb]; assumption. }
  destruct col as [ | c0 t]; [reflexivity | ].
  unfold uniform. rewrite <- Haux. reflexivity.
Qed.

Lemma correlate_from_cells stat (cond symp : string) (c s : Series F) :
  correlate stat cond symp c s
  = let rows := subset c s in
    if (List.length rows <? 2)%nat then ([], Raise ValueError)
    else if uniform (map fst rows) || uniform (map snd rows)
    then ([Correlation (substring 0 15 cond) (substring 0 15 symp) nan ""], Return tt)
    else let (r_val, p_val) := stat (indicator (map fst rows)) (indicator (map snd rows)) in
         ([Correlation (substring 0 15 cond) (substring 0 15 symp)
                       r_val (significance p_val)], Return tt).
Proof.
  cbv zeta. unfold correlate.
  rewrite !(convert_yes_indicator isnan_nan isnan_0 isnan_1).
  fold (indicator (map fst (subset c s))). fold (indicator (map snd (subset c s))).
  unfold pearsonr. rewrite !constant_indicator.
  unfold indicator at 1 2 3. rewrite !length_map, Nat.eqb_refl. cbn [negb].
  destruct (List.length (subset c s) <? 2)%nat; [reflexivity | ].
  destruct (uniform (map fst (subset c s)) || uniform (map snd (subset c s))).
  - cbn. now rewrite significance_nan.
  - cbn. destruct (stat _ _) as [r_val p_val]. reflexivity.
Qed.

End Indicators.

(** X8: one line of Table 4, read off the cells of its two columns, in exact
    and in binary64 arithmetic.  Of the rows where neither cell is missing:
    fewer than two make [pearsonr] raise [ValueError] and nothing is
    printed; two or more, with a column whose cells are all "Yes" or all
    something else, print [nan] without a marker; otherwise the line carries
    the library statistic of the two indicators of "Yes". *)
Theorem correlation_line_from_cells :
  (forall (stat : list number -> list number -> number * number)
          (cond symp : string) (c s : Series number),
      correlate stat cond symp c s
      = let rows := subset c s in
        if (List.length rows <? 2)%nat then ([], Raise ValueError)
        else if uniform (map fst rows) || uniform (map snd rows)
        then ([Correlation (substring 0 15 cond) (substring 0 15 symp) NaN ""],
              Return tt)
        else let (r_val, p_val) :=
               stat (indicator (map fst rows)) (indicator (map snd rows)) in
             ([Correlation (substring 0 15 cond) (substring 0 15 symp)
                           r_val (significance p_val)], Return tt)) /\
  (forall (stat : list float -> list float -> float * float)
          (cond symp : string) (c s : Series float),
      correlate stat cond symp c s
      = let rows := subset c s in
        if (List.length rows <? 2)%nat then ([], Raise ValueError)
        else if uniform (map fst rows) || uniform (map snd rows)
        then ([Correlation (substring 0 15 cond) (substring 0 15 symp)
                           PrimFloat.nan ""], Return tt)
        else let (r_val, p_val) :=
               stat (indicator (map fst rows)) (indicator (map snd rows)) in
             ([Correlation (substring 0 15 cond) (substring 0 15 symp)
                           r_val (significance p_val)], Return tt)).
Proof.
  split; intros stat cond symp c s.
  - exact (correlate_from_cells (F := number) eq_refl eq_refl eq_refl eq_refl eq_refl
             eq_refl eq_refl eq_refl stat cond symp c s).
  - exact (correlate_from_cells (F := float) eq_refl eq_refl eq_refl eq_refl eq_refl
             eq_refl eq_refl eq_refl stat cond symp c s).
Qed.

(** ** Table 4 as a whole *)

Lemma for_each_Return {F A} (l : list A) (body : A -> io F unit) :
  snd (for_each l body) = Return tt <->
  Forall (fun a => snd (body a) = Return tt) l.
Proof.
  induction l as [ | a l IH]; cbn [for_each].
  - split; [constructor | reflexivity].
  - unfold bind. destruct (body a) as [o [[] | e]] eqn:Ha.
    + destruct (for_each l body) as [o' r']. cbn [snd] in IH |- *.
      split.
      * intros Hr. constructor; [now rewrite Ha | now apply IH].
      * intros Hall. inversion Hall; subst. now apply IH.
    + cbn [snd]. split; [discriminate | ].
      intros Hall. inversion Hall as [ | ? ? Hhd _]; subst.
      rewrite Ha in Hhd. exact Hhd.
Qed.

Lemma for_each_output {F A} (l : list A) (body : A -> io F unit) :
  snd (for_each l body) = Return tt ->
  for_each l body = (flat_map (fun a => fst (body a)) l, Return tt).
Proof.
  induction l as [ | a l IH]; cbn [for_each flat_map]; [reflexivity | ].
  unfold bind. destruct (body a) as [o [[] | e]]; [ | discriminate].
  destruct (for_each l body) as [o' r']. cbn [snd fst] in IH |- *.
  intros Hr. specialize (IH Hr). now inversion IH.
Qed.

Lemma bind_assoc {F A B C} (m : io F A) (k : A -> io F B) (h : B -> io F C) :
  bind (bind m k) h = bind m (fun x => bind (k x) h).
Proof.
  destruct m as [o [a | e]]; [ | reflexivity]. cbn [bind].
  destruct (k a) as [o' [b | e']]; [ | reflexivity]. cbn [bind].
  destruct (h b) as [o'' r]. now rewrite app_assoc.
Qed.

Lemma for_each_app {F A} (l1 l2 : list A) (body : A -> io F unit) :
  for_each (l1 ++ l2) body = bind (for_each l1 body) (fun _ => for_each l2 body).
Proof.
  induction l1 as [ | a l1 IH]; cbn [app for_each].
  - unfold ret, bind. now destruct (for_each l2 body).
  - now rewrite IH, bind_assoc.
Qed.

Lemma for_each_map {F A B} (g : A -> B) (l : list A) (body : B -> io F unit) :
  for_each (map g l) body = for_each l (fun a => body (g a)).
Proof.
  induction l as [ | a l IH]; cbn [map for_each]; [reflexivity | now rewrite IH].
Qed.

(** Two nested loops visit the pairs in the order of [list_prod]. *)
Lemma for_each_list_prod {F A B} (l1 : list A) (l2 : list B)
      (body : A * B -> io F unit) :
  for_each l1 (fun a => for_each l2 (fun b => body (a, b)))
  = for_each (list_prod l1 l2) body.
Proof.
  induction l1 as [ | a l1 IH]; cbn [list_prod for_each]; [reflexivity | ].
  now rewrite for_each_app, for_each_map, IH.
Qed.

Lemma subset_lengths {F} `{Float F} (c s : Series F) :
  List.length (convert (map fst (subset c s)))
  = List.length (convert (map snd (subset c s))).
Proof. now rewrite !convert_length, !length_map. Qed.

(** The body of the double loop returns when both columns exist and the
    pair has two complete rows, and then it has printed one line. *)
Lemma pair_returns {F} `{Float F} stat (df : DataFrame F) (cond symp : string) :
  let body :=
    (columns <- lift (getitem_pair df cond symp) ;;
     correlate stat cond symp (fst columns) (snd columns))%io in
  (snd body = Return tt <->
   exists c s, getitem df cond = Return c /\ getitem df symp = Return s /\
               (2 <= List.length (subset c s))%nat) /\
  (snd body = Return tt ->
   exists c s r_val p_val,
     getitem df cond = Return c /\ getitem df symp = Return s /\
     pearsonr stat (convert (map fst (subset c s))) (convert (map snd (subset c s)))
     = Return (r_val, p_val) /\
     fst body = [Correlation (substring 0 15 cond) (substring 0 15 symp)
                             r_val (significance p_val)]).
Proof.
  cbv zeta. unfold lift, bind, getitem_pair.
  destruct (getitem df cond) as [c | e1], (getitem df symp) as [s | e2].
  2-4: cbn; (split; [split; [discriminate | ] | discriminate]);
       intros [c' [s' [Hc [Hs _]]]]; discriminate.
  cbn [fst snd]. unfold correlate, lift, bind, print.
  destruct (pearsonr stat _ _) as [[r_val p_val] | e] eqn:Hp.
  - cbn [fst snd app]. split.
    + split; [ | reflexivity]. intros _. exists c, s. repeat split.
      unfold pearsonr in Hp. rewrite subset_lengths, Nat.eqb_refl in Hp.
      cbn [negb] in Hp. rewrite convert_length, length_map in Hp.
      destruct (List.length (subset c s) <? 2)%nat eqn:Hn; [discriminate | ].
      now apply Nat.ltb_ge in Hn.
    + intros _. exists c, s, r_val, p_val. repeat split. exact Hp.
  - cbn [fst snd]. split; [split; [discriminate | ] | discriminate].
    intros [c' [s' [Hc [Hs Hn]]]]. inversion Hc; inversion Hs; subst c' s'.
    unfold pearsonr in Hp. rewrite subset_lengths, Nat.eqb_refl in Hp.
    cbn [negb] in Hp. rewrite convert_length, length_map in Hp.
    apply Nat.ltb_ge in Hn. rewrite Hn in Hp.
    destruct (constant _ || constant _); discriminate.
Qed.

Lemma correlations_as_loop {F} `{Float F} stat (df : DataFrame F) :
  analyze_correlations stat df
  = (print (Text "--- Table 4: Correlation Coefficient (r) Matrix ---") ;;
     for_each (list_prod conditions symptoms)
       (fun pair => columns <- lift (getitem_pair df (fst pair) (snd pair)) ;;
                    correlate stat (fst pair) (snd pair)
                      (fst columns) (snd columns)) ;;
     print (Text newline))%io.
Proof.
  unfold analyze_correlations.
  now rewrite <- (for_each_list_prod conditions symptoms
                    (fun pair =>
                       columns <- lift (getitem_pair df (fst pair) (snd pair)) ;;
                       correlate stat (fst pair) (snd pair)
                         (fst columns) (snd columns))%io).
Qed.

Lemma correlations_return {F} `{Float F} stat (df : DataFrame F) :
  snd (analyze_correlations stat df) = Return tt <->
  Forall (fun pair =>
            exists c s, getitem df (fst pair) = Return c /\
                        getitem df (snd pair) = Return s /\
                        (2 <= List.length (subset c s))%nat)
         (list_prod conditions symptoms).
Proof.
  rewrite correlations_as_loop.
  set (body := fun pair : string * string => _).
  assert (Hret : snd (print (Text "--- Table 4: Correlation Coefficient (r) Matrix ---") ;;
                      for_each (list_prod conditions symptoms) body ;;
                      print (Text newline))%io = Return tt <->
                 snd (for_each (list_prod conditions symptoms) body) = Return tt).
  { unfold print, bind.
    destruct (for_each (list_prod conditions symptoms) body) as [o [[] | e]];
      cbn; split; congruence. }
  rewrite Hret, for_each_Return.
  split; intros Hall; eapply Forall_impl; try exact Hall;
    intros [cond symp] Hpair; cbn [fst snd] in Hpair |- *;
    now apply (proj1 (pair_returns stat df cond symp)).
Qed.

(** X9: Table 4 is printed to its end exactly when the six columns exist
    and each of the nine pairs has two rows or more where neither cell is
    missing; no other exception can arise, the two sequences handed to
    [pearsonr] having the same length.  The table then has nine lines, for
    the pairs in the order of the two loops, and the first fifteen
    characters of the condition give every line the same label. *)
Theorem correlation_table_is_complete :
  forall (F : Type) (Fl : Float F) (stat : list F -> list F -> F * F)
         (df : DataFrame F),
    (snd (analyze_correlations stat df) = Return tt <->
     Forall (fun pair =>
               exists c s, getitem df (fst pair) = Return c /\
                           getitem df (snd pair) = Return s /\
                           (2 <= List.length (subset c s))%nat)
            (list_prod conditions symptoms)) /\
    (snd (analyze_correlations stat df) = Return tt ->
     exists lines,
       fst (analyze_correlations stat df)
       = [Text "--- Table 4: Correlation Coefficient (r) Matrix ---"]
         ++ lines ++ [Text newline] /\
       Forall2 (fun pair line =>
                  exists c s r_val p_val,
                    getitem df (fst pair) = Return c /\
                    getitem df (snd pair) = Return s /\
                    pearsonr stat (convert (map fst (subset c s)))
                                  (convert (map snd (subset c s)))
                    = Return (r_val, p_val) /\
                    line = Correlation "Condition [Do y" (substring 0 15 (snd pair))
                                       r_val (significance p_val))
               (list_prod conditions symptoms) lines).
Proof.
  intros F Fl stat df. split; [apply correlations_return | ].
  rewrite correlations_as_loop.
  set (body := fun pair : string * string => _).
  intros Hr.
  assert (Hloop : snd (for_each (list_prod conditions symptoms) body) = Return tt).
  { revert Hr. unfold print, bind.
    destruct (for_each (list_prod conditions symptoms) body) as [o [[] | e]];
      cbn; congruence. }
  pose proof (for_each_output _ _ Hloop) as Hout.
  apply for_each_Return in Hloop.
  exists (flat_map (fun pair => fst (body pair)) (list_prod conditions symptoms)).
  split; [now rewrite Hout | ].
  assert (Hlabel : Forall (fun pair => substring 0 15 (fst pair) = "Condition [Do y")
                          (list_prod conditions symptoms))
    by (repeat constructor).
  clear Hr Hout. revert Hloop Hlabel.
  generalize (list_prod conditions symptoms). intros pairs.
  induction pairs as [ | [cond symp] pairs IH]; intros Hr Hlabel;
    cbn [flat_map]; [constructor | ].
  inversion Hr as [ | ? ? Hhd Htl]; subst.
  inversion Hlabel as [ | ? ? Hl1 Hl2]; subst.
  cbn [fst snd] in Hhd, Hl1.
  destruct (proj2 (pair_returns stat df cond symp) Hhd)
    as [c [s [r_val [p_val [Hc [Hs [Hp Hline]]]]]]].
  unfold body at 1. cbn [fst snd]. rewrite Hline. cbn [app].
  constructor; [ | now apply IH].
  exists c, s, r_val, p_val. cbn [fst snd]. rewrite <- Hl1. now repeat split.
Qed.

(** ** Table 5: columns by position *)

Lemma floats_numeric {F} `{Float F} (s : Series F) :
  if numeric s then exists xs, floats s = Return xs
  else floats s = Raise TypeError.
Proof.
  unfold floats, numeric. induction s as [ | [x | t] s IH]; cbn [forallb outcome_map].
  - now exists [].
  - cbn [andb outcome_bind]. destruct (forallb _ s).
    + destruct IH as [xs ->]. now exists (x :: xs).
    + now rewrite IH.
  - reflexivity.
Qed.

Lemma iloc_from_end_Return {F} (df : DataFrame F) (k : nat) :
  (1 <= k <= List.length df)%nat ->
  iloc_from_end df k = Return (snd (nth (List.length df - k) df ("", []))).
Proof.
  intros [Hk Hlen]. unfold iloc_from_end.
  apply Nat.leb_le in Hk. rewrite Hk.
  pose proof Hlen as Hlen'. apply Nat.leb_le in Hlen'. rewrite Hlen'. cbn [andb].
  apply Nat.leb_le in Hk.
  rewrite (nth_error_nth' df ("", [])) by lia. reflexivity.
Qed.

Lemma iloc_from_end_Raise {F} (df : DataFrame F) (k : nat) :
  (List.length df < k)%nat -> iloc_from_end df k = Raise IndexError.
Proof.
  intros Hk. unfold iloc_from_end. apply Nat.leb_gt in Hk.
  now rewrite Hk, andb_false_r.
Qed.

Lemma iloc_from_end_app {F} (extra df : DataFrame F) (k : nat) :
  (1 <= k <= List.length df)%nat ->
  iloc_from_end (extra ++ df) k = iloc_from_end df k.
Proof.
  intros Hk.
  rewrite (iloc_from_end_Return (extra ++ df)) by (rewrite length_app; lia).
  rewrite (iloc_from_end_Return df) by lia.
  rewrite length_app, app_nth2 by lia. do 3 f_equal. lia.
Qed.

Lemma iloc_from_end_rename {F} (rename : string -> string) (df : DataFrame F) (k : nat) :
  iloc_from_end (map (fun e => (rename (fst e), snd e)) df) k = iloc_from_end df k.
Proof.
  unfold iloc_from_end. rewrite length_map, nth_error_map.
  now destruct (nth_error df (List.length df - k)).
Qed.

Lemma analyze_sensors_ext {F} `{Float F} (df df' : DataFrame F) :
  (forall k, In k sensor_offsets -> iloc_from_end df k = iloc_from_end df' k) ->
  analyze_sensors df = analyze_sensors df'.
Proof.
  intros Hk. unfold analyze_sensors, min_max_mean.
  rewrite (Hk 4%nat), (Hk 6%nat), (Hk 2%nat) by (cbn; tauto). reflexivity.
Qed.

(** X10: Table 5 finds its columns by their distance from the last one and
    never by name: with six columns or more, columns put in front of the
    table and new names for all its columns leave the routine as it is. *)
Theorem sensor_columns_are_found_by_position :
  forall (F : Type) (Fl : Float F) (df extra : DataFrame F)
         (rename : string -> string),
    (6 <= List.length df)%nat ->
    analyze_sensors (extra ++ map (fun e => (rename (fst e), snd e)) df)
    = analyze_sensors df.
Proof.
  intros F Fl df extra rename Hlen. apply analyze_sensors_ext.
  intros k Hk.
  assert (Hk6 : (1 <= k <= 6)%nat)
    by (cbn in Hk; destruct Hk as [<- | [<- | [<- | []]]]; lia).
  rewrite iloc_from_end_app by (rewrite length_map; lia).
  apply iloc_from_end_rename.
Qed.

(** The log of [steady_pm25] behind the columns of a survey, its columns
    renamed. *)
Lemma sensor_columns_witness :
  analyze_sensors
    (survey_without_floor
     ++ map (fun e => (("Sensor " ++ fst e)%string, snd e)) steady_pm25)
  = analyze_sensors steady_pm25.
Proof.
  apply (sensor_columns_are_found_by_position float binary64 steady_pm25
           survey_without_floor (fun name => ("Sensor " ++ name)%string)).
  cbn. lia.
Defined.

Lemma min_max_mean_numeric {F} `{Float F} (df : DataFrame F) (k : nat) :
  (1 <= k <= List.length df)%nat ->
  if numeric (snd (nth (List.length df - k) df ("", [])))
  then exists v, min_max_mean df k = Return v
  else min_max_mean df k = Raise TypeError.
Proof.
  intros Hk. unfold min_max_mean. rewrite iloc_from_end_Return by exact Hk.
  cbn [outcome_bind].
  pose proof (floats_numeric (snd (nth (List.length df - k) df ("", [])))) as Hf.
  destruct (numeric _).
  - destruct Hf as [xs ->]. cbn [outcome_bind]. eauto.
  - now rewrite Hf.
Qed.

(** When Table 5 is printed: the three sensor columns exist and hold
    floats. *)
Lemma sensors_return {F} `{Float F} (df : DataFrame F) :
  snd (analyze_sensors df) = Return tt <->
  Forall (fun k => exists s, iloc_from_end df k = Return s /\ numeric s = true)
         sensor_offsets.
Proof.
  unfold sensor_offsets.
  destruct (Nat.le_gt_cases 6 (List.length df)) as [Hlen | Hlen].
  - pose proof (min_max_mean_numeric df 4 ltac:(lia)) as H4.
    pose proof (min_max_mean_numeric df 6 ltac:(lia)) as H6.
    pose proof (min_max_mean_numeric df 2 ltac:(lia)) as H2.
    unfold analyze_sensors.
    rewrite !Forall_cons_iff, !iloc_from_end_Return by lia.
    destruct (numeric (snd (nth (List.length df - 4) df ("", [])))) eqn:E4.
    2:{ rewrite H4. cbn. split; [discriminate | ].
        intros [[s [Hs Hn]] _]. inversion Hs; subst s. congruence. }
    destruct H4 as [v4 ->].
    destruct (numeric (snd (nth (List.length df - 6) df ("", [])))) eqn:E6.
    2:{ rewrite H6. cbn. split; [discriminate | ].
        intros [_ [[s [Hs Hn]] _]]. inversion Hs; subst s. congruence. }
    destruct H6 as [v6 ->].
    destruct (numeric (snd (nth (List.length df - 2) df ("", [])))) eqn:E2.
    2:{ rewrite H2. cbn. split; [discriminate | ].
        intros [_ [_ [[s [Hs Hn]] _]]]. inversion Hs; subst s. congruence. }
    destruct H2 as [v2 ->].
    cbn. split; [ | reflexivity]. intros _. repeat split; eauto.
  - unfold analyze_sensors.
    assert (H6 : min_max_mean df 6 = Raise IndexError)
      by (unfold min_max_mean; now rewrite iloc_from_end_Raise).
    rewrite H6.
    split.
    + destruct (min_max_mean df 4); discriminate.
    + rewrite !Forall_cons_iff, (iloc_from_end_Raise df 6 Hlen).
      intros [_ [[s [Hs _]] _]]. discriminate.
Qed.

(** X11: with six columns or more, Table 5 fails on a sensor column that
    holds a string and on nothing else: it then raises [TypeError] and has
    printed nothing; missing readings do no harm. *)
Theorem sensor_table_needs_floats :
  forall (F : Type) (Fl : Float F) (df : DataFrame F),
    (6 <= List.length df)%nat ->
    if forallb (fun k => numeric (snd (nth (List.length df - k) df ("", []))))
               sensor_offsets
    then snd (analyze_sensors df) = Return tt
    else analyze_sensors df = ([], Raise TypeError).
Proof.
  intros F Fl df Hlen. unfold sensor_offsets. cbn [forallb].
  pose proof (min_max_mean_numeric df 4 ltac:(lia)) as H4.
  pose proof (min_max_mean_numeric df 6 ltac:(lia)) as H6.
  pose proof (min_max_mean_numeric df 2 ltac:(lia)) as H2.
  unfold analyze_sensors.
  destruct (numeric (snd (nth (List.length df - 4) df ("", [])))); cbn [andb];
    [destruct H4 as [v4 ->] | now rewrite H4].
  destruct (numeric (snd (nth (List.length df - 6) df ("", [])))); cbn [andb];
    [destruct H6 as [v6 ->] | now rewrite H6].
  destruct (numeric (snd (nth (List.length df - 2) df ("", [])))); cbn [andb];
    [destruct H2 as [v2 ->] | now rewrite H2].
  reflexivity.
Qed.

(** A log with its label column last but one, and the log as it should
    be. *)
Lemma sensor_table_needs_floats_witness :
  analyze_sensors (steady_pm25 ++ [("Label", [Str "ok"]); ("Site", [Num 1%float])])
  = ([], Raise TypeError) /\
  snd (analyze_sensors steady_pm25) = Return tt.
Proof.
  split.
  - apply (sensor_table_needs_floats float binary64
             (steady_pm25 ++ [("Label", [Str "ok"]); ("Site", [Num 1%float])])).
    cbn. lia.
  - apply (sensor_table_needs_floats float binary64 steady_pm25). cbn. lia.
Defined.

(** ** The job as a whole *)

Lemma first_missing_app {F} (df : DataFrame F) (cols cols' : list string) :
  first_missing df (cols ++ cols') = None <->
  first_missing df cols = None /\ first_missing df cols' = None.
Proof.
  unfold first_missing. induction cols as [ | col cols IH]; cbn [app find].
  - tauto.
  - destruct (negb (has_column df col)); [ | exact IH].
    split; [discriminate | intros [Hc _]; discriminate Hc].
Qed.

Lemma ready_for_tables_1_to_3 {F} `{Float F} pandas (df : DataFrame F) :
  (snd (analyze_demographics df) = Return tt <->
   first_missing df demographics_columns = None) /\
  (snd (analyze_perception pandas df) = Return tt <->
   first_missing df perception_columns = None) /\
  (snd (analyze_symptoms_matrix df) = Return tt <->
   first_missing df matrix_columns = None).
Proof.
  pose proof (demographics_columns_checked df) as H1.
  pose proof (perception_columns_checked pandas df) as H2.
  pose proof (matrix_columns_checked df) as H3.
  repeat split; intros Hr;
    destruct (first_missing df demographics_columns),
      (first_missing df perception_columns), (first_missing df matrix_columns);
    rewrite ?H1, ?H2, ?H3 in *; cbn [snd] in *;
    try discriminate; try reflexivity; try assumption.
Qed.

(** X12: the job reaches its end exactly when the survey has the columns
    of Tables 1, 2 and 3, every pair of Table 4 has two rows or more where
    neither cell is missing, and the three sensor columns exist and hold
    floats.  It has then printed the banner, the five tables in the order of
    the calls and the closing note. *)
Theorem job_completes_iff :
  forall (F : Type) (Fl : Float F) (stat : list F -> list F -> F * F)
         (pandas : version) (df : DataFrame F),
    (snd (main stat pandas df) = Return tt <->
     first_missing df (demographics_columns ++ perception_columns ++ matrix_columns)
     = None /\
     Forall (fun pair =>
               exists c s, getitem df (fst pair) = Return c /\
                           getitem df (snd pair) = Return s /\
                           (2 <= List.length (subset c s))%nat)
            (list_prod conditions symptoms) /\
     Forall (fun k => exists s, iloc_from_end df k = Return s /\ numeric s = true)
            sensor_offsets) /\
    (snd (main stat pandas df) = Return tt ->
     fst (main stat pandas df)
     = banner ++ flat_map (fun r => fst (r df)) (routines stat pandas) ++ footer).
Proof.
  intros F Fl stat pandas df.
  assert (Hloop : snd (main stat pandas df) = Return tt <->
                  snd (for_each (routines stat pandas) (fun r => r df)) = Return tt).
  { rewrite main_runs_routines. unfold print, bind, banner.
    destruct (for_each (routines stat pandas) (fun r => r df)) as [o [[] | e]];
      cbn; split; congruence. }
  split.
  - rewrite Hloop, for_each_Return. unfold routines.
    rewrite !Forall_cons_iff, !first_missing_app.
    destruct (ready_for_tables_1_to_3 pandas df) as [H1 [H2 H3]].
    rewrite H1, H2, H3, correlations_return, sensors_return.
    pose proof (Forall_nil (fun r : DataFrame F -> io F unit => snd (r df) = Return tt)).
    tauto.
  - intros Hr. apply Hloop in Hr.
    rewrite main_runs_routines, (for_each_output _ _ Hr).
    unfold banner, footer, print, bind. reflexivity.
Qed.

(** A survey with every column, three complete rows for every pair and a
    sensor log in its last six columns. *)
Lemma job_completes_witness :
  snd (main unreached Before3 complete_survey) = Return tt /\
  snd (main unreached From3 complete_survey) = Return tt.
Proof.
  split.
  - apply (proj1 (job_completes_iff float binary64 unreached Before3 complete_survey)).
    split; [reflexivity | split].
    + repeat constructor;
        (eexists; eexists; split; [reflexivity | split; [reflexivity | cbn; lia]]).
    + repeat constructor; (eexists; split; reflexivity).
  - apply (proj1 (job_completes_iff float binary64 unreached From3 complete_survey)).
    split; [reflexivity | split].
    + repeat constructor;
        (eexists; eexists; split; [reflexivity | split; [reflexivity | cbn; lia]]).
    + repeat constructor; (eexists; split; reflexivity).
Defined.

(** ** The order of the columns *)

Lemma getitem_In {F} (df : DataFrame F) (col : string) (s : Series F) :
  NoDup (map fst df) -> In (col, s) df -> getitem df col = Return s.
Proof.
  unfold getitem. induction df as [ | [name t] df IH]; intros Hnd Hin; [destruct Hin | ].
  cbn [find fst]. inversion Hnd as [ | ? ? Hname Hnd']; subst.
  destruct (String.eqb_spec col name) as [-> | Hne].
  - destruct Hin as [Heq | Hin]; [now inversion Heq | ].
    exfalso. apply Hname. apply in_map_iff. now exists (name, s).
  - destruct Hin as [Heq | Hin]; [inversion Heq; congruence | ].
    now apply IH.
Qed.

Lemma getitem_not_In {F} (df : DataFrame F) (col : string) :
  ~ In col (map fst df) -> getitem df col = Raise (KeyError col).
Proof.
  unfold getitem. induction df as [ | [name t] df IH]; intros Hin; [reflexivity | ].
  cbn [find fst]. destruct (String.eqb_spec col name) as [-> | Hne].
  - exfalso. apply Hin. now left.
  - apply IH. intros Hc. apply Hin. now right.
Qed.

Lemma getitem_Permutation {F} (df df' : DataFrame F) (col : string) :
  NoDup (map fst df) -> Permutation df df' -> getitem df col = getitem df' col.
Proof.
  intros Hnd Hp.
  assert (Hnd' : NoDup (map fst df'))
    by (eapply Permutation_NoDup; [apply Permutation_map; exact Hp | exact Hnd]).
  destruct (in_dec string_dec col (map fst df)) as [Hin | Hin].
  - apply in_map_iff in Hin as [[name s] [Hname Hin]]. cbn [fst] in Hname. subst name.
    rewrite (getitem_In df col s Hnd Hin).
    symmetry. apply getitem_In; [exact Hnd' | ].
    eapply Permutation_in; eassumption.
  - rewrite (getitem_not_In df col Hin). symmetry. apply getitem_not_In.
    intros Hc. apply Hin. eapply Permutation_in; [ | exact Hc].
    apply Permutation_sym, Permutation_map, Hp.
Qed.

Lemma outcome_map_ext {A B} (f g : A -> outcome B) (l : list A) :
  (forall a, f a = g a) -> outcome_map f l = outcome_map g l.
Proof.
  intros Hfg. induction l as [ | a l IH]; cbn [outcome_map]; [reflexivity | ].
  now rewrite Hfg, IH.
Qed.

Lemma for_each_ext {F A} (l : list A) (body body' : A -> io F unit) :
  (forall a, body a = body' a) -> for_each l body = for_each l body'.
Proof.
  intros Hb. induction l as [ | a l IH]; cbn [for_each]; [reflexivity | ].
  now rewrite Hb, IH.
Qed.

(** Tables 1 to 4 see the survey through [df[col]] only. *)
Lemma tables_1_to_4_ext {F} `{Float F} stat pandas (df df' : DataFrame F) :
  (forall col, getitem df col = getitem df' col) ->
  analyze_demographics df = analyze_demographics df' /\
  analyze_perception pandas df = analyze_perception pandas df' /\
  analyze_symptoms_matrix df = analyze_symptoms_matrix df' /\
  analyze_correlations stat df = analyze_correlations stat df'.
Proof.
  intros Hget. repeat split.
  - unfold analyze_demographics, status_counts, gender_counts, duration_dist.
    now rewrite !Hget.
  - unfold analyze_perception. f_equal. f_equal. apply outcome_map_ext.
    intros [label col]. now rewrite Hget.
  - unfold analyze_symptoms_matrix. f_equal. f_equal. apply outcome_map_ext.
    intros symptom. rewrite (Hget floor_col).
    destruct (getitem df' floor_col); [ | reflexivity]. cbn [outcome_bind].
    unfold groupby_getitem. now rewrite Hget.
  - unfold analyze_correlations.
    rewrite (for_each_ext conditions _
               (fun cond => for_each symptoms (fun symp =>
                  columns <- lift (getitem_pair df' cond symp) ;;
                  correlate stat cond symp (fst columns) (snd columns)))%io);
      [reflexivity | ].
    intros cond. apply for_each_ext. intros symp.
    unfold getitem_pair. now rewrite !Hget.
Qed.

(** X13: Tables 1 to 4 find their columns by name: when no two columns of
    the survey have the same name, the order of the columns is immaterial
    to them. *)
Theorem tables_1_to_4_ignore_column_order :
  forall (F : Type) (Fl : Float F) (stat : list F -> list F -> F * F)
         (pandas : version) (df df' : DataFrame F),
    NoDup (map fst df) ->
    Permutation df df' ->
    analyze_demographics df = analyze_demographics df' /\
    analyze_perception pandas df = analyze_perception pandas df' /\
    analyze_symptoms_matrix df = analyze_symptoms_matrix df' /\
    analyze_correlations stat df = analyze_correlations stat df'.
Proof.
  intros F Fl stat pandas df df' Hnd Hp. apply tables_1_to_4_ext.
  intros col. now apply getitem_Permutation.
Qed.

(** The survey [complete_survey] with its columns in the opposite order:
    Tables 1 to 4 are the same, and Table 5 is another, which now reads
    survey answers. *)
Lemma column_order_witness :
  (analyze_demographics complete_survey = analyze_demographics (rev complete_survey) /\
   analyze_perception Before3 complete_survey
   = analyze_perception Before3 (rev complete_survey) /\
   analyze_symptoms_matrix complete_survey
   = analyze_symptoms_matrix (rev complete_survey) /\
   analyze_correlations unreached complete_survey
   = analyze_correlations unreached (rev complete_survey)) /\
  analyze_sensors complete_survey <> analyze_sensors (rev complete_survey).
Proof.
  split.
  - apply (tables_1_to_4_ignore_column_order float binary64 unreached Before3
             complete_survey (rev complete_survey)).
    + rewrite <- (eq_refl : nodup string_dec (map fst complete_survey)
                            = map fst complete_survey).
      apply NoDup_nodup.
    + apply Permutation_rev.
  - vm_compute. discriminate.
Defined.

(** ** One column, two codings *)

Lemma uniform_without_yes {F} `{Float F} (c s : Series F) :
  forallb (fun x => negb (is_yes x)) s = true ->
  uniform (map snd (subset c s)) = true.
Proof.
  intros Hno. rewrite forallb_forall in Hno.
  assert (Hrows : forall x, In x (map snd (subset c s)) -> is_yes x = false).
  { intros x Hx. apply in_map_iff in Hx as [[a b] [<- Hr]].
    apply filter_In in Hr as [Hr _]. apply in_combine_r in Hr.
    apply negb_true_iff. now apply Hno. }
  unfold uniform. destruct (map snd (subset c s)) as [ | x0 t]; [reflexivity | ].
  apply forallb_forall. intros x Hx.
  now rewrite (Hrows x Hx), (Hrows x0 (or_introl eq_refl)).
Qed.

Lemma filter_none {A} (f : A -> bool) (l : list A) :
  (forall a, In a l -> f a = false) -> filter f l = [].
Proof.
  intros Hf. induction l as [ | a l IH]; [reflexivity | ].
  cbn [filter]. rewrite (Hf a (or_introl eq_refl)).
  apply IH. intros b Hb. apply Hf. now right.
Qed.

(** X14: "Symptoms [Fatigue]" and "Symptoms [Difficulties concentrating]"
    are read by Table 3, which counts the cells equal to the number 1, and
    by Table 4, which counts the cells equal to the string "Yes".  A column
    without the string "Yes" -- one coded by numbers -- gets no coefficient
    in Table 4: [ValueError] or [nan].  A column without the number 1 -- one
    coded by "Yes" and "No" -- gets 0 for every floor in Table 3. *)
Theorem symptom_coding_serves_one_table :
  forall (stat : list number -> list number -> number * number)
         (cond symp : string) (floor c s : Series number),
    List.length floor = List.length s ->
    (forallb (fun x => negb (is_yes x)) s = true ->
     correlate stat cond symp c s
     = if (List.length (subset c s) <? 2)%nat then ([], Raise ValueError)
       else ([Correlation (substring 0 15 cond) (substring 0 15 symp) NaN ""],
             Return tt)) /\
    (forallb (fun x => negb (cell_eqb x (Num (Fin 1)))) s = true ->
     Forall (fun entry => snd entry =~ Fin 0) (groupby_apply floor s presence_pct)).
Proof.
  intros stat cond symp floor c s Hlen. split.
  - intros Hno.
    rewrite (@correlate_from_cells number exact eq_refl eq_refl eq_refl eq_refl eq_refl
               eq_refl eq_refl eq_refl stat cond symp c s).
    cbv zeta. rewrite (uniform_without_yes c s Hno), orb_true_r. reflexivity.
  - intros Hno. rewrite forallb_forall in Hno.
    apply Forall_forall. intros [k v] Hin. cbn [snd].
    destruct (groupby_cell_exact floor s k v Hlen Hin) as [_ [_ [_ Hv]]].
    eapply number_eq_Fin; [exact Hv | ].
    assert (Hnil : filter (fun r => cell_eqb (snd r) (Num (Fin 1)))
                     (filter (fun r => cell_eqb k (fst r)) (combine floor s)) = []).
    { apply filter_none. intros [a b] Hr. cbn [snd].
      apply filter_In in Hr as [Hr _]. apply in_combine_r in Hr.
      apply negb_true_iff. now apply Hno. }
    rewrite Hnil. unfold share, Qdiv. cbn [List.length Z.of_nat inject_Z]. ring.
Qed.

(** A column coded by numbers and a column coded by "Yes" and "No", over
    two floors. *)
Lemma symptom_coding_witness :
  correlate unreached "Condition" "Symptoms"
    [Str "Yes"; Str "No"; Str "Yes"] [Num (Fin 1); Num (Fin 0); Num (Fin 1)]
  = ([Correlation "Condition" "Symptoms" NaN ""], Return tt) /\
  Forall (fun entry => snd entry =~ Fin 0)
         (groupby_apply [Str "F1"; Str "F2"; Str "F1"]
            [Str "Yes"; Str "No"; Str "Yes"] presence_pct).
Proof.
  split.
  - apply (proj1 (symptom_coding_serves_one_table unreached "Condition" "Symptoms"
                    [Str "F1"; Str "F2"; Str "F1"] [Str "Yes"; Str "No"; Str "Yes"]
                    [Num (Fin 1); Num (Fin 0); Num (Fin 1)] eq_refl)).
    reflexivity.
  - apply (proj2 (symptom_coding_serves_one_table unreached "Condition" "Symptoms"
                    [Str "F1"; Str "F2"; Str "F1"] [Str "Yes"; Str "No"; Str "Yes"]
                    [Str "Yes"; Str "No"; Str "Yes"] eq_refl)).
    reflexivity.
Defined.

(** ** The marker and the order of p-values *)

Lemma SFleb_ltb_trans (x y z : spec_float) :
  SFleb x y = true -> SFltb y z = true -> SFltb x z = true.
Proof.
  unfold SFleb, SFltb.
  destruct x as [sx | sx | | sx mx ex], y as [sy | sy | | sy my ey],
    z as [sz | sz | | sz mz ez]; cbn [SFcompare];
    try destruct sx; try destruct sy; try destruct sz;
    try discriminate; try reflexivity;
    intros Hxy Hyz; compare_cases; try discriminate; try reflexivity; lia.
Qed.

Lemma float_leb_ltb_trans (a b c : float) :
  PrimFloat.leb a b = true -> PrimFloat.ltb b c = true -> PrimFloat.ltb a c = true.
Proof.
  rewrite FloatAxioms.leb_spec, !FloatAxioms.ltb_spec. apply SFleb_ltb_trans.
Qed.

(** X15: of two p-values the smaller never has the weaker marker, in exact
    and in binary64 arithmetic. *)
Theorem smaller_p_value_has_no_weaker_marker :
  (forall (a : Q) (q : number),
      at_least q a ->
      (strength (significance q) <= strength (significance (Fin a)))%nat) /\
  (forall p q : float,
      PrimFloat.leb p q = true ->
      (strength (significance q) <= strength (significance p))%nat).
Proof.
  split.
  - intros a [ | b]; cbn [at_least]; [tauto | ]. intros Hab.
    unfold significance. cbn [ltb exact number_ltb lit].
    destruct (Qle_bool (1 # 100) b) eqn:Hb1, (Qle_bool (5 # 100) b) eqn:Hb5,
      (Qle_bool (1 # 100) a) eqn:Ha1, (Qle_bool (5 # 100) a) eqn:Ha5;
      cbn [negb strength String.eqb Ascii.eqb Bool.eqb]; try lia;
      exfalso;
      repeat match goal with
        | H : Qle_bool _ _ = true |- _ => apply Qle_bool_iff in H
        | H : Qle_bool ?x ?y = false |- _ =>
            assert (~ x <= y) by (intros Hle; apply Qle_bool_iff in Hle; congruence);
            clear H
        end; lra.
  - intros p q Hpq. unfold significance. cbn [ltb binary64 lit].
    destruct (PrimFloat.ltb q (float_lit (1 # 100))) eqn:Hq1.
    + now rewrite (float_leb_ltb_trans p q _ Hpq Hq1).
    + destruct (PrimFloat.ltb q (float_lit (5 # 100))) eqn:Hq5.
      * rewrite (float_leb_ltb_trans p q _ Hpq Hq5).
        destruct (PrimFloat.ltb p (float_lit (1 # 100))); cbn; lia.
      * cbn. lia.
Qed.
